(** * E-commerce analytics: RFM, CLV, cohort and behavioural segmentation

    A shallow embedding of the analytics engines of the repository
    (src/analytics/rfm_analysis.py, clv_analysis.py, cohort_analysis.py,
    customer_segmentation.py) and the properties established about them.

    Conventions of the embedding.
    - A pandas DataFrame is a list of typed rows (the columns every engine
      relies on) together with the columns that were added to it by name
      later ([extra]); reading a column that is absent raises [KeyError],
      as [df['name']] does.
    - Python floats are rationals ([Q]): quantile edges, means and ratios
      are exact.  Dates are day numbers (days since 1970-01-01).
    - A method is a computation in the monad [Py.M], which threads the
      objects the method can reach (the caller's tables and [self]) and
      either returns or raises; what was assigned before a [raise] stays
      assigned.
    - [print] calls are not modelled; the clustering of scikit-learn is a
      parameter of the segmentation engine. *)

From Stdlib Require Import ZArith QArith Qround List String Ascii Bool Lia.
From Stdlib Require Import DecimalString.
From Stdlib Require Import OrderedTypeEx.
From Stdlib Require Import Sorted.
Import ListNotations.

Local Open Scope string_scope.
Local Open Scope Z_scope.

(* ================================================================== *)
(** ** Python: exceptions and stateful computations *)

Module Py.

Inductive Error : Type :=
| ValueError (msg : string)
| KeyError (key : string)
| TypeError (msg : string)
| UnboundLocalError (name : string).

Inductive Result (A : Type) : Type :=
| Ok (a : A)
| Raise (e : Error).
Arguments Ok {A} a.
Arguments Raise {A} e.

(** A computation over the reachable objects [S]. *)
Definition M (S A : Type) : Type := S -> S * Result A.

Definition ret {S A} (a : A) : M S A := fun s => (s, Ok a).

Definition bind {S A B} (m : M S A) (k : A -> M S B) : M S B :=
  fun s =>
    match m s with
    | (s', Ok a) => k a s'
    | (s', Raise e) => (s', Raise e)
    end.

Definition raise {S A} (e : Error) : M S A := fun s => (s, Raise e).

Definition get {S} : M S S := fun s => (s, Ok s).

Definition put {S} (s : S) : M S unit := fun _ => (s, Ok tt).

(** Lifting of a pure, possibly raising, expression. *)
Definition lift {S A} (r : Result A) : M S A := fun s => (s, r).

(** [d[key]] on a dict (also a Series looked up by its index); [None] when
    the key is absent. *)
Fixpoint dict_get {V} (key : string) (d : list (string * V)) : option V :=
  match d with
  | [] => None
  | (k, v) :: rest => if String.eqb k key then Some v else dict_get key rest
  end.

End Py.

Import Py.

Declare Scope py_scope.
Delimit Scope py_scope with py.
Notation "x <- m ;; k" := (Py.bind m (fun x => k))
  (at level 61, m at next level, right associativity) : py_scope.
Notation "m ;; k" := (Py.bind m (fun _ => k))
  (at level 61, right associativity) : py_scope.

(* ================================================================== *)
(** ** pandas: cells, frames and the column operations the engines use *)

Module Pd.

(** A date cell: the object the caller supplied (a [datetime.date] or a
    date string, dtype object) or a pandas Timestamp.  Both denote a day. *)
Inductive DateCell : Type :=
| DateObj (day : Z)
| Timestamp (day : Z).

Definition day_of (d : DateCell) : Z :=
  match d with DateObj n => n | Timestamp n => n end.

(** [pd.to_datetime] on one cell. *)
Definition to_datetime (d : DateCell) : DateCell := Timestamp (day_of d).

(** A cell of a column added by name. *)
Inductive Cell : Type :=
| NaN
| Num (q : Q)
| Str (s : string)
| Per (ordinal : Z).          (* a pandas Period, by its ordinal *)

(** A DataFrame: the rows with the columns of the table's schema, and the
    columns that were added by name, each as long as the table.  The names
    in [extra] differ from the names of the schema columns. *)
Record Frame (R : Type) : Type := mkFrame {
  rows : list R;
  extra : list (string * list Cell)
}.
Arguments mkFrame {R} rows extra.
Arguments rows {R} f.
Arguments extra {R} f.

Definition of_rows {R} (rs : list R) : Frame R := mkFrame rs [].

Fixpoint col_lookup (name : string) (cols : list (string * list Cell))
  : option (list Cell) :=
  match cols with
  | [] => None
  | (n, c) :: rest => if String.eqb n name then Some c else col_lookup name rest
  end.

(** [df[name]] *)
Definition col {R} (name : string) (f : Frame R) : Result (list Cell) :=
  match col_lookup name (extra f) with
  | Some c => Ok c
  | None => Raise (KeyError name)
  end.

Fixpoint col_assign (name : string) (c : list Cell)
  (cols : list (string * list Cell)) : list (string * list Cell) :=
  match cols with
  | [] => [(name, c)]
  | (n, c0) :: rest =>
      if String.eqb n name then (n, c) :: rest
      else (n, c0) :: col_assign name c rest
  end.

(** [df[name] = c] *)
Definition set_col {R} (name : string) (c : list Cell) (f : Frame R) : Frame R :=
  mkFrame (rows f) (col_assign name c (extra f)).

Definition has_col {R} (name : string) (f : Frame R) : bool :=
  match col_lookup name (extra f) with Some _ => true | None => false end.

Definition map_rows {R} (g : R -> R) (f : Frame R) : Frame R :=
  mkFrame (map g (rows f)) (extra f).

(** Sorted distinct keys, as [groupby] (sort=True) lists its groups. *)
Fixpoint insert_key (k : string) (ks : list string) : list string :=
  match ks with
  | [] => [k]
  | k0 :: rest =>
      match String.compare k k0 with
      | Lt => k :: ks
      | Eq => ks
      | Gt => k0 :: insert_key k rest
      end
  end.

Definition group_keys (ks : list string) : list string :=
  fold_right insert_key [] ks.

Fixpoint insert_Z (k : Z) (ks : list Z) : list Z :=
  match ks with
  | [] => [k]
  | k0 :: rest =>
      match Z.compare k k0 with
      | Lt => k :: ks
      | Eq => ks
      | Gt => k0 :: insert_Z k rest
      end
  end.

Definition group_keys_Z (ks : list Z) : list Z := fold_right insert_Z [] ks.

(** [Series.nunique] on string keys. *)
Definition nunique (ks : list string) : Z := Z.of_nat (List.length (group_keys ks)).

Definition sumQ (xs : list Q) : Q := fold_left Qplus xs 0%Q.

Definition lenQ {A} (xs : list A) : Q := inject_Z (Z.of_nat (List.length xs)).

(** [Series.mean]; the mean of an empty series is NaN. *)
Definition mean (xs : list Q) : option Q :=
  match xs with
  | [] => None
  | _ => Some (sumQ xs / lenQ xs)%Q
  end.

Fixpoint maxZ (x : Z) (xs : list Z) : Z :=
  match xs with
  | [] => x
  | y :: rest => maxZ (Z.max x y) rest
  end.

Fixpoint minZ (x : Z) (xs : list Z) : Z :=
  match xs with
  | [] => x
  | y :: rest => minZ (Z.min x y) rest
  end.

(** *** Ranking and quantile binning *)

Definition Qltb (x y : Q) : bool := negb (Qle_bool y x).

Definition count_if {A} (p : A -> bool) (xs : list A) : Z :=
  Z.of_nat (List.length (filter p xs)).

(** [Series.rank(method='first', ascending=...)]: the rank of a value is
    one more than the number of values that sort strictly before it plus
    the number of equal values that appear earlier in the series. *)
Fixpoint rank_first_from (ascending : bool) (all seen rest : list Q) : list Z :=
  match rest with
  | [] => []
  | x :: rest' =>
      let before := fun y => if ascending then Qltb y x else Qltb x y in
      (1 + count_if before all + count_if (Qeq_bool x) seen)
        :: rank_first_from ascending all (seen ++ [x]) rest'
  end.

Definition rank_first (ascending : bool) (xs : list Q) : list Z :=
  rank_first_from ascending xs [] xs.

Fixpoint insert_sorted (x : Q) (xs : list Q) : list Q :=
  match xs with
  | [] => [x]
  | y :: rest => if Qle_bool x y then x :: xs else y :: insert_sorted x rest
  end.

Definition sort_values (xs : list Q) : list Q := fold_right insert_sorted [] xs.

(** [Series.quantile(p)] with linear interpolation; NaN on an empty series. *)
Definition quantile (xs : list Q) (p : Q) : option Q :=
  match sort_values xs with
  | [] => None
  | (x0 :: _) as sorted =>
      let n := Z.of_nat (List.length sorted) in
      let h := (inject_Z (n - 1) * p)%Q in
      let i := Qfloor h in
      let lo := nth (Z.to_nat i) sorted x0 in
      let hi := nth (Z.to_nat (Z.min (i + 1) (n - 1))) sorted x0 in
      Some (lo + (h - inject_Z i) * (hi - lo))%Q
  end.

(** [np.linspace(0, 1, q + 1)] *)
Definition linspace01 (q : nat) : list Q :=
  map (fun k => (inject_Z (Z.of_nat k) / inject_Z (Z.of_nat q))%Q) (seq 0 (S q)).

Fixpoint all_some {A} (xs : list (option A)) : option (list A) :=
  match xs with
  | [] => Some []
  | None :: _ => None
  | Some x :: rest =>
      match all_some rest with
      | Some ys => Some (x :: ys)
      | None => None
      end
  end.

Fixpoint distinct (xs : list Q) : bool :=
  match xs with
  | [] => true
  | x :: rest => negb (existsb (Qeq_bool x) rest) && distinct rest
  end.

(** [bins.searchsorted(x, side='left')]: how many edges lie strictly below. *)
Definition searchsorted_left (bins : list Q) (x : Q) : Z :=
  count_if (fun b => Qltb b x) bins.

(** The bin of one value: edges are right-closed, the lowest edge is
    included in the first bin, a value outside every bin is NaN. *)
Definition bin_id (bins : list Q) (x : Q) : option Z :=
  let id0 := searchsorted_left bins x in
  let id := match bins with
            | b0 :: _ => if Qeq_bool x b0 then 1 else id0
            | [] => id0
            end in
  if Z.eqb id (Z.of_nat (List.length bins)) || Z.eqb id 0 then None else Some id.

(** [pd.qcut(x, q, labels)]: quantile edges of [x], which must be
    pairwise distinct, then the label of each value's bin. *)
Definition qcut (x : list Q) (q : nat) (labels : list Z)
  : Result (list (option Z)) :=
  match all_some (map (quantile x) (linspace01 q)) with
  | None => Raise (ValueError "Bin edges must be unique")
  | Some bins =>
      if negb (distinct bins) && negb (Nat.eqb (List.length bins) 2)
      then Raise (ValueError "Bin edges must be unique")
      else if negb (Nat.eqb (List.length labels) (List.length bins - 1))
      then Raise (ValueError "Bin labels must be one fewer than the number of bin edges")
      else Ok (map (fun v =>
                      match bin_id bins v with
                      | Some id => nth_error labels (Z.to_nat (id - 1))
                      | None => None
                      end) x)
  end.

(** [.astype(int)] on a categorical: a missing value cannot be cast. *)
Definition astype_int (xs : list (option Z)) : Result (list Z) :=
  match all_some xs with
  | Some ys => Ok ys
  | None => Raise (ValueError "Cannot convert float NaN to integer")
  end.

(** [str(n)] for an integer. *)
Definition str_of_Z (n : Z) : string := NilZero.string_of_int (Z.to_int n).

(** *** Columns of numbers *)

(** The numeric content of a cell; a string or a period is no number. *)
Definition as_num (c : Cell) : Result (option Q) :=
  match c with
  | NaN => Ok None
  | Num q => Ok (Some q)
  | Str _ => Raise (TypeError "str")
  | Per _ => Raise (TypeError "Period")
  end.

Fixpoint as_nums (cs : list Cell) : Result (list (option Q)) :=
  match cs with
  | [] => Ok []
  | c :: rest =>
      match as_num c with
      | Raise e => Raise e
      | Ok x =>
          match as_nums rest with
          | Raise e => Raise e
          | Ok xs => Ok (x :: xs)
          end
      end
  end.

Definition of_num (x : option Q) : Cell :=
  match x with Some q => Num q | None => NaN end.

(** [fillna] of one cell. *)
Definition fill (v : Q) (c : Cell) : Cell :=
  match c with NaN => Num v | _ => c end.

(** [df.fillna({name: v})]: a name that is no column is ignored. *)
Fixpoint fillna_col (name : string) (v : Q) (cols : list (string * list Cell))
  : list (string * list Cell) :=
  match cols with
  | [] => []
  | (n, c) :: rest =>
      (n, if String.eqb n name then map (fill v) c else c) :: fillna_col name v rest
  end.

Definition clip (lower upper x : Q) : Q :=
  if Qltb x lower then lower else if Qltb upper x then upper else x.

Fixpoint has_name (name : string) (names : list string) : bool :=
  match names with
  | [] => false
  | n :: rest => String.eqb n name || has_name name rest
  end.

(** Which names of a list already appeared before their position. *)
Fixpoint duplicated_from (seen names : list string) : list bool :=
  match names with
  | [] => []
  | n :: rest => has_name n seen :: duplicated_from (n :: seen) rest
  end.

Definition duplicated (names : list string) : list bool :=
  duplicated_from [] names.

(** A renamed label repeats an earlier one although the original did not. *)
Definition new_duplicates (renamed original : list string) : bool :=
  existsb (fun ab => fst ab && negb (snd ab))
          (combine (duplicated renamed) (duplicated original)).

(** The columns of [left.merge(right, on=key)]: a name on both sides gets
    the suffixes [_x] and [_y]; suffixes that produce a name twice are
    refused. *)
Definition merge_columns (left right : list (string * list Cell))
  : Result (list (string * list Cell)) :=
  let lnames := map fst left in
  let rnames := map fst right in
  let left' := map (fun nc => (if has_name (fst nc) rnames
                               then (fst nc ++ "_x")%string else fst nc, snd nc)) left in
  let right' := map (fun nc => (if has_name (fst nc) lnames
                                then (fst nc ++ "_y")%string else fst nc, snd nc)) right in
  if new_duplicates (map fst left') lnames
     || new_duplicates (map fst right') rnames
     || existsb (fun n => has_name n (map fst right')) (map fst left')
  then Raise (ValueError "Passing 'suffixes' which cause duplicate columns is not allowed")
  else Ok (left' ++ right')%list.

(** [Series.rank(pct=True)]: average rank among the values present,
    divided by their number. *)
Definition rank_pct (xs : list (option Q)) : list (option Q) :=
  let present := flat_map (fun x => match x with Some q => [q] | None => [] end) xs in
  map (fun x =>
         match x with
         | None => None
         | Some q =>
             let less := count_if (fun y => Qltb y q) present in
             let equal := count_if (Qeq_bool q) present in
             Some (((inject_Z less + (inject_Z equal + 1) / 2) / lenQ present))%Q
         end) xs.

End Pd.

Import Pd.

(* ================================================================== *)
(** ** Input tables *)

Module Order.
Record t : Type := mk {
  order_id : string;
  customer_id : string;
  order_date : DateCell;
  final_amount : Q
}.
Definition with_order_date (g : DateCell -> DateCell) (o : t) : t :=
  mk (order_id o) (customer_id o) (g (order_date o)) (final_amount o).
End Order.

Module Customer.
Record t : Type := mk {
  customer_id : string;
  signup_date : DateCell;
  age : Z;
  gender : string;
  region : string
}.
Definition with_signup_date (g : DateCell -> DateCell) (c : t) : t :=
  mk (customer_id c) (g (signup_date c)) (age c) (gender c) (region c).
End Customer.

(** What a method call can reach: the two tables the caller passes (by
    reference) and the engine object itself. *)
Record Env (E : Type) : Type := mkEnv {
  orders_df : Frame Order.t;
  customers_df : Frame Customer.t;
  self : E
}.
Arguments mkEnv {E} orders_df customers_df self.
Arguments orders_df {E} e.
Arguments customers_df {E} e.
Arguments self {E} e.

Definition set_orders {E} (o : Frame Order.t) (e : Env E) : Env E :=
  mkEnv o (customers_df e) (self e).
Definition set_customers {E} (c : Frame Customer.t) (e : Env E) : Env E :=
  mkEnv (orders_df e) c (self e).
Definition set_self {E} (x : E) (e : Env E) : Env E :=
  mkEnv (orders_df e) (customers_df e) x.

(** [orders_df['order_date'] = pd.to_datetime(orders_df['order_date'])] *)
Definition convert_order_dates {E} : Py.M (Env E) unit :=
  fun e => (set_orders (map_rows (Order.with_order_date to_datetime) (orders_df e)) e,
            Ok tt).

(** [customers_df['signup_date'] = pd.to_datetime(customers_df['signup_date'])] *)
Definition convert_signup_dates {E} : Py.M (Env E) unit :=
  fun e => (set_customers
              (map_rows (Customer.with_signup_date to_datetime) (customers_df e)) e,
            Ok tt).

(** The orders of one customer, in table order. *)
Definition orders_of (cid : string) (os : list Order.t) : list Order.t :=
  filter (fun o => String.eqb (Order.customer_id o) cid) os.

(* ================================================================== *)
(** ** RFM engine (rfm_analysis.py) *)

Module RFM.

(** One inclusive range box of [segment_rules]. *)
Record Rule : Type := mkRule { R : Z * Z; F : Z * Z; M : Z * Z }.

(** [self.segment_rules], in the order the dict is written. *)
Definition segment_rules : list (string * Rule) :=
  [ ("Champions",           mkRule (4, 5) (4, 5) (4, 5));
    ("Loyal Customers",     mkRule (3, 5) (3, 5) (3, 5));
    ("Potential Loyalists", mkRule (3, 5) (1, 3) (1, 3));
    ("New Customers",       mkRule (4, 5) (1, 1) (1, 1));
    ("Promising",           mkRule (3, 4) (1, 1) (1, 1));
    ("Need Attention",      mkRule (2, 3) (2, 3) (2, 3));
    ("About to Sleep",      mkRule (2, 3) (1, 2) (1, 2));
    ("At Risk",             mkRule (1, 2) (2, 5) (2, 5));
    ("Cannot Lose Them",    mkRule (1, 2) (4, 5) (4, 5));
    ("Hibernating",         mkRule (1, 2) (1, 2) (1, 2));
    ("Lost",                mkRule (1, 1) (1, 1) (1, 1)) ].

(** [segment_priority] of [assign_segment]. *)
Definition segment_priority : list string :=
  [ "Champions"; "Loyal Customers"; "Potential Loyalists";
    "New Customers"; "Promising"; "Cannot Lose Them";
    "At Risk"; "Need Attention"; "About to Sleep";
    "Hibernating"; "Lost" ].

Definition between (range : Z * Z) (x : Z) : bool :=
  (fst range <=? x) && (x <=? snd range).

Definition in_box (rules : Rule) (r f m : Z) : bool :=
  between (R rules) r && between (F rules) f && between (M rules) m.

(** The [for segment in segment_priority] loop. *)
Fixpoint assign_segment_loop (priority : list string) (r f m : Z)
  : Result string :=
  match priority with
  | [] => Ok "Others"
  | segment :: rest =>
      match dict_get segment segment_rules with
      | None => Raise (KeyError segment)
      | Some rules =>
          if in_box rules r f m then Ok segment
          else assign_segment_loop rest r f m
      end
  end.

Definition assign_segment (r f m : Z) : Result string :=
  assign_segment_loop segment_priority r f m.

(** A row of [customer_rfm], the per-customer aggregate of the orders. *)
Record Agg : Type := mkAgg {
  agg_customer_id : string;
  agg_last_order_date : Z;
  agg_frequency : Z;
  agg_monetary : Q
}.

Definition aggregate (os : list Order.t) : list Agg :=
  map (fun cid =>
         let mine := orders_of cid os in
         let days := map (fun o => day_of (Order.order_date o)) mine in
         mkAgg cid
               (match days with d :: ds => maxZ d ds | [] => 0 end)
               (Z.of_nat (List.length mine))
               (sumQ (map Order.final_amount mine)))
      (group_keys (map Order.customer_id os)).

(** A row of [self.rfm_data]: the customer and the merged RFM columns. *)
Record Row : Type := mkRow {
  customer : Customer.t;
  last_order_date : option Z;       (* NaT for a customer without orders *)
  frequency : Z;
  monetary : Q;
  recency : Z;
  R_score : Z;
  F_score : Z;
  M_score : Z;
  RFM_score : string;
  RFM_avg_score : Q
}.

(** The engine object.  [segment_rules] is set once by the constructor and
    never assigned again, it is the constant above; the attribute
    [segments] (the value counts [assign_segments] prints) is read by no
    method and is left out. *)
Record RFMAnalyzer : Type := mkRFMAnalyzer {
  reference_date : Z;
  rfm_data : option (Frame Row)
}.

(** [RFMAnalyzer(reference_date)] *)
Definition init (reference_date : Z) : RFMAnalyzer :=
  mkRFMAnalyzer reference_date None.

(** The scored aggregate rows: [customer_rfm] after the three [qcut]s. *)
Record Scored : Type := mkScored {
  sc_agg : Agg;
  sc_recency : Z;
  sc_R : Z;
  sc_F : Z;
  sc_M : Z
}.

Fixpoint zip_scored (aggs : list Agg) (recs rs fs ms : list Z) : list Scored :=
  match aggs, recs, rs, fs, ms with
  | a :: aggs', c :: recs', r :: rs', f :: fs', m :: ms' =>
      mkScored a c r f m :: zip_scored aggs' recs' rs' fs' ms'
  | _, _, _, _, _ => []
  end.

(** The left merge onto one customer row, followed by [fillna]. *)
Definition merge_row (scored : list Scored) (c : Customer.t) : Row :=
  match find (fun s => String.eqb (agg_customer_id (sc_agg s)) (Customer.customer_id c))
             scored with
  | Some s =>
      mkRow c (Some (agg_last_order_date (sc_agg s)))
            (agg_frequency (sc_agg s)) (agg_monetary (sc_agg s)) (sc_recency s)
            (sc_R s) (sc_F s) (sc_M s)
            (str_of_Z (sc_R s) ++ str_of_Z (sc_F s) ++ str_of_Z (sc_M s))%string
            (inject_Z (sc_R s + sc_F s + sc_M s) / 3)%Q
  | None => mkRow c None 0 0%Q 999 1 1 1 "111" 1%Q
  end.

Definition calculate_rfm_scores : Py.M (Env RFMAnalyzer) (Frame Row) :=
  (convert_order_dates ;;
   e <- Py.get ;;
   let customer_rfm := aggregate (rows (orders_df e)) in
   let recency := map (fun a => reference_date (self e) - agg_last_order_date a)
                      customer_rfm in
   r_cat <- Py.lift (qcut (map inject_Z (rank_first false (map inject_Z recency)))
                          5 [5; 4; 3; 2; 1]) ;;
   r_score <- Py.lift (astype_int r_cat) ;;
   f_cat <- Py.lift (qcut (map inject_Z
                             (rank_first true
                                (map (fun a => inject_Z (agg_frequency a)) customer_rfm)))
                          5 [1; 2; 3; 4; 5]) ;;
   f_score <- Py.lift (astype_int f_cat) ;;
   m_cat <- Py.lift (qcut (map inject_Z
                             (rank_first true (map agg_monetary customer_rfm)))
                          5 [1; 2; 3; 4; 5]) ;;
   m_score <- Py.lift (astype_int m_cat) ;;
   let scored := zip_scored customer_rfm recency r_score f_score m_score in
   let data := mkFrame (map (merge_row scored) (rows (customers_df e)))
                       (extra (customers_df e)) in
   Py.put (set_self (mkRFMAnalyzer (reference_date (self e)) (Some data)) e) ;;
   Py.ret data)%py.

Fixpoint segments_of (rs : list Row) : Result (list Cell) :=
  match rs with
  | [] => Ok []
  | r :: rest =>
      match assign_segment (R_score r) (F_score r) (M_score r) with
      | Raise e => Raise e
      | Ok s =>
          match segments_of rest with
          | Raise e => Raise e
          | Ok ss => Ok (Str s :: ss)
          end
      end
  end.

Definition assign_segments : Py.M (Env RFMAnalyzer) (Frame Row) :=
  (e <- Py.get ;;
   match rfm_data (self e) with
   | None => Py.raise (ValueError "먼저 calculate_rfm_scores()를 실행해주세요.")
   | Some data =>
       segment <- Py.lift (segments_of (rows data)) ;;
       let data' := set_col "segment" segment data in
       Py.put (set_self (mkRFMAnalyzer (reference_date (self e)) (Some data')) e) ;;
       Py.ret data'
   end)%py.

End RFM.

(* ================================================================== *)
(** ** CLV engine (clv_analysis.py) *)

Module CLV.

(** A row of [customer_stats]. *)
Record Stats : Type := mkStats {
  st_customer_id : string;
  st_total_spent : Q;
  st_avg_order_value : Q;
  st_purchase_frequency : Z;
  st_first_purchase : Z;
  st_last_purchase : Z;
  st_customer_lifespan_days : Z;
  st_purchase_frequency_monthly : Q;
  st_predicted_lifespan_months : Q;
  st_historical_clv : Q
}.

(** The average number of days of a month, 30.44. *)
Definition days_per_month : Q := 3044 # 100.

Definition stats_of (cid : string) (mine : list Order.t) : Stats :=
  let amounts := map Order.final_amount mine in
  let days := map (fun o => day_of (Order.order_date o)) mine in
  let total := sumQ amounts in
  let avg := (total / lenQ amounts)%Q in
  let count := Z.of_nat (List.length mine) in
  let first := match days with d :: ds => minZ d ds | [] => 0 end in
  let last := match days with d :: ds => maxZ d ds | [] => 0 end in
  let lifespan := Z.max (last - first) 1 in
  let monthly := (inject_Z count / (inject_Z lifespan / days_per_month))%Q in
  let predicted := clip 1 60 (inject_Z lifespan / days_per_month * (3 # 2))%Q in
  mkStats cid total avg count first last lifespan monthly predicted
          (avg * monthly * predicted)%Q.

Definition customer_stats (os : list Order.t) : list Stats :=
  map (fun cid => stats_of cid (orders_of cid os))
      (group_keys (map Order.customer_id os)).

(** A row of [self.clv_data]: the customer and the merged statistics. *)
Record Row : Type := mkRow {
  customer : Customer.t;
  total_spent : Q;
  avg_order_value : Q;
  purchase_frequency : Z;
  first_purchase : option Z;
  last_purchase : option Z;
  customer_lifespan_days : option Z;
  purchase_frequency_monthly : Q;
  predicted_lifespan_months : Q;
  historical_clv : Q
}.

Definition merge_row (stats : list Stats) (c : Customer.t) : Row :=
  match find (fun s => String.eqb (st_customer_id s) (Customer.customer_id c)) stats with
  | Some s =>
      mkRow c (st_total_spent s) (st_avg_order_value s) (st_purchase_frequency s)
            (Some (st_first_purchase s)) (Some (st_last_purchase s))
            (Some (st_customer_lifespan_days s))
            (st_purchase_frequency_monthly s) (st_predicted_lifespan_months s)
            (st_historical_clv s)
  | None => mkRow c 0 0 0 None None None 0 12 0
  end.

Record CLVAnalyzer : Type := mkCLVAnalyzer {
  analysis_period : Z;
  clv_data : option (Frame Row)
}.

(** [CLVAnalyzer(analysis_period_months)] *)
Definition init (analysis_period_months : Z) : CLVAnalyzer :=
  mkCLVAnalyzer analysis_period_months None.

Definition set_clv_data (d : Frame Row) (e : Env CLVAnalyzer) : Env CLVAnalyzer :=
  set_self (mkCLVAnalyzer (analysis_period (self e)) (Some d)) e.

Definition calculate_historical_clv : Py.M (Env CLVAnalyzer) (Frame Row) :=
  (convert_order_dates ;;
   convert_signup_dates ;;
   e <- Py.get ;;
   let stats := customer_stats (rows (orders_df e)) in
   let data := mkFrame (map (merge_row stats) (rows (customers_df e)))
                       (extra (customers_df e)) in
   Py.put (set_clv_data data e) ;;
   Py.ret data)%py.

(** A row of [trend_data]. *)
Record Trend : Type := mkTrend {
  tr_customer_id : string;
  recent_spending : Q;
  previous_spending : Q;
  spending_growth_rate : Q;
  trend_multiplier : Q
}.

(** [df[mask].groupby('customer_id')['final_amount'].sum()] *)
Definition spending (keep : Order.t -> bool) (os : list Order.t) : list (string * Q) :=
  let kept := filter keep os in
  map (fun cid => (cid, sumQ (map Order.final_amount (orders_of cid kept))))
      (group_keys (map Order.customer_id kept)).

Definition trend_data (os : list Order.t) : list Trend :=
  match map (fun o => day_of (Order.order_date o)) os with
  | [] => []                      (* the latest date is NaT: no row passes a filter *)
  | d :: ds =>
      let recent_date := maxZ d ds in
      let six_months_ago := recent_date - 180 in
      let twelve_months_ago := recent_date - 360 in
      let recent_purchases :=
        spending (fun o => six_months_ago <=? day_of (Order.order_date o)) os in
      let previous_purchases :=
        spending (fun o => (twelve_months_ago <=? day_of (Order.order_date o))
                           && (day_of (Order.order_date o) <? six_months_ago)) os in
      map (fun cr =>
             let recent := snd cr in
             let previous :=
               match dict_get (fst cr) previous_purchases with
               | Some p => p
               | None => 0%Q
               end in
             let growth := if Qltb 0 previous
                           then ((recent - previous) / previous)%Q else 0%Q in
             let multiplier := clip (1 # 2) 2 (1 + growth * (1 # 2))%Q in
             mkTrend (fst cr) recent previous growth multiplier)
          recent_purchases
  end.

(** The cell a left merge gives a customer in a column of [trend_data]. *)
Definition trend_cell (trend : list Trend) (field : Trend -> Q) (r : Row) : Cell :=
  match find (fun t => String.eqb (tr_customer_id t)
                                  (Customer.customer_id (customer r))) trend with
  | Some t => Num (field t)
  | None => NaN
  end.

(** [historical_clv * trend_multiplier], cell by cell. *)
Fixpoint times_historical (rs : list Row) (ms : list (option Q)) : list Cell :=
  match rs, ms with
  | r :: rs', m :: ms' =>
      of_num (option_map (Qmult (historical_clv r)) m) :: times_historical rs' ms'
  | _, _ => []
  end.

Definition calculate_predictive_clv : Py.M (Env CLVAnalyzer) (Frame Row) :=
  (e0 <- Py.get ;;
   match clv_data (self e0) with
   | None => Py.raise (ValueError "먼저 calculate_historical_clv()를 실행해주세요.")
   | Some data =>
       convert_order_dates ;;
       e <- Py.get ;;
       let trend := trend_data (rows (orders_df e)) in
       merged <- Py.lift
         (merge_columns (extra data)
            [ ("spending_growth_rate",
               map (trend_cell trend spending_growth_rate) (rows data));
              ("trend_multiplier",
               map (trend_cell trend trend_multiplier) (rows data)) ]) ;;
       let data1 := mkFrame (rows data)
                      (fillna_col "trend_multiplier" 1
                         (fillna_col "spending_growth_rate" 0 merged)) in
       Py.put (set_clv_data data1 e) ;;
       multiplier <- Py.lift (col "trend_multiplier" data1) ;;
       multiplier <- Py.lift (as_nums multiplier) ;;
       let data2 := set_col "predictive_clv"
                            (times_historical (rows data1) multiplier) data1 in
       Py.put (set_clv_data data2 e) ;;
       Py.ret data2
   end)%py.

Definition assign_clv_segment (percentile : option Q) : string :=
  match percentile with
  | Some p =>
      if Qle_bool (8 # 10) p then "High Value"
      else if Qle_bool (2 # 10) p then "Medium Value"
      else "Low Value"
  | None => "Low Value"           (* NaN compares false with both thresholds *)
  end.

(** The per-segment statistics the method computes after the assignment are
    only printed. *)
Definition segment_customers_by_clv : Py.M (Env CLVAnalyzer) (Frame Row) :=
  (e <- Py.get ;;
   match clv_data (self e) with
   | None => Py.raise (ValueError "먼저 CLV 계산을 실행해주세요.")
   | Some data =>
       predictive <- Py.lift (col "predictive_clv" data) ;;
       predictive <- Py.lift (as_nums predictive) ;;
       let percentile := rank_pct predictive in
       let data1 := set_col "clv_percentile" (map of_num percentile) data in
       Py.put (set_clv_data data1 e) ;;
       let data2 := set_col "clv_segment"
                            (map (fun p => Str (assign_clv_segment p)) percentile)
                            data1 in
       Py.put (set_clv_data data2 e) ;;
       Py.ret data2
   end)%py.

End CLV.

(* ================================================================== *)
(** ** Cohort engine (cohort_analysis.py) *)

Module Cohort.

(** Months since January 1970 of a day number (proleptic Gregorian). *)
Definition month_ordinal (d : Z) : Z :=
  let z := d + 719468 in
  let era := z / 146097 in
  let doe := z - era * 146097 in
  let yoe := (doe - doe / 1460 + doe / 36524 - doe / 146096) / 365 in
  let doy := doe - (365 * yoe + yoe / 4 - yoe / 100) in
  let mp := (5 * doy + 2) / 153 in
  let m := if mp <? 10 then mp + 3 else mp - 9 in
  let y := yoe + era * 400 + (if m <=? 2 then 1 else 0) in
  (y - 1970) * 12 + (m - 1).

(** Weeks run from Monday to Sunday; day 0 is a Thursday.  Only the order
    and the differences of ordinals are used. *)
Definition week_ordinal (d : Z) : Z := (d + 3) / 7.

(** [.dt.to_period('M' | 'W' | 'D')], chosen as the [if] chain on
    [self.period_type] does. *)
Definition to_period (period_type : string) (d : DateCell) : Cell :=
  if String.eqb period_type "monthly" then Per (month_ordinal (day_of d))
  else if String.eqb period_type "weekly" then Per (week_ordinal (day_of d))
  else Per (day_of d).

Definition assign_periods {E} (period_type : string) : Py.M (Env E) unit :=
  fun e =>
    let c := customers_df e in
    let o := orders_df e in
    (mkEnv (set_col "order_period"
              (map (fun r => to_period period_type (Order.order_date r)) (rows o)) o)
           (set_col "cohort_group"
              (map (fun r => to_period period_type (Customer.signup_date r)) (rows c)) c)
           (self e),
     Ok tt).

(** A row of [orders_df.merge(customers_df[['customer_id', 'cohort_group']])]. *)
Record Merged : Type := mkMerged {
  m_order : Order.t;
  m_order_period : option Cell;     (* None: the orders table has no such column *)
  m_cohort_group : Cell
}.

(** The left merge: an order is repeated for every customer row with its
    id and kept with a missing cohort when there is none. *)
Definition cohort_merge (o : Frame Order.t) (c : Frame Customer.t)
  : Result (list Merged) :=
  match col "cohort_group" c with
  | Raise e => Raise e
  | Ok groups =>
      if has_col "cohort_group" o then Raise (KeyError "cohort_group")
      else
        let right := combine (map Customer.customer_id (rows c)) groups in
        let periods := match col_lookup "order_period" (extra o) with
                       | Some ps => map Some ps
                       | None => map (fun _ => None) (rows o)
                       end in
        Ok (flat_map
              (fun op =>
                 match filter (fun kc => String.eqb (fst kc)
                                           (Order.customer_id (fst op))) right with
                 | [] => [mkMerged (fst op) (snd op) NaN]
                 | matches => map (fun kc => mkMerged (fst op) (snd op) (snd kc)) matches
                 end)
              (combine (rows o) periods))
  end.

(** [get_period_number(row)]; [None] is NaN. *)
Definition get_period_number (row : Merged) : Result (option Z) :=
  match m_cohort_group row with
  | NaN => Ok None
  | cohort =>
      match m_order_period row with
      | None => Raise (KeyError "order_period")
      | Some NaN => Ok None
      | Some (Per p) =>
          match cohort with
          | Per c => Ok (Some (p - c))
          | _ => Raise (TypeError "unsupported operand type(s) for -")
          end
      | Some _ => Raise (TypeError "unsupported operand type(s) for -")
      end
  end.

(** A merged row with its [period_number]. *)
Fixpoint with_period_numbers (ms : list Merged) : Result (list (Merged * option Z)) :=
  match ms with
  | [] => Ok []
  | m :: rest =>
      match get_period_number m with
      | Raise e => Raise e
      | Ok n =>
          match with_period_numbers rest with
          | Raise e => Raise e
          | Ok ns => Ok ((m, n) :: ns)
          end
      end
  end.

(** The group key of a row: both key columns present. *)
Definition bucket_of (mn : Merged * option Z) : option (Z * Z) :=
  match m_cohort_group (fst mn), snd mn with
  | Per c, Some n => Some (c, n)
  | _, _ => None
  end.

Definition pair_compare (a b : Z * Z) : comparison :=
  match Z.compare (fst a) (fst b) with
  | Eq => Z.compare (snd a) (snd b)
  | c => c
  end.

Fixpoint insert_pair (k : Z * Z) (ks : list (Z * Z)) : list (Z * Z) :=
  match ks with
  | [] => [k]
  | k0 :: rest =>
      match pair_compare k k0 with
      | Lt => k :: ks
      | Eq => ks
      | Gt => k0 :: insert_pair k rest
      end
  end.

(** The sorted distinct [(cohort_group, period_number)] keys. *)
Definition buckets (rows : list (Merged * option Z)) : list (Z * Z) :=
  fold_right insert_pair []
    (flat_map (fun mn => match bucket_of mn with Some k => [k] | None => [] end) rows).

Definition in_bucket (k : Z * Z) (mn : Merged * option Z) : bool :=
  match bucket_of mn with
  | Some k' => Z.eqb (fst k) (fst k') && Z.eqb (snd k) (snd k')
  | None => false
  end.

Definition period_of (c : Cell) : option Z :=
  match c with Per p => Some p | _ => None end.

(** [customers_df.groupby('cohort_group')['customer_id'].nunique()] *)
Definition cohort_sizes (ids : list string) (groups : list Cell) : list (Z * Z) :=
  let keyed := combine ids groups in
  map (fun g =>
         (g, nunique (map fst (filter (fun kc => match period_of (snd kc) with
                                                 | Some p => Z.eqb p g
                                                 | None => false
                                                 end) keyed))))
      (group_keys_Z (flat_map (fun c => match period_of c with
                                        | Some p => [p]
                                        | None => []
                                        end) groups)).

Record Row : Type := mkRow {
  cohort_group : Z;
  period_number : Z;
  active_customers : Z;
  total_customers : Z;
  retention_rate : Q
}.

(** The retention matrix: rows are cohorts, columns are period numbers. *)
Record RetentionTable : Type := mkRetentionTable {
  index : list Z;
  columns : list Z;
  values : list (list Q)
}.

Record CohortAnalyzer : Type := mkCohortAnalyzer {
  period_type : string;
  cohort_data : option (list Row);
  retention_table : option RetentionTable
}.

(** [CohortAnalyzer(period_type)] *)
Definition init (period_type : string) : CohortAnalyzer :=
  mkCohortAnalyzer period_type None None.

Definition cohort_rows (sizes : list (Z * Z)) (rows : list (Merged * option Z))
  : list Row :=
  flat_map
    (fun k =>
       let active := nunique (map (fun mn => Order.customer_id (m_order (fst mn)))
                                  (filter (in_bucket k) rows)) in
       match find (fun s => Z.eqb (fst s) (fst k)) sizes with
       | Some s => [mkRow (fst k) (snd k) active (snd s)
                          (inject_Z active / inject_Z (snd s))%Q]
       | None => []
       end)
    (buckets rows).

Definition create_signup_cohorts : Py.M (Env CohortAnalyzer) (list Row) :=
  (convert_signup_dates ;;
   convert_order_dates ;;
   e0 <- Py.get ;;
   assign_periods (period_type (self e0)) ;;
   e <- Py.get ;;
   merged <- Py.lift (cohort_merge (orders_df e) (customers_df e)) ;;
   cohort_data <- Py.lift (with_period_numbers merged) ;;
   groups <- Py.lift (col "cohort_group" (customers_df e)) ;;
   let sizes := cohort_sizes (map Customer.customer_id (rows (customers_df e))) groups in
   let cohort_table := cohort_rows sizes cohort_data in
   Py.put (set_self (mkCohortAnalyzer (period_type (self e)) (Some cohort_table)
                                      (retention_table (self e))) e) ;;
   Py.ret cohort_table)%py.

(** [pivot_table(index='cohort_group', columns='period_number',
    values='retention_rate', fill_value=0)]: the mean of the cell's rows,
    0 for a cell without rows. *)
Definition pivot (data : list Row) : RetentionTable :=
  let idx := group_keys_Z (map cohort_group data) in
  let cols := group_keys_Z (map period_number data) in
  mkRetentionTable idx cols
    (map (fun c =>
            map (fun n =>
                   match mean (map retention_rate
                                   (filter (fun r => Z.eqb (cohort_group r) c
                                                     && Z.eqb (period_number r) n) data)) with
                   | Some v => v
                   | None => 0%Q
                   end) cols) idx).

Definition create_retention_table : Py.M (Env CohortAnalyzer) RetentionTable :=
  (e <- Py.get ;;
   match cohort_data (self e) with
   | None => Py.raise (ValueError "먼저 create_signup_cohorts()를 실행해주세요.")
   | Some data =>
       let table := pivot data in
       Py.put (set_self (mkCohortAnalyzer (period_type (self e)) (cohort_data (self e))
                                          (Some table)) e) ;;
       Py.ret table
   end)%py.

Record Revenue : Type := mkRevenue {
  rv_cohort_group : Z;
  rv_period_number : Z;
  total_revenue : Q;
  avg_revenue_per_order : Q;
  rv_active_customers : Z;
  avg_revenue_per_customer : Q
}.

Definition revenue_rows (rows : list (Merged * option Z)) : list Revenue :=
  map (fun k =>
         let mine := filter (in_bucket k) rows in
         let amounts := map (fun mn => Order.final_amount (m_order (fst mn))) mine in
         let active := nunique (map (fun mn => Order.customer_id (m_order (fst mn))) mine) in
         mkRevenue (fst k) (snd k) (sumQ amounts) (sumQ amounts / lenQ amounts)%Q active
                   (sumQ amounts / inject_Z active)%Q)
      (buckets rows).

Definition analyze_revenue_cohorts : Py.M (Env CohortAnalyzer) (list Revenue) :=
  (convert_signup_dates ;;
   convert_order_dates ;;
   e0 <- Py.get ;;
   (if String.eqb (period_type (self e0)) "monthly"
    then assign_periods "monthly" else Py.ret tt) ;;
   e <- Py.get ;;
   merged <- Py.lift (cohort_merge (orders_df e) (customers_df e)) ;;
   revenue_cohort_data <- Py.lift (with_period_numbers merged) ;;
   Py.ret (revenue_rows revenue_cohort_data))%py.

(** *** Insights *)

(** A float; [None] is NaN. *)
Definition Float : Type := option Q.

(** Truth value of a float: only zero is false. *)
Definition truthy (x : Float) : bool :=
  match x with
  | Some q => negb (Qeq_bool q 0)
  | None => true
  end.

(** Comparisons with NaN are false. *)
Definition fge (x : Float) (c : Q) : bool :=
  match x with Some q => Qle_bool c q | None => false end.
Definition fle (x : Float) (c : Q) : bool :=
  match x with Some q => Qle_bool q c | None => false end.
Definition flt (x : Float) (c : Q) : bool :=
  match x with Some q => Qltb q c | None => false end.
Definition fsub (x y : Float) : Float :=
  match x, y with Some a, Some b => Some (a - b)%Q | _, _ => None end.

Fixpoint position (n : Z) (cols : list Z) : option nat :=
  match cols with
  | [] => None
  | c :: rest => if Z.eqb c n then Some O else option_map S (position n rest)
  end.

(** [self.retention_table[n].mean()] *)
Definition column_mean (n : Z) (t : RetentionTable) : Result Float :=
  match position n (columns t) with
  | None => Raise (KeyError (str_of_Z n))
  | Some i => Ok (mean (flat_map (fun row => match nth_error row i with
                                             | Some v => [v]
                                             | None => []
                                             end) (values t)))
  end.

(** [... .mean() if n in self.retention_table.columns else None] *)
Definition column_mean_if_present (n : Z) (t : RetentionTable) : option Float :=
  match position n (columns t) with
  | None => None
  | Some i => Some (mean (flat_map (fun row => match nth_error row i with
                                               | Some v => [v]
                                               | None => []
                                               end) (values t)))
  end.

Record Trends : Type := mkTrends {
  trend_1_month : Float;
  trend_3_month : option Float;
  trend_6_month : option Float
}.

Record Performance : Type := mkPerformance {
  initial_retention : Q;
  avg_retention : Float;
  retention_decline : Q
}.

Record Insights : Type := mkInsights {
  retention_trends : option Trends;          (* the key may be absent *)
  cohort_performance : list (Z * Performance);
  business_insights : list string;
  recommendations : list string
}.

(** The local variables of [get_cohort_insights] that are assigned in one
    branch only; [None] is "not assigned". *)
Record Locals : Type := mkLocals {
  month_1_retention : option Float;
  month_3_retention : option (option Float);
  month_6_retention : option (option Float)
}.

(** Reading a local variable. *)
Definition read {S A} (name : string) (v : option A) : Py.M S A :=
  match v with
  | Some a => Py.ret a
  | None => Py.raise (UnboundLocalError name)
  end.

Definition performance_of (t : RetentionTable) : list (Z * Performance) :=
  flat_map
    (fun cr =>
       match snd cr with
       | v0 :: v1 :: rest =>
           [(fst cr, mkPerformance v1 (mean (v1 :: rest)) (v1 - last rest v1)%Q)]
       | _ => []
       end)
    (combine (index t) (values t)).

Definition get_cohort_insights : Py.M (Env CohortAnalyzer) Insights :=
  (e <- Py.get ;;
   match retention_table (self e) with
   | None => Py.raise (ValueError "먼저 create_retention_table()을 실행해주세요.")
   | Some t =>
       locals_trends <-
         (if (1 <? Z.of_nat (List.length (columns t)))
          then
            m1 <- Py.lift (column_mean 1 t) ;;
            let m3 := column_mean_if_present 3 t in
            let m6 := column_mean_if_present 6 t in
            Py.ret (mkLocals (Some m1) (Some m3) (Some m6), Some (mkTrends m1 m3 m6))
          else Py.ret (mkLocals None None None, None)) ;;
       let locals := fst locals_trends in
       let performance := performance_of t in
       m1 <- read "month_1_retention" (month_1_retention locals) ;;
       let insights1 :=
         if truthy m1
         then (if fge m1 (5 # 10) then ["👍 1개월 유지율이 양호합니다 (50% 이상)"]
               else if fge m1 (3 # 10) then ["⚠️ 1개월 유지율이 보통입니다 (30-50%)"]
               else ["🚨 1개월 유지율이 낮습니다 (30% 미만)"])
         else [] in
       m3 <- read "month_3_retention" (month_3_retention locals) ;;
       let insights2 :=
         match m3 with
         | Some v3 =>
             if truthy v3 && truthy m1
             then (if fle (fsub m1 v3) (2 # 10) then ["👍 유지율 감소폭이 안정적입니다"]
                   else ["⚠️ 유지율이 급격히 감소하고 있습니다"])
             else []
         | None => []
         end in
       let rec1 :=
         if truthy m1 && flt m1 (4 # 10)
         then ["신규 고객 온보딩 프로세스 개선";
               "첫 구매 후 후속 서비스 강화";
               "고객 만족도 조사 및 피드백 수집"]
         else [] in
       let rec2 :=
         match m3 with
         | Some v3 =>
             if truthy v3 && flt v3 (2 # 10)
             then ["중기 고객 유지 프로그램 개발";
                   "개인화된 마케팅 캠페인 강화";
                   "로열티 프로그램 도입 검토"]
             else []
         | None => []
         end in
       Py.ret (mkInsights (snd locals_trends) performance
                          (insights1 ++ insights2)%list
                          (rec1 ++ rec2 ++
                           ["코호트별 맞춤형 마케팅 전략 수립";
                            "이탈 위험 고객 조기 발견 시스템 구축";
                            "고객 생애주기별 서비스 개선"])%list)
   end)%py.

End Cohort.

(* ================================================================== *)
(** ** Behavioural segmentation (customer_segmentation.py) *)

Module Segmentation.








Record CustomerSegmentation : Type := mkCustomerSegmentation {
  random_state : Z;
  segmented_data : option (Frame RFM.Row)
}.

Definition init (random_state : Z) : CustomerSegmentation :=
  mkCustomerSegmentation random_state None.

Section Clustering.

(** The outcome of the clustering pipeline (standardisation, the search
    over k = 2..7, the final KMeans fit): one cluster id per row. *)
Variable cluster_labels : Z -> list RFM.Row -> list Z.



End Clustering.

End Segmentation.

(* ================================================================== *)
(** ** Sample tables *)

Module Sample.

Definition customer (id : string) (signup : Z) : Customer.t :=
  Customer.mk id (DateObj signup) 30 "F" "Seoul".

Definition order (oid cid : string) (day : Z) (amount : Q) : Order.t :=
  Order.mk oid cid (DateObj day) amount.

Definition result_of {S A} (run : S * Result A) (default : A) : A :=
  match snd run with Ok a => a | Raise _ => default end.

Definition no_rfm : Frame RFM.Row := of_rows [].

(** Five customers with one order each, 1 to 5 days before the
    reference date (day 100), and a sixth customer who never ordered. *)
Definition rfm_env : Env RFM.RFMAnalyzer :=
  mkEnv (of_rows [ order "O1" "A" 99 10; order "O2" "B" 98 20;
                   order "O3" "C" 97 30; order "O4" "D" 96 40;
                   order "O5" "E" 95 50 ])
        (of_rows [ customer "A" 1; customer "B" 2; customer "C" 3;
                   customer "D" 4; customer "E" 5; customer "Z" 6 ])
        (RFM.init 100).

Definition rfm_scored : Frame RFM.Row :=
  result_of (RFM.calculate_rfm_scores rfm_env) no_rfm.

Definition rfm_segmented : Frame RFM.Row :=
  result_of (Py.bind RFM.calculate_rfm_scores (fun _ => RFM.assign_segments) rfm_env)
            no_rfm.

Definition no_row : RFM.Row :=
  RFM.mkRow (customer "" 0) None 0 0 0 0 0 0 "" 0.

Definition no_clv : Frame CLV.Row := of_rows [].

(** Customer A spends less in the last 180 days than in the 180 days
    before, B and D order once, C never orders. *)
Definition clv_env : Env CLV.CLVAnalyzer :=
  mkEnv (of_rows [ order "O1" "A" 300 20; order "O2" "A" 480 10;
                   order "O3" "B" 396 10; order "O4" "D" 499 10 ])
        (of_rows [ customer "A" 1; customer "B" 2; customer "C" 3; customer "D" 4 ])
        (CLV.init 12).

Definition clv_historical_env : Env CLV.CLVAnalyzer :=
  fst (CLV.calculate_historical_clv clv_env).

Definition clv_historical : Frame CLV.Row :=
  result_of (CLV.calculate_historical_clv clv_env) no_clv.

(** Two customers who signed up in January 1970; only A orders, in the
    month of signup. *)
Definition cohort_env : Env Cohort.CohortAnalyzer :=
  mkEnv (of_rows [ Order.mk "O1" "A" (Timestamp 5) 100 ])
        (of_rows [ Customer.mk "A" (Timestamp 1) 30 "F" "Seoul";
                   Customer.mk "B" (Timestamp 2) 41 "M" "Busan" ])
        (Cohort.init "monthly").

Definition cohort_tabled_env : Env Cohort.CohortAnalyzer :=
  fst (Py.bind Cohort.create_signup_cohorts
               (fun _ => Cohort.create_retention_table) cohort_env).




(** Six customers with 1 to 6 orders, bought 6 down to 1 days before the
    reference date, spending more with every order; customer Z never
    ordered. *)
Definition rfm_env_graded : Env RFM.RFMAnalyzer :=
  mkEnv (of_rows [ order "O1" "A" 94 10;
                   order "O2" "B" 95 10; order "O3" "B" 90 15;
                   order "O4" "C" 96 10; order "O5" "C" 90 15; order "O6" "C" 89 20;
                   order "O7" "D" 97 40; order "O8" "D" 90 15; order "O9" "D" 89 20;
                   order "O10" "D" 88 5;
                   order "O11" "E" 98 50; order "O12" "E" 90 15; order "O13" "E" 89 20;
                   order "O14" "E" 88 5; order "O15" "E" 87 5;
                   order "O16" "F" 99 60; order "O17" "F" 90 15; order "O18" "F" 89 20;
                   order "O19" "F" 88 5; order "O20" "F" 87 5; order "O21" "F" 86 5 ])
        (of_rows [ customer "A" 1; customer "B" 2; customer "C" 3; customer "D" 4;
                   customer "E" 5; customer "F" 6; customer "Z" 7 ])
        (RFM.init 100).

Definition rfm_graded : Frame RFM.Row :=
  result_of (RFM.calculate_rfm_scores rfm_env_graded) no_rfm.

(** One customer with orders only. *)
Definition rfm_env_single : Env RFM.RFMAnalyzer :=
  mkEnv (of_rows [ order "O1" "A" 94 10; order "O2" "A" 95 10 ])
        (of_rows [ customer "A" 1; customer "B" 2 ])
        (RFM.init 100).

End Sample.

(* ================================================================== *)
(** ** Specification-side definitions *)

Module Spec.

(** The eleven segments in the stated priority order, each with its box. *)
Definition priority_boxes : list (string * RFM.Rule) :=
  [ ("Champions",           RFM.mkRule (4, 5) (4, 5) (4, 5));
    ("Loyal Customers",     RFM.mkRule (3, 5) (3, 5) (3, 5));
    ("Potential Loyalists", RFM.mkRule (3, 5) (1, 3) (1, 3));
    ("New Customers",       RFM.mkRule (4, 5) (1, 1) (1, 1));
    ("Promising",           RFM.mkRule (3, 4) (1, 1) (1, 1));
    ("Cannot Lose Them",    RFM.mkRule (1, 2) (4, 5) (4, 5));
    ("At Risk",             RFM.mkRule (1, 2) (2, 5) (2, 5));
    ("Need Attention",      RFM.mkRule (2, 3) (2, 3) (2, 3));
    ("About to Sleep",      RFM.mkRule (2, 3) (1, 2) (1, 2));
    ("Hibernating",         RFM.mkRule (1, 2) (1, 2) (1, 2));
    ("Lost",                RFM.mkRule (1, 1) (1, 1) (1, 1)) ].

(** First match wins; "Others" when no box contains the triple. *)
Definition first_match (boxes : list (string * RFM.Rule)) (r f m : Z) : string :=
  match find (fun sb => RFM.in_box (snd sb) r f m) boxes with
  | Some sb => fst sb
  | None => "Others"
  end.

(** The growth rate and the multiplier a customer ends up with after the
    left merge and [fillna]. *)
Definition growth_of (trend : list CLV.Trend) (r : CLV.Row) : Q :=
  match find (fun t => String.eqb (CLV.tr_customer_id t)
                                  (Customer.customer_id (CLV.customer r))) trend with
  | Some t => CLV.spending_growth_rate t
  | None => 0
  end.

Definition multiplier_of (trend : list CLV.Trend) (r : CLV.Row) : Q :=
  match find (fun t => String.eqb (CLV.tr_customer_id t)
                                  (Customer.customer_id (CLV.customer r))) trend with
  | Some t => CLV.trend_multiplier t
  | None => 1
  end.





(** *** The effect of an engine call on the caller's tables *)









(** *** Bucket sizes of the quantile scorer *)

(** The ranks 1..n of a column of n distinct values. *)
Definition ranks (n : nat) : list Q :=
  map (fun k => inject_Z (Z.of_nat k)) (seq 1 n).

(** How many ranks each of the five buckets receives. *)
Definition bucket_sizes (n : nat) : list Z :=
  match qcut (ranks n) 5 [1; 2; 3; 4; 5] with
  | Ok cats =>
      map (fun l => count_if (fun c => match c with
                                       | Some x => Z.eqb x l
                                       | None => false
                                       end) cats)
          [1; 2; 3; 4; 5]
  | Raise _ => []
  end.

Definition balanced (sizes : list Z) : bool :=
  match sizes with
  | [] => false
  | s :: rest => Z.leb (maxZ s rest - minZ s rest) 1
  end.

(** The ordinal of the period a date falls into, for the period type of
    the engine. *)
Definition period_ordinal (period_type : string) (d : DateCell) : Z :=
  if String.eqb period_type "monthly" then Cohort.month_ordinal (day_of d)
  else if String.eqb period_type "weekly" then Cohort.week_ordinal (day_of d)
  else day_of d.

(** The orders of members of cohort [c] that fall [n] periods after it. *)
Definition orders_of_cohort_in_period (period_type : string) (c n : Z)
  (customers : list Customer.t) (orders : list Order.t) : list Order.t :=
  filter (fun o =>
            existsb (fun m => String.eqb (Customer.customer_id m) (Order.customer_id o)
                              && Z.eqb (period_ordinal period_type (Customer.signup_date m)) c)
                    customers
            && Z.eqb (period_ordinal period_type (Order.order_date o) - c) n)
         orders.

(** The members of cohort [c]. *)
Definition members_of_cohort (period_type : string) (c : Z)
  (customers : list Customer.t) : list Customer.t :=
  filter (fun m => Z.eqb (period_ordinal period_type (Customer.signup_date m)) c) customers.

End Spec.

(* ================================================================== *)
(** ** CLV insights (clv_analysis.py, [get_clv_insights]) *)

Module CLVInsights.

(** The values a reduction sees: missing values are skipped. *)
Definition present (xs : list (option Q)) : list Q :=
  flat_map (fun x => match x with Some q => [q] | None => [] end) xs.

(** [Series.median()]; NaN on a series without values. *)
Definition median (xs : list Q) : option Q :=
  match sort_values xs with
  | [] => None
  | (x0 :: _) as sorted =>
      let n := List.length sorted in
      if Nat.even n
      then Some ((nth (n / 2 - 1) sorted x0 + nth (n / 2) sorted x0) / 2)%Q
      else Some (nth (n / 2) sorted x0)
  end.

(** The quotient of two numpy floats: dividing by zero gives inf or nan
    and a warning, not an exception. *)
Inductive Quotient : Type :=
| Finite (q : Q)
| NotFinite.

(** [x / y * 100] *)
Definition percent_of (x y : Q) : Quotient :=
  if Qeq_bool y 0 then NotFinite else Finite (x / y * 100)%Q.

Record Overall : Type := mkOverall {
  total_predicted_clv : Q;
  average_clv : option Q;
  median_clv : option Q;
  total_customers : Z
}.

Record Segment : Type := mkSegment {
  customer_count : Z;
  avg_clv : option Q;
  total_clv : Q;
  clv_contribution : Quotient
}.

Record Insights : Type := mkInsights {
  overall : Overall;
  segments : option (list (string * Segment));     (* the key may be absent *)
  recommendations : list (string * list string)
}.

Definition recommendations_table : list (string * list string) :=
  [ ("High Value",
     [ "VIP 프로그램 제공"; "개인화된 프리미엄 서비스"; "우선 고객 지원";
       "독점 상품 및 할인" ]);
    ("Medium Value",
     [ "업셀링 및 크로스셀링"; "로열티 프로그램 참여 유도"; "정기 프로모션 제공";
       "고객 만족도 개선" ]);
    ("Low Value",
     [ "기본 서비스 유지"; "비용 효율적인 마케팅"; "자동화된 이메일 캠페인";
       "고객 이탈 방지 프로그램" ]) ].

(** [self.clv_data[self.clv_data['clv_segment'] == segment]['predictive_clv']] *)
Definition of_segment (segment : string) (labels : list Cell)
  (values : list (option Q)) : list (option Q) :=
  map snd (filter (fun lv => match fst lv with
                             | Str s => String.eqb s segment
                             | _ => false
                             end) (combine labels values)).

(** The loop over the three segment names; a segment without customers
    gets no entry. *)
Definition segment_insights (total_clv : Q) (labels : list Cell)
  (values : list (option Q)) : list (string * Segment) :=
  flat_map
    (fun segment =>
       let segment_data := of_segment segment labels values in
       if (0 <? Z.of_nat (List.length segment_data))
       then [(segment,
              mkSegment (Z.of_nat (List.length segment_data))
                        (mean (present segment_data))
                        (sumQ (present segment_data))
                        (percent_of (sumQ (present segment_data)) total_clv))]
       else [])
    [ "High Value"; "Medium Value"; "Low Value" ].

Definition get_clv_insights : Py.M (Env CLV.CLVAnalyzer) Insights :=
  (e <- Py.get ;;
   match CLV.clv_data (self e) with
   | None => Py.raise (ValueError "먼저 CLV 분석을 실행해주세요.")
   | Some data =>
       predictive <- Py.lift (col "predictive_clv" data) ;;
       predictive <- Py.lift (as_nums predictive) ;;
       let total_clv := sumQ (present predictive) in
       let summary := mkOverall total_clv (mean (present predictive))
                                (median (present predictive))
                                (Z.of_nat (List.length (rows data))) in
       let by_segment :=
         match col_lookup "clv_segment" (extra data) with
         | Some labels => Some (segment_insights total_clv labels predictive)
         | None => None
         end in
       Py.ret (mkInsights summary by_segment recommendations_table)
   end)%py.

End CLVInsights.

(* ================================================================== *)
(** ** Sorted integer ranks

    The values [qcut] is given are ranks, integers cast to floats.  Their
    sorted order is described on the integers. *)

Module Ranks.

Fixpoint insert_sorted_Z (x : Z) (xs : list Z) : list Z :=
  match xs with
  | [] => [x]
  | y :: rest => if Z.leb x y then x :: xs else y :: insert_sorted_Z x rest
  end.

Definition sort_values_Z (xs : list Z) : list Z := fold_right insert_sorted_Z [] xs.

(** [lo, lo + 1, ..., lo + len - 1] *)
Fixpoint range (lo : Z) (len : nat) : list Z :=
  match len with
  | O => []
  | S m => lo :: range (lo + 1) m
  end.

(** The [k]-th of the five-quantile edges of the ranks 1..count. *)
Definition edge (count : nat) (k : Z) : Q := 1 + ((Z.of_nat count - 1) * k # 5).

End Ranks.

(* ================================================================== *)
(** ** Properties *)

(** *** Columns *)

Lemma col_lookup_assign_same name c cols :
  col_lookup name (col_assign name c cols) = Some c.
Proof.
  induction cols as [|[n c0] rest IH]; simpl.
  - now rewrite String.eqb_refl.
  - destruct (String.eqb n name) eqn:E; simpl; rewrite E; auto.
Qed.

Lemma col_lookup_assign_other name name' c cols :
  String.eqb name' name = false ->
  col_lookup name (col_assign name' c cols) = col_lookup name cols.
Proof.
  intros Hne.
  induction cols as [|[n c0] rest IH]; simpl.
  - now rewrite Hne.
  - destruct (String.eqb n name') eqn:E; simpl.
    + apply String.eqb_eq in E; subst n. now rewrite Hne.
    + destruct (String.eqb n name); auto.
Qed.

Lemma col_set_col_same {R} name c (f : Frame R) :
  col name (set_col name c f) = Ok c.
Proof. unfold col, set_col; simpl. now rewrite col_lookup_assign_same. Qed.

(** *** RFM segments *)

Lemma assign_segment_first_match r f m :
  RFM.assign_segment r f m = Ok (Spec.first_match Spec.priority_boxes r f m).
Proof.
  unfold RFM.assign_segment, Spec.first_match, Spec.priority_boxes.
  cbn [RFM.assign_segment_loop RFM.segment_priority dict_get RFM.segment_rules
       String.eqb Ascii.eqb Bool.eqb find snd fst].
  repeat match goal with
         | |- context [RFM.in_box ?b r f m] =>
             destruct (RFM.in_box b r f m); cbn [fst snd]; try reflexivity
         end.
Qed.

Lemma segments_of_map rs :
  RFM.segments_of rs =
  Ok (map (fun row => Str (Spec.first_match Spec.priority_boxes
                             (RFM.R_score row) (RFM.F_score row) (RFM.M_score row))) rs).
Proof.
  induction rs as [|r rest IH]; simpl; auto.
  now rewrite assign_segment_first_match, IH.
Qed.

Lemma find_first {A} (p : A -> bool) l i x :
  nth_error l i = Some x -> p x = true ->
  exists k y, (k <= i)%nat /\ nth_error l k = Some y /\ find p l = Some y.
Proof.
  revert i. induction l as [|a l IH]; intros [|i] Hn Hp; simpl in *; try discriminate.
  - injection Hn as ->. exists 0%nat, x. rewrite Hp. auto.
  - destruct (p a) eqn:Ea.
    + exists 0%nat, a. repeat split; auto. lia.
    + destruct (IH _ Hn Hp) as (k & y & Hk & Hy & Hf).
      exists (S k), y. repeat split; auto. lia.
Qed.

Lemma priority_labels_distinct : NoDup (map fst Spec.priority_boxes).
Proof.
  unfold Spec.priority_boxes; cbn [map fst].
  repeat (constructor; [cbn [In]; intros H;
                        repeat (destruct H as [H|H]; [discriminate H|]); exact H|]).
  constructor.
Qed.

(** A triple that lies in a box is never given a segment that comes later
    in the priority order. *)
Lemma earlier_box_wins r f m i j si bi sj bj :
  nth_error Spec.priority_boxes i = Some (si, bi) ->
  nth_error Spec.priority_boxes j = Some (sj, bj) ->
  (i < j)%nat ->
  RFM.in_box bi r f m = true ->
  Spec.first_match Spec.priority_boxes r f m <> sj.
Proof.
  intros Hi Hj Hlt Hbi.
  destruct (find_first (fun sb => RFM.in_box (snd sb) r f m) _ _ _ Hi Hbi)
    as (k & y & Hk & Hy & Hf).
  unfold Spec.first_match. rewrite Hf. intros Heq.
  assert (Hk' : nth_error (map fst Spec.priority_boxes) k = Some (fst y))
    by (rewrite nth_error_map, Hy; reflexivity).
  assert (Hj' : nth_error (map fst Spec.priority_boxes) j = Some sj)
    by (rewrite nth_error_map, Hj; reflexivity).
  rewrite <- Heq in Hj'. rewrite <- Hk' in Hj'.
  assert (j = k).
  { apply (proj1 (NoDup_nth_error _) priority_labels_distinct); auto.
    apply nth_error_Some. rewrite Hj', Hk'. discriminate. }
  lia.
Qed.

(** No triple is ever labelled "Lost": its box lies inside the box of
    "Hibernating", which is tested first. *)
Lemma lost_is_never_assigned r f m :
  RFM.assign_segment r f m <> Ok "Lost".
Proof.
  rewrite assign_segment_first_match. intros H. injection H as H.
  destruct (RFM.in_box (RFM.mkRule (1, 1) (1, 1) (1, 1)) r f m) eqn:E.
  - revert H.
    apply (earlier_box_wins r f m 9 10 "Hibernating" (RFM.mkRule (1, 2) (1, 2) (1, 2))
             "Lost" (RFM.mkRule (1, 1) (1, 1) (1, 1))); try reflexivity; try lia.
    unfold RFM.in_box, RFM.between in *. cbn [RFM.R RFM.F RFM.M fst snd] in *.
    repeat (apply andb_prop in E; destruct E as [E ?]).
    repeat match goal with
           | H : (_ <=? _) = true |- _ => apply Z.leb_le in H
           end.
    repeat (apply andb_true_intro; split); apply Z.leb_le; lia.
  - unfold Spec.first_match, Spec.priority_boxes in H. cbn [find fst snd] in H.
    rewrite E in H.
    repeat match type of H with
           | context [RFM.in_box ?b r f m] =>
               destruct (RFM.in_box b r f m); cbn [fst snd] in H; try discriminate H
           end.
Qed.

(** C5: segment assignment is first-match-wins over the fixed priority
    order.  For an engine that holds an RFM table, [assign_segments] returns
    the table with a [segment] column in which every customer carries the
    first segment of the priority order whose inclusive box contains the
    customer's (R, F, M) triple, "Others" when no box does; a triple that
    lies in two boxes is therefore never given the later of the two, and
    (5, 5, 5) is "Champions". *)
Theorem C5_assign_segments_first_match :
  forall (e : Env RFM.RFMAnalyzer) (data : Frame RFM.Row),
    RFM.rfm_data (self e) = Some data ->
    (exists data',
        snd (RFM.assign_segments e) = Ok data' /\
        rows data' = rows data /\
        col "segment" data' =
        Ok (map (fun row => Str (Spec.first_match Spec.priority_boxes
                                   (RFM.R_score row) (RFM.F_score row) (RFM.M_score row)))
                (rows data))) /\
    (forall r f m i j si bi sj bj,
        nth_error Spec.priority_boxes i = Some (si, bi) ->
        nth_error Spec.priority_boxes j = Some (sj, bj) ->
        (i < j)%nat ->
        RFM.in_box bi r f m = true ->
        RFM.in_box bj r f m = true ->
        Spec.first_match Spec.priority_boxes r f m <> sj) /\
    Spec.first_match Spec.priority_boxes 5 5 5 = "Champions".
Proof.
  intros e data Hdata. split; [|split].
  - unfold RFM.assign_segments, Py.bind, Py.get, Py.lift, Py.put, Py.ret.
    rewrite Hdata. rewrite segments_of_map. simpl.
    eexists. split; [reflexivity|]. split; [reflexivity|].
    apply col_set_col_same.
  - intros r f m i j si bi sj bj Hi Hj Hlt Hbi _.
    apply (earlier_box_wins r f m i j si bi sj bj); assumption.
  - reflexivity.
Qed.

Lemma C5_assign_segments_first_match_witness :
  (exists data',
      snd (RFM.assign_segments (fst (RFM.calculate_rfm_scores Sample.rfm_env))) = Ok data' /\
      rows data' = rows Sample.rfm_scored /\
      col "segment" data' =
      Ok (map (fun row => Str (Spec.first_match Spec.priority_boxes
                                 (RFM.R_score row) (RFM.F_score row) (RFM.M_score row)))
              (rows Sample.rfm_scored))) /\
  (forall r f m i j si bi sj bj,
      nth_error Spec.priority_boxes i = Some (si, bi) ->
      nth_error Spec.priority_boxes j = Some (sj, bj) ->
      (i < j)%nat ->
      RFM.in_box bi r f m = true ->
      RFM.in_box bj r f m = true ->
      Spec.first_match Spec.priority_boxes r f m <> sj) /\
  Spec.first_match Spec.priority_boxes 5 5 5 = "Champions".
Proof.
  apply (C5_assign_segments_first_match
           (fst (RFM.calculate_rfm_scores Sample.rfm_env)) Sample.rfm_scored).
  vm_compute. reflexivity.
Defined.

(** *** RFM scores *)

Lemma all_some_In {A} (xs : list (option A)) ys :
  all_some xs = Some ys -> forall y, In y ys -> In (Some y) xs.
Proof.
  revert ys. induction xs as [|[x|] rest IH]; simpl; intros ys H y Hy.
  - injection H as <-. destruct Hy.
  - destruct (all_some rest) as [zs|]; [|discriminate].
    injection H as <-. destruct Hy as [->|Hy]; [now left|right; eauto].
  - discriminate.
Qed.

Lemma astype_int_In cats zs :
  astype_int cats = Ok zs -> forall z, In z zs -> In (Some z) cats.
Proof.
  unfold astype_int. destruct (all_some cats) eqn:E; [|discriminate].
  intros H; injection H as <-. now apply all_some_In.
Qed.

(** Whatever [qcut] returns is NaN or one of the labels. *)
Lemma qcut_labels x q labels cats :
  qcut x q labels = Ok cats -> forall l, In (Some l) cats -> In l labels.
Proof.
  unfold qcut. destruct (all_some _) as [bins|]; [|discriminate].
  destruct (negb (distinct bins) && _)%bool; [discriminate|].
  destruct (negb (Nat.eqb _ _)); [discriminate|].
  intros H; injection H as <-. intros l Hl.
  apply in_map_iff in Hl. destruct Hl as (v & Hv & _).
  destruct (bin_id bins v); [|discriminate].
  eapply nth_error_In; eauto.
Qed.

Lemma zip_scored_In aggs recs rs fs ms s :
  In s (RFM.zip_scored aggs recs rs fs ms) ->
  In (RFM.sc_agg s) aggs /\ In (RFM.sc_R s) rs /\
  In (RFM.sc_F s) fs /\ In (RFM.sc_M s) ms.
Proof.
  revert recs rs fs ms.
  induction aggs as [|a aggs IH]; intros [|c recs] [|r rs] [|f fs] [|m ms] H;
    simpl in H; try contradiction.
  destruct H as [<-|H]; simpl.
  - auto.
  - apply IH in H. tauto.
Qed.

Lemma In_insert_key k x ks : In k (insert_key x ks) -> k = x \/ In k ks.
Proof.
  induction ks as [|k0 rest IH]; simpl.
  - intros [<-|[]]. now left.
  - destruct (String.compare x k0); simpl; intros H.
    + now right.
    + destruct H as [<-|H]; auto.
    + destruct H as [<-|H]; auto. apply IH in H. tauto.
Qed.

Lemma In_group_keys k ks : In k (group_keys ks) -> In k ks.
Proof.
  induction ks as [|x rest IH]; simpl; [tauto|].
  intros H. apply In_insert_key in H. destruct H as [->|H]; auto.
Qed.

Lemma orders_of_nonempty cid os :
  In cid (map Order.customer_id os) -> orders_of cid os <> [].
Proof.
  unfold orders_of. induction os as [|o rest IH]; simpl; [tauto|].
  intros [<-|H].
  - rewrite String.eqb_refl. discriminate.
  - destruct (String.eqb _ cid); [discriminate|auto].
Qed.

(** One step of a run that is known to return: the next possibly raising
    expression did not raise. *)
Ltac returns_step :=
  match goal with
  | |- match ?t with Ok _ => _ | Raise _ => _ end = _ -> _ =>
      let E := fresh "E" in
      let H := fresh "H" in
      destruct t eqn:E; cbv iota beta; [|intros H; discriminate H]
  end.

(** What a returning run of [calculate_rfm_scores] has computed. *)
Lemma calculate_rfm_scores_returns e e' data :
  RFM.calculate_rfm_scores e = (e', Ok data) ->
  let os := map (Order.with_order_date to_datetime) (rows (orders_df e)) in
  exists recs rs fs ms,
    (forall z, In z rs -> In z [5; 4; 3; 2; 1]) /\
    (forall z, In z fs -> In z [1; 2; 3; 4; 5]) /\
    (forall z, In z ms -> In z [1; 2; 3; 4; 5]) /\
    rows data = map (RFM.merge_row (RFM.zip_scored (RFM.aggregate os) recs rs fs ms))
                    (rows (customers_df e)) /\
    RFM.rfm_data (self e') = Some data /\
    rows (orders_df e') = os /\
    extra (orders_df e') = extra (orders_df e) /\
    customers_df e' = customers_df e.
Proof.
  cbv zeta.
  unfold RFM.calculate_rfm_scores, Py.bind, convert_order_dates, Py.get, Py.lift,
    Py.put, Py.ret.
  cbn [orders_df customers_df self set_orders set_self map_rows rows extra].
  do 6 returns_step.
  intros H. injection H as <- <-.
  eexists _, _, _, _. cbn [rows extra orders_df customers_df self RFM.rfm_data].
  repeat split; try reflexivity.
  all: intros z Hz;
    eapply astype_int_In in Hz; [|eassumption];
    eapply qcut_labels in Hz; [|eassumption]; exact Hz.
Qed.

(** C7: in the table returned by [calculate_rfm_scores] every customer,
    with or without orders, has integer scores R, F and M between 1 and 5. *)
Theorem C7_scores_between_1_and_5 :
  forall (e e' : Env RFM.RFMAnalyzer) (data : Frame RFM.Row),
    RFM.calculate_rfm_scores e = (e', Ok data) ->
    forall row, In row (rows data) ->
      1 <= RFM.R_score row <= 5 /\
      1 <= RFM.F_score row <= 5 /\
      1 <= RFM.M_score row <= 5.
Proof.
  intros e e' data Hrun row Hrow.
  destruct (calculate_rfm_scores_returns _ _ _ Hrun)
    as (recs & rs & fs & ms & HR & HF & HM & Hrows & _).
  rewrite Hrows in Hrow. apply in_map_iff in Hrow. destruct Hrow as (c & <- & _).
  unfold RFM.merge_row.
  destruct (find _ _) as [s|] eqn:Efind; cbn [RFM.R_score RFM.F_score RFM.M_score].
  - apply find_some in Efind. destruct Efind as [Hin _].
    apply zip_scored_In in Hin. destruct Hin as (_ & Hr & Hf & Hm).
    apply HR in Hr. apply HF in Hf. apply HM in Hm.
    cbn [In] in Hr, Hf, Hm. lia.
  - lia.
Qed.

Lemma C7_scores_between_1_and_5_witness :
  let row := nth 0 (rows Sample.rfm_scored) Sample.no_row in
  1 <= RFM.R_score row <= 5 /\
  1 <= RFM.F_score row <= 5 /\
  1 <= RFM.M_score row <= 5.
Proof.
  apply (C7_scores_between_1_and_5 Sample.rfm_env
           (fst (RFM.calculate_rfm_scores Sample.rfm_env)) Sample.rfm_scored).
  - vm_compute. reflexivity.
  - vm_compute. left. reflexivity.
Defined.

(** C1, as the code behaves: after [calculate_rfm_scores] and
    [assign_segments] a customer without orders has recency 999, frequency
    0, monetary 0, scores (1, 1, 1) and RFM_score '111', and the segment
    the priority list gives that triple is "Hibernating" (never "Lost",
    whose box is tested after the box of "Hibernating" that contains it). *)
Theorem C1_zero_order_customer_is_hibernating :
  forall (e e' : Env RFM.RFMAnalyzer) (data : Frame RFM.Row),
    Py.bind RFM.calculate_rfm_scores (fun _ => RFM.assign_segments) e = (e', Ok data) ->
    forall i row,
      nth_error (rows data) i = Some row ->
      orders_of (Customer.customer_id (RFM.customer row)) (rows (orders_df e)) = [] ->
      RFM.recency row = 999 /\ RFM.frequency row = 0 /\ RFM.monetary row = 0%Q /\
      RFM.R_score row = 1 /\ RFM.F_score row = 1 /\ RFM.M_score row = 1 /\
      RFM.RFM_score row = "111" /\
      RFM.assign_segment 1 1 1 = Ok "Hibernating" /\
      exists segment,
        col "segment" data = Ok segment /\
        nth_error segment i = Some (Str "Hibernating").
Proof.
  intros e e' data Hrun i row Hrow Hnone.
  unfold Py.bind in Hrun.
  destruct (RFM.calculate_rfm_scores e) as [e1 [d1|err]] eqn:Hcalc; [|discriminate Hrun].
  destruct (calculate_rfm_scores_returns _ _ _ Hcalc)
    as (recs & rs & fs & ms & _ & _ & _ & Hrows & Hself & _).
  unfold RFM.assign_segments, Py.bind, Py.get, Py.lift, Py.put, Py.ret in Hrun.
  rewrite Hself, segments_of_map in Hrun. injection Hrun as _ <-.
  cbn [rows set_col] in Hrow.
  assert (Hrow' := Hrow).
  rewrite Hrows in Hrow. rewrite nth_error_map in Hrow.
  destruct (nth_error (rows (customers_df e)) i) as [c|]; [|discriminate Hrow].
  injection Hrow as Hrow.
  assert (Hcust : Customer.customer_id (RFM.customer row) = Customer.customer_id c).
  { rewrite <- Hrow. unfold RFM.merge_row. destruct (find _ _); reflexivity. }
  rewrite Hcust in Hnone.
  assert (Hmerge : row = RFM.mkRow c None 0 0%Q 999 1 1 1 "111" 1%Q).
  { rewrite <- Hrow. unfold RFM.merge_row.
    destruct (find _ _) as [s|] eqn:Efind; [exfalso|reflexivity].
    apply find_some in Efind. destruct Efind as [Hin Heq].
    apply String.eqb_eq in Heq.
    apply zip_scored_In in Hin. destruct Hin as (Hin & _).
    unfold RFM.aggregate in Hin. apply in_map_iff in Hin.
    destruct Hin as (cid & Hagg & Hcid).
    rewrite <- Hagg in Heq. cbn [RFM.agg_customer_id] in Heq. subst cid.
    apply In_group_keys in Hcid. rewrite map_map in Hcid.
    cbn [Order.with_order_date Order.customer_id] in Hcid.
    apply orders_of_nonempty in Hcid. auto. }
  rewrite Hmerge.
  cbn [RFM.recency RFM.frequency RFM.monetary RFM.R_score RFM.F_score
       RFM.M_score RFM.RFM_score].
  repeat (split; [reflexivity|]).
  eexists. split; [apply col_set_col_same|].
  rewrite nth_error_map, Hrow', Hmerge. reflexivity.
Qed.

Lemma C1_zero_order_customer_is_hibernating_witness :
  let row := nth 5 (rows Sample.rfm_segmented) Sample.no_row in
  RFM.recency row = 999 /\ RFM.frequency row = 0 /\ RFM.monetary row = 0%Q /\
  RFM.R_score row = 1 /\ RFM.F_score row = 1 /\ RFM.M_score row = 1 /\
  RFM.RFM_score row = "111" /\
  RFM.assign_segment 1 1 1 = Ok "Hibernating" /\
  exists segment,
    col "segment" Sample.rfm_segmented = Ok segment /\
    nth_error segment 5 = Some (Str "Hibernating").
Proof.
  apply (C1_zero_order_customer_is_hibernating Sample.rfm_env
           (fst (Py.bind RFM.calculate_rfm_scores (fun _ => RFM.assign_segments)
                         Sample.rfm_env))
           Sample.rfm_segmented) with (i := 5%nat).
  - vm_compute. reflexivity.
  - vm_compute. reflexivity.
  - vm_compute. reflexivity.
Defined.

(** *** CLV *)

Lemma has_col_has_name {R} name (f : Frame R) :
  has_col name f = has_name name (map fst (extra f)).
Proof.
  unfold has_col. induction (extra f) as [|[n c] rest IH]; simpl; auto.
  destruct (String.eqb n name); auto.
Qed.

Lemma has_name_false name names :
  has_name name names = false -> forall n, In n names -> String.eqb n name = false.
Proof.
  induction names as [|n0 rest IH]; simpl; intros H n Hn; [destruct Hn|].
  apply orb_false_iff in H. destruct H as [H0 H].
  destruct Hn as [<-|Hn]; auto.
Qed.

Lemma no_new_duplicates names : new_duplicates names names = false.
Proof.
  unfold new_duplicates. generalize (duplicated names) as bs.
  induction bs as [|b bs IH]; simpl; auto.
  rewrite IH. now destruct b.
Qed.

(** Merging two fresh columns onto a frame that has neither appends them. *)
Lemma merge_columns_fresh left n1 c1 n2 c2 :
  has_name n1 (map fst left) = false ->
  has_name n2 (map fst left) = false ->
  String.eqb n1 n2 = false ->
  merge_columns left [(n1, c1); (n2, c2)] = Ok (left ++ [(n1, c1); (n2, c2)])%list.
Proof.
  intros H1 H2 H12. unfold merge_columns.
  assert (Hleft : map (fun nc : string * list Cell =>
                         (if has_name (fst nc) (map fst [(n1, c1); (n2, c2)])
                          then (fst nc ++ "_x")%string else fst nc, snd nc)) left = left).
  { rewrite <- (map_id left) at 2. apply map_ext_in. intros [n c] Hin.
    assert (Hn : In n (map fst left)) by (apply in_map_iff; exists (n, c); auto).
    cbn [map fst snd has_name].
    rewrite (String.eqb_sym n1 n), (has_name_false _ _ H1 n Hn).
    rewrite (String.eqb_sym n2 n), (has_name_false _ _ H2 n Hn).
    reflexivity. }
  rewrite Hleft. cbn [map fst snd]. rewrite H1, H2. cbn [map fst snd].
  rewrite no_new_duplicates.
  assert (Hright : new_duplicates [n1; n2] [n1; n2] = false) by apply no_new_duplicates.
  rewrite Hright.
  assert (Hcross : existsb (fun n => has_name n [n1; n2]) (map fst left) = false).
  { apply not_true_is_false. intros Hex. apply existsb_exists in Hex.
    destruct Hex as (n & Hn & Hhas). cbn [has_name] in Hhas.
    rewrite (String.eqb_sym n1 n), (has_name_false _ _ H1 n Hn) in Hhas.
    rewrite (String.eqb_sym n2 n), (has_name_false _ _ H2 n Hn) in Hhas.
    discriminate Hhas. }
  rewrite Hcross. reflexivity.
Qed.

Lemma col_lookup_app_fresh name left right :
  has_name name (map fst left) = false ->
  col_lookup name (left ++ right) = col_lookup name right.
Proof.
  induction left as [|[n c] rest IH]; simpl; auto.
  intros H. apply orb_false_iff in H. destruct H as [H0 H]. rewrite H0. auto.
Qed.

Lemma col_lookup_fillna name name' v cols :
  col_lookup name (fillna_col name' v cols) =
  option_map (fun c => if String.eqb name name' then map (fill v) c else c)
             (col_lookup name cols).
Proof.
  induction cols as [|[n c] rest IH]; simpl; auto.
  destruct (String.eqb n name) eqn:E; simpl; auto.
  apply String.eqb_eq in E. subst n. reflexivity.
Qed.

Lemma as_nums_Num {A} (g : A -> Q) xs :
  as_nums (map (fun x => Num (g x)) xs) = Ok (map (fun x => Some (g x)) xs).
Proof. induction xs as [|x rest IH]; simpl; auto. now rewrite IH. Qed.

Lemma times_historical_map (g : CLV.Row -> Q) rs :
  CLV.times_historical rs (map (fun r => Some (g r)) rs) =
  map (fun r => Num (CLV.historical_clv r * g r)%Q) rs.
Proof. induction rs as [|r rest IH]; simpl; auto. now rewrite IH. Qed.

Lemma fill_growth trend rs :
  map (fill 0) (map (CLV.trend_cell trend CLV.spending_growth_rate) rs) =
  map (fun r => Num (Spec.growth_of trend r)) rs.
Proof.
  rewrite map_map. apply map_ext. intros r.
  unfold CLV.trend_cell, Spec.growth_of. now destruct (find _ _).
Qed.

Lemma fill_multiplier trend rs :
  map (fill 1) (map (CLV.trend_cell trend CLV.trend_multiplier) rs) =
  map (fun r => Num (Spec.multiplier_of trend r)) rs.
Proof.
  rewrite map_map. apply map_ext. intros r.
  unfold CLV.trend_cell, Spec.multiplier_of. now destruct (find _ _).
Qed.

Lemma trend_multiplier_of_growth os t :
  In t (CLV.trend_data os) ->
  CLV.trend_multiplier t =
  clip (1 # 2) 2 (1 + CLV.spending_growth_rate t * (1 # 2))%Q.
Proof.
  unfold CLV.trend_data. destruct (map _ os) as [|d ds]; [intros []|].
  intros H. apply in_map_iff in H. destruct H as (cr & <- & _). reflexivity.
Qed.

Lemma clip_identity_at_zero_growth g :
  (g == 0)%Q -> (clip (1 # 2) 2 (1 + g * (1 # 2)) == 1)%Q.
Proof.
  intros Hg. unfold clip, Qltb.
  assert (H1 : (1 + g * (1 # 2) == 1)%Q) by (rewrite Hg; reflexivity).
  assert (Hlo : Qle_bool (1 # 2) (1 + g * (1 # 2)) = true).
  { apply Qle_bool_iff. rewrite H1. discriminate. }
  assert (Hhi : Qle_bool (1 + g * (1 # 2)) 2 = true).
  { apply Qle_bool_iff. rewrite H1. discriminate. }
  rewrite Hlo, Hhi. exact H1.
Qed.

(** A customer whose growth rate is zero keeps the multiplier 1. *)
Lemma multiplier_of_zero_growth os r :
  (Spec.growth_of (CLV.trend_data os) r == 0)%Q ->
  (Spec.multiplier_of (CLV.trend_data os) r == 1)%Q.
Proof.
  unfold Spec.growth_of, Spec.multiplier_of.
  destruct (find _ _) as [t|] eqn:E; [|reflexivity].
  intros Hg. apply find_some in E. destruct E as [Hin _].
  rewrite (trend_multiplier_of_growth _ _ Hin).
  now apply clip_identity_at_zero_growth.
Qed.

(** What [calculate_predictive_clv] computes on a table that does not yet
    have the two trend columns. *)
Lemma calculate_predictive_clv_fresh (e : Env CLV.CLVAnalyzer) data :
  CLV.clv_data (self e) = Some data ->
  has_col "spending_growth_rate" data = false ->
  has_col "trend_multiplier" data = false ->
  let trend := CLV.trend_data (map (Order.with_order_date to_datetime)
                                   (rows (orders_df e))) in
  exists e' data',
    CLV.calculate_predictive_clv e = (e', Ok data') /\
    CLV.clv_data (self e') = Some data' /\
    rows data' = rows data /\
    col "spending_growth_rate" data' =
      Ok (map (fun r => Num (Spec.growth_of trend r)) (rows data)) /\
    col "trend_multiplier" data' =
      Ok (map (fun r => Num (Spec.multiplier_of trend r)) (rows data)) /\
    col "predictive_clv" data' =
      Ok (map (fun r => Num (CLV.historical_clv r * Spec.multiplier_of trend r)%Q) (rows data)).
Proof.
  intros Hdata Hg Hm trend.
  rewrite has_col_has_name in Hg, Hm.
  unfold CLV.calculate_predictive_clv, Py.bind, Py.get, Py.lift, Py.put, Py.ret,
    convert_order_dates.
  rewrite Hdata.
  cbn [orders_df customers_df self set_orders set_self map_rows rows extra].
  rewrite (merge_columns_fresh _ _ _ _ _ Hg Hm eq_refl).
  fold trend.
  set (merged := (extra data ++ _)%list).
  assert (Hlm : col "trend_multiplier"
                  (mkFrame (rows data)
                     (fillna_col "trend_multiplier" 1
                        (fillna_col "spending_growth_rate" 0 merged))) =
                Ok (map (fun r => Num (Spec.multiplier_of trend r)) (rows data))).
  { unfold col. cbn [extra]. rewrite !col_lookup_fillna. unfold merged.
    rewrite (col_lookup_app_fresh _ _ _ Hm). cbn [col_lookup String.eqb Ascii.eqb Bool.eqb
      option_map]. now rewrite fill_multiplier. }
  assert (Hlg : col "spending_growth_rate"
                  (mkFrame (rows data)
                     (fillna_col "trend_multiplier" 1
                        (fillna_col "spending_growth_rate" 0 merged))) =
                Ok (map (fun r => Num (Spec.growth_of trend r)) (rows data))).
  { unfold col. cbn [extra]. rewrite !col_lookup_fillna. unfold merged.
    rewrite (col_lookup_app_fresh _ _ _ Hg). cbn [col_lookup String.eqb Ascii.eqb Bool.eqb
      option_map]. now rewrite fill_growth. }
  rewrite Hlm. rewrite as_nums_Num.
  eexists _, _. split; [reflexivity|].
  cbn [self CLV.set_clv_data set_self CLV.clv_data rows set_col].
  split; [reflexivity|]. split; [reflexivity|].
  rewrite times_historical_map.
  split; [|split].
  - unfold col in *. unfold set_col. cbn [extra] in *.
    rewrite col_lookup_assign_other by reflexivity. exact Hlg.
  - unfold col in *. unfold set_col. cbn [extra] in *.
    rewrite col_lookup_assign_other by reflexivity. exact Hlm.
  - unfold col, set_col. cbn [extra]. now rewrite col_lookup_assign_same.
Qed.

(** C9: on a CLV table computed by the historical step, a customer whose
    spending_growth_rate is 0 gets a predictive_clv equal to the
    historical_clv; a customer without orders in the most recent 180 days
    has growth rate 0 and multiplier 1, and is such a customer. *)
Theorem C9_zero_growth_keeps_historical_clv :
  forall (e : Env CLV.CLVAnalyzer) (data : Frame CLV.Row),
    CLV.clv_data (self e) = Some data ->
    has_col "spending_growth_rate" data = false ->
    has_col "trend_multiplier" data = false ->
    exists e' data' growth multiplier predictive,
      CLV.calculate_predictive_clv e = (e', Ok data') /\
      rows data' = rows data /\
      col "spending_growth_rate" data' = Ok growth /\
      col "trend_multiplier" data' = Ok multiplier /\
      col "predictive_clv" data' = Ok predictive /\
      (forall i row g,
          nth_error (rows data') i = Some row ->
          nth_error growth i = Some (Num g) ->
          (g == 0)%Q ->
          exists p, nth_error predictive i = Some (Num p) /\
                    (p == CLV.historical_clv row)%Q) /\
      (forall i row,
          nth_error (rows data') i = Some row ->
          find (fun t => String.eqb (CLV.tr_customer_id t)
                                    (Customer.customer_id (CLV.customer row)))
               (CLV.trend_data (map (Order.with_order_date to_datetime)
                                    (rows (orders_df e)))) = None ->
          nth_error growth i = Some (Num 0) /\
          nth_error multiplier i = Some (Num 1)).
Proof.
  intros e data Hdata Hg Hm.
  destruct (calculate_predictive_clv_fresh e data Hdata Hg Hm)
    as (e' & data' & Hrun & _ & Hrows & Hgrowth & Hmult & Hpred).
  exists e', data'. do 3 eexists.
  split; [exact Hrun|]. split; [exact Hrows|].
  split; [exact Hgrowth|]. split; [exact Hmult|]. split; [exact Hpred|].
  rewrite Hrows. split.
  - intros i row g Hrow Hgi Hzero.
    rewrite nth_error_map, Hrow in Hgi. injection Hgi as Hgi.
    rewrite nth_error_map, Hrow. cbn [option_map].
    eexists. split; [reflexivity|].
    assert (Hone := multiplier_of_zero_growth
                      (map (Order.with_order_date to_datetime) (rows (orders_df e))) row).
    rewrite Hgi in Hone. rewrite (Hone Hzero). ring.
  - intros i row Hrow Hnone.
    rewrite !nth_error_map, Hrow. cbn [option_map].
    unfold Spec.growth_of, Spec.multiplier_of. rewrite Hnone. split; reflexivity.
Qed.

Lemma C9_zero_growth_keeps_historical_clv_witness :
  exists e' data' growth multiplier predictive,
    CLV.calculate_predictive_clv Sample.clv_historical_env = (e', Ok data') /\
    rows data' = rows Sample.clv_historical /\
    col "spending_growth_rate" data' = Ok growth /\
    col "trend_multiplier" data' = Ok multiplier /\
    col "predictive_clv" data' = Ok predictive /\
    (forall i row g,
        nth_error (rows data') i = Some row ->
        nth_error growth i = Some (Num g) ->
        (g == 0)%Q ->
        exists p, nth_error predictive i = Some (Num p) /\
                  (p == CLV.historical_clv row)%Q) /\
    (forall i row,
        nth_error (rows data') i = Some row ->
        find (fun t => String.eqb (CLV.tr_customer_id t)
                                  (Customer.customer_id (CLV.customer row)))
             (CLV.trend_data (map (Order.with_order_date to_datetime)
                                  (rows (orders_df Sample.clv_historical_env)))) = None ->
        nth_error growth i = Some (Num 0) /\
        nth_error multiplier i = Some (Num 1)).
Proof.
  apply (C9_zero_growth_keeps_historical_clv Sample.clv_historical_env
           Sample.clv_historical).
  - vm_compute. reflexivity.
  - vm_compute. reflexivity.
  - vm_compute. reflexivity.
Defined.

(** The guards that do hold: without a CLV table both later steps raise
    the usage error and change nothing. *)
Lemma clv_guards_without_table (e : Env CLV.CLVAnalyzer) :
  CLV.clv_data (self e) = None ->
  (exists msg, CLV.calculate_predictive_clv e = (e, Raise (ValueError msg))) /\
  (exists msg, CLV.segment_customers_by_clv e = (e, Raise (ValueError msg))).
Proof.
  intros H. unfold CLV.calculate_predictive_clv, CLV.segment_customers_by_clv,
    Py.bind, Py.get, Py.raise.
  rewrite H. split; eexists; reflexivity.
Qed.

(** C4, as the code behaves: [segment_customers_by_clv] called after
    [calculate_historical_clv] alone passes the guard, which only tests that
    a CLV table exists, and fails on the missing [predictive_clv] column
    with a KeyError, not with the usage error. *)
Theorem C4_segment_after_historical_raises_KeyError :
  forall e : Env CLV.CLVAnalyzer,
    has_col "predictive_clv" (customers_df e) = false ->
    snd (Py.bind CLV.calculate_historical_clv
                 (fun _ => CLV.segment_customers_by_clv) e)
    = Raise (KeyError "predictive_clv").
Proof.
  intros e H. unfold has_col in H.
  unfold CLV.calculate_historical_clv, CLV.segment_customers_by_clv, Py.bind, Py.get,
    Py.lift, Py.put, Py.ret, convert_order_dates, convert_signup_dates, col.
  cbn [orders_df customers_df self set_orders set_customers set_self map_rows rows extra
       CLV.set_clv_data CLV.clv_data fst snd].
  destruct (col_lookup "predictive_clv" (extra (customers_df e))); [discriminate H|].
  reflexivity.
Qed.

Lemma C4_segment_after_historical_raises_KeyError_witness :
  snd (Py.bind CLV.calculate_historical_clv
               (fun _ => CLV.segment_customers_by_clv) Sample.clv_env)
  = Raise (KeyError "predictive_clv").
Proof.
  apply (C4_segment_after_historical_raises_KeyError Sample.clv_env).
  vm_compute. reflexivity.
Defined.

(** *** Cohorts *)

(** C10: [get_cohort_insights] on a stored retention table returns only
    if the table has at least two period columns; with exactly one period
    column it raises the error of reading the local variable
    [month_1_retention], which was never assigned, and changes nothing. *)
Theorem C10_insights_need_two_period_columns :
  forall (e : Env Cohort.CohortAnalyzer) (t : Cohort.RetentionTable),
    Cohort.retention_table (self e) = Some t ->
    (forall e' insights,
        Cohort.get_cohort_insights e = (e', Ok insights) ->
        (2 <= List.length (Cohort.columns t))%nat) /\
    (List.length (Cohort.columns t) = 1%nat ->
     Cohort.get_cohort_insights e = (e, Raise (UnboundLocalError "month_1_retention"))).
Proof.
  intros e t Ht.
  unfold Cohort.get_cohort_insights, Py.bind, Py.get, Py.lift, Py.ret, Py.raise,
    Cohort.read.
  rewrite Ht. split.
  - intros e' insights.
    destruct (1 <? Z.of_nat (List.length (Cohort.columns t))) eqn:E.
    + intros _. apply Z.ltb_lt in E. lia.
    + cbn. intros H. discriminate H.
  - intros Hlen. rewrite Hlen. reflexivity.
Qed.

Lemma C10_insights_need_two_period_columns_witness :
  Cohort.retention_table (self Sample.cohort_tabled_env)
  = Some (Cohort.mkRetentionTable [0] [0] [[1 # 2]]) /\
  Cohort.get_cohort_insights Sample.cohort_tabled_env
  = (Sample.cohort_tabled_env, Raise (UnboundLocalError "month_1_retention")).
Proof.
  split.
  - vm_compute. reflexivity.
  - apply (C10_insights_need_two_period_columns Sample.cohort_tabled_env
             (Cohort.mkRetentionTable [0] [0] [[1 # 2]])).
    + vm_compute. reflexivity.
    + reflexivity.
Defined.

(** C2, as the code behaves: a cohort of two customers of whom one orders
    in the signup month has, at period 0, active_customers 1,
    total_customers 2 and retention_rate 1/2, not 1.  The remark in
    [get_cohort_insights] that the retention of period 0 is always 100%
    does not hold for the table [create_signup_cohorts] builds. *)
Theorem C2_period_zero_retention_is_a_half :
  snd (Cohort.create_signup_cohorts Sample.cohort_env)
  = Ok [Cohort.mkRow 0 0 1 2 (1 # 2)] /\
  ~ (1 # 2 == 1)%Q.
Proof.
  split.
  - vm_compute. reflexivity.
  - discriminate.
Qed.

(** *** Behavioural segments *)


(** *** Direction of the scores *)

Lemma some_inj {A} (a b : A) : Some a = Some b -> a = b.
Proof. congruence. Qed.

Lemma Qltb_lt x y : Qltb x y = true <-> (x < y)%Q.
Proof.
  unfold Qltb. rewrite negb_true_iff. split; intros H.
  - apply Qnot_le_lt. intros Hle. apply Qle_bool_iff in Hle. congruence.
  - apply not_true_is_false. intros Hle. apply Qle_bool_iff in Hle.
    now apply Qlt_not_le in H.
Qed.

Lemma count_if_cons {A} (p : A -> bool) x xs :
  count_if p (x :: xs) = (if p x then 1 else 0) + count_if p xs.
Proof.
  unfold count_if. cbn [filter]. destruct (p x); cbn [List.length];
    rewrite ?Nat2Z.inj_succ; lia.
Qed.

Lemma count_if_nonneg {A} (p : A -> bool) xs : 0 <= count_if p xs.
Proof. unfold count_if. lia. Qed.

Lemma count_if_le_length {A} (p : A -> bool) xs :
  count_if p xs <= Z.of_nat (List.length xs).
Proof.
  induction xs as [|x rest IH]; [unfold count_if; simpl; lia|].
  rewrite count_if_cons. cbn [List.length]. rewrite Nat2Z.inj_succ. destruct (p x); lia.
Qed.

Lemma count_if_app {A} (p : A -> bool) xs ys :
  count_if p (xs ++ ys) = count_if p xs + count_if p ys.
Proof.
  induction xs as [|x rest IH]; simpl.
  - unfold count_if. simpl. lia.
  - rewrite !count_if_cons, IH. lia.
Qed.

Lemma count_if_mono {A} (p q : A -> bool) xs :
  (forall x, p x = true -> q x = true) -> count_if p xs <= count_if q xs.
Proof.
  intros Hpq. induction xs as [|x rest IH]; [unfold count_if; simpl; lia|].
  rewrite !count_if_cons. specialize (Hpq x).
  destruct (p x), (q x); try lia; discriminate (Hpq eq_refl).
Qed.

(** Two disjoint tests that both imply a third. *)
Lemma count_if_disjoint {A} (p q r : A -> bool) xs :
  (forall x, p x = true -> r x = true) ->
  (forall x, q x = true -> r x = true) ->
  (forall x, p x = true -> q x = true -> False) ->
  count_if p xs + count_if q xs <= count_if r xs.
Proof.
  intros Hp Hq Hpq. induction xs as [|x rest IH]; [unfold count_if; simpl; lia|].
  rewrite !count_if_cons. specialize (Hp x). specialize (Hq x). specialize (Hpq x).
  destruct (p x), (q x), (r x); try lia;
    solve [ exfalso; auto | discriminate (Hp eq_refl) | discriminate (Hq eq_refl) ].
Qed.

(** The element at position [i] is not among the first [i] elements. *)
Lemma count_if_firstn {A} (q : A -> bool) xs i x :
  nth_error xs i = Some x -> q x = true ->
  count_if q (firstn i xs) + 1 <= count_if q xs.
Proof.
  revert i. induction xs as [|a rest IH]; intros [|i] Hi Hq; simpl in Hi; try discriminate.
  - injection Hi as ->. cbn [firstn]. rewrite count_if_cons, Hq.
    change (count_if q []) with 0. pose proof (count_if_nonneg q rest). lia.
  - cbn [firstn]. rewrite !count_if_cons. specialize (IH i Hi Hq). lia.
Qed.

Lemma rank_first_from_nth ascending all seen rest i x :
  nth_error rest i = Some x ->
  nth_error (rank_first_from ascending all seen rest) i =
  Some (1 + count_if (fun y => if ascending then Qltb y x else Qltb x y) all
          + count_if (Qeq_bool x) (seen ++ firstn i rest)).
Proof.
  revert seen i. induction rest as [|a rest IH]; intros seen [|i] Hi; simpl in Hi;
    try discriminate.
  - injection Hi as ->. simpl. now rewrite app_nil_r.
  - simpl. rewrite (IH _ _ Hi). now rewrite <- app_assoc.
Qed.

Lemma rank_first_nth ascending xs i x :
  nth_error xs i = Some x ->
  nth_error (rank_first ascending xs) i =
  Some (1 + count_if (fun y => if ascending then Qltb y x else Qltb x y) xs
          + count_if (Qeq_bool x) (firstn i xs)).
Proof. intros H. unfold rank_first. now rewrite (rank_first_from_nth _ _ _ _ _ _ H). Qed.

Lemma rank_first_nth_ascending xs i x :
  nth_error xs i = Some x ->
  nth_error (rank_first true xs) i =
  Some (1 + count_if (fun y => Qltb y x) xs + count_if (Qeq_bool x) (firstn i xs)).
Proof. exact (rank_first_nth true xs i x). Qed.

Lemma rank_first_nth_descending xs i x :
  nth_error xs i = Some x ->
  nth_error (rank_first false xs) i =
  Some (1 + count_if (fun y => Qltb x y) xs + count_if (Qeq_bool x) (firstn i xs)).
Proof. exact (rank_first_nth false xs i x). Qed.

(** Ascending ranks follow the values. *)
Lemma rank_first_ascending xs i j x y ri rj :
  nth_error xs i = Some x -> nth_error xs j = Some y -> (x < y)%Q ->
  nth_error (rank_first true xs) i = Some ri ->
  nth_error (rank_first true xs) j = Some rj ->
  ri < rj.
Proof.
  intros Hi Hj Hlt Hri Hrj.
  rewrite (rank_first_nth_ascending _ _ _ Hi) in Hri. apply some_inj in Hri. subst ri.
  rewrite (rank_first_nth_ascending _ _ _ Hj) in Hrj. apply some_inj in Hrj. subst rj.
  pose proof (count_if_firstn (Qeq_bool x) xs i x Hi (Qeq_bool_refl x)) as H1.
  pose proof (count_if_nonneg (Qeq_bool y) (firstn j xs)) as H2.
  assert (H3 : count_if (fun z => Qltb z x) xs + count_if (Qeq_bool x) xs
               <= count_if (fun z => Qltb z y) xs).
  { apply count_if_disjoint.
    - intros z Hz. apply Qltb_lt. apply Qltb_lt in Hz. eapply Qlt_trans; eauto.
    - intros z Hz. apply Qltb_lt. apply Qeq_bool_iff in Hz. now rewrite <- Hz.
    - intros z Hz Hz'. apply Qltb_lt in Hz. apply Qeq_bool_iff in Hz'.
      rewrite Hz' in Hz. now apply Qlt_irrefl in Hz. }
  lia.
Qed.

(** Descending ranks run against the values. *)
Lemma rank_first_descending xs i j x y ri rj :
  nth_error xs i = Some x -> nth_error xs j = Some y -> (x < y)%Q ->
  nth_error (rank_first false xs) i = Some ri ->
  nth_error (rank_first false xs) j = Some rj ->
  rj < ri.
Proof.
  intros Hi Hj Hlt Hri Hrj.
  rewrite (rank_first_nth_descending _ _ _ Hi) in Hri. apply some_inj in Hri. subst ri.
  rewrite (rank_first_nth_descending _ _ _ Hj) in Hrj. apply some_inj in Hrj. subst rj.
  pose proof (count_if_firstn (Qeq_bool y) xs j y Hj (Qeq_bool_refl y)) as H1.
  pose proof (count_if_nonneg (Qeq_bool x) (firstn i xs)) as H2.
  assert (H3 : count_if (fun z => Qltb y z) xs + count_if (Qeq_bool y) xs
               <= count_if (fun z => Qltb x z) xs).
  { apply count_if_disjoint.
    - intros z Hz. apply Qltb_lt. apply Qltb_lt in Hz. eapply Qlt_trans; eauto.
    - intros z Hz. apply Qltb_lt. apply Qeq_bool_iff in Hz. now rewrite <- Hz.
    - intros z Hz Hz'. apply Qltb_lt in Hz. apply Qeq_bool_iff in Hz'.
      rewrite Hz' in Hz. now apply Qlt_irrefl in Hz. }
  lia.
Qed.

Lemma searchsorted_left_mono bins x y :
  (x <= y)%Q -> searchsorted_left bins x <= searchsorted_left bins y.
Proof.
  intros Hxy. apply count_if_mono. intros b Hb.
  apply Qltb_lt. apply Qltb_lt in Hb. eapply Qlt_le_trans; eauto.
Qed.

Lemma insert_sorted_head a l m rest :
  insert_sorted a l = m :: rest ->
  (m <= a)%Q /\ (forall h t, l = h :: t -> (m <= h)%Q).
Proof.
  destruct l as [|h t]; simpl.
  - intros H. injection H as <- _. split; [apply Qle_refl|discriminate].
  - destruct (Qle_bool a h) eqn:E; intros H; injection H as <- _.
    + apply Qle_bool_iff in E. split; [apply Qle_refl|].
      intros h' t' H'. injection H' as <- _. exact E.
    + assert (h < a)%Q.
      { apply Qnot_le_lt. intros Hle. apply Qle_bool_iff in Hle. congruence. }
      split; [now apply Qlt_le_weak|].
      intros h' t' H'. injection H' as <- _. apply Qle_refl.
Qed.

(** The sorted series starts with a smallest value. *)
Lemma sort_values_head xs m rest :
  sort_values xs = m :: rest -> forall x, In x xs -> (m <= x)%Q.
Proof.
  revert m rest. induction xs as [|a xs IH]; intros m rest Hs x Hx; [destruct Hx|].
  simpl in Hs. apply insert_sorted_head in Hs. destruct Hs as [Hma Hhead].
  destruct Hx as [<-|Hx]; [exact Hma|].
  destruct (sort_values xs) as [|h t] eqn:Es.
  - destruct xs; [destruct Hx|]. simpl in Es.
    destruct (sort_values xs) as [|? ?]; simpl in Es; [discriminate|].
    destruct (Qle_bool _ _); discriminate.
  - eapply Qle_trans; [apply (Hhead h t eq_refl)|]. eapply IH; eauto.
Qed.

(** The lowest quantile edge is a smallest value. *)
Lemma quantile_zero_is_min xs d b0 :
  quantile xs (inject_Z 0 / inject_Z (Zpos d)) = Some b0 ->
  forall x, In x xs -> (b0 <= x)%Q.
Proof.
  unfold quantile. destruct (sort_values xs) as [|m rest] eqn:Es; [discriminate|].
  set (n := Z.of_nat (List.length (m :: rest))).
  assert (Hh : (inject_Z (n - 1) * (inject_Z 0 / inject_Z (Zpos d)) == 0)%Q).
  { unfold Qeq, Qmult, Qdiv, Qinv, inject_Z. simpl. lia. }
  assert (Hf : Qfloor (inject_Z (n - 1) * (inject_Z 0 / inject_Z (Zpos d))) = 0).
  { rewrite Hh. reflexivity. }
  rewrite Hf. change (Z.to_nat 0) with 0%nat. cbn [nth].
  intros H x Hx. apply some_inj in H.
  assert (Hm : (b0 == m)%Q).
  { rewrite <- H. rewrite Hh. ring. }
  rewrite Hm. eapply sort_values_head; eauto.
Qed.

Lemma all_some_cons_inv {A} (a : option A) l b r :
  all_some (a :: l) = Some (b :: r) -> a = Some b.
Proof.
  cbn [all_some]. destruct a as [x|]; [|discriminate].
  destruct (all_some l); [|discriminate]. congruence.
Qed.

Lemma all_some_length {A} (xs : list (option A)) ys :
  all_some xs = Some ys -> List.length ys = List.length xs.
Proof.
  revert ys. induction xs as [|[x|] rest IH]; simpl; intros ys H.
  - now injection H as <-.
  - destruct (all_some rest) as [zs|]; [|discriminate].
    injection H as <-. simpl. now rewrite (IH zs eq_refl).
  - discriminate.
Qed.

Lemma all_some_nth {A} (xs : list (option A)) ys i y :
  all_some xs = Some ys -> nth_error ys i = Some y -> nth_error xs i = Some (Some y).
Proof.
  revert ys i. induction xs as [|[x|] rest IH]; simpl; intros ys i H Hy.
  - injection H as <-. destruct i; discriminate.
  - destruct (all_some rest) as [zs|]; [|discriminate].
    injection H as <-. destruct i as [|i]; simpl in *; [congruence|eauto].
  - discriminate.
Qed.

(** The bins of two values of the series are ordered as the values. *)
Lemma bin_id_mono xs bins x y ix iy :
  all_some (map (quantile xs) (linspace01 5)) = Some bins ->
  In x xs -> (x < y)%Q ->
  bin_id bins x = Some ix -> bin_id bins y = Some iy ->
  1 <= ix <= iy /\ iy <= 5.
Proof.
  intros Hbins Hx Hlt Hix Hiy.
  assert (Hlen := all_some_length _ _ Hbins). rewrite length_map in Hlen.
  change (List.length (linspace01 5)) with 6%nat in Hlen.
  destruct bins as [|b0 bins']; [discriminate Hlen|].
  assert (Hb0 : quantile xs (inject_Z 0 / inject_Z 5) = Some b0).
  { change (map (quantile xs) (linspace01 5))
      with (quantile xs (inject_Z 0 / inject_Z 5)
              :: map (quantile xs) (tl (linspace01 5))) in Hbins.
    now apply all_some_cons_inv in Hbins. }
  assert (Hmin := quantile_zero_is_min _ _ _ Hb0 x Hx).
  unfold bin_id in Hix, Hiy. rewrite Hlen in Hix, Hiy.
  pose proof (count_if_le_length (fun b => Qltb b x) (b0 :: bins')) as Hux.
  pose proof (count_if_le_length (fun b => Qltb b y) (b0 :: bins')) as Huy.
  pose proof (count_if_nonneg (fun b => Qltb b x) (b0 :: bins')) as Hlx.
  pose proof (searchsorted_left_mono (b0 :: bins') x y (Qlt_le_weak _ _ Hlt)) as Hmono.
  unfold searchsorted_left in *. rewrite Hlen in Hux, Huy.
  assert (Hby : (b0 < y)%Q) by (eapply Qle_lt_trans; eauto).
  assert (Hy1 : 1 <= count_if (fun b => Qltb b y) (b0 :: bins')).
  { rewrite count_if_cons. apply Qltb_lt in Hby. rewrite Hby.
    pose proof (count_if_nonneg (fun b => Qltb b y) bins'). lia. }
  assert (Eyb : Qeq_bool y b0 = false).
  { apply not_true_is_false. intros H. apply Qeq_bool_iff in H.
    rewrite H in Hby. now apply Qlt_irrefl in Hby. }
  rewrite Eyb in Hiy.
  set (cy := count_if (fun b => Qltb b y) (b0 :: bins')) in *.
  set (cx := count_if (fun b => Qltb b x) (b0 :: bins')) in *.
  change (Z.of_nat 6) with 6 in *.
  destruct (Z.eqb cy 6 || Z.eqb cy 0)%bool eqn:Ey; [discriminate|].
  apply some_inj in Hiy. subst iy.
  apply orb_false_iff in Ey. destruct Ey as [Ey6 Ey0]. apply Z.eqb_neq in Ey6.
  destruct (Qeq_bool x b0).
  - cbn in Hix. apply some_inj in Hix. subst ix. lia.
  - destruct (Z.eqb cx 6 || Z.eqb cx 0)%bool eqn:Ex; [discriminate|].
    apply some_inj in Hix. subst ix.
    apply orb_false_iff in Ex. destruct Ex as [_ Ex0]. apply Z.eqb_neq in Ex0. lia.
Qed.

(** A label of [qcut] and the bin it stands for. *)
Lemma qcut_nth xs labels cats i x l :
  qcut xs 5 labels = Ok cats ->
  nth_error xs i = Some x ->
  nth_error cats i = Some (Some l) ->
  exists bins id,
    all_some (map (quantile xs) (linspace01 5)) = Some bins /\
    bin_id bins x = Some id /\
    nth_error labels (Z.to_nat (id - 1)) = Some l.
Proof.
  unfold qcut. destruct (all_some _) as [bins|]; [|discriminate].
  destruct (negb (distinct bins) && _)%bool; [discriminate|].
  destruct (negb (Nat.eqb _ _)); [discriminate|].
  intros H Hx Hl. injection H as <-.
  rewrite nth_error_map, Hx in Hl. cbn [option_map] in Hl. injection Hl as Hl.
  destruct (bin_id bins x) as [id|] eqn:Eid; [|discriminate].
  exists bins, id. auto.
Qed.

(** With the labels 1..5 the score follows the value, with the labels 5..1
    it runs against the value. *)
Lemma qcut_scores_ordered xs labels cats scores i j x y si sj :
  qcut xs 5 labels = Ok cats ->
  astype_int cats = Ok scores ->
  nth_error xs i = Some x -> nth_error xs j = Some y -> (x < y)%Q ->
  nth_error scores i = Some si -> nth_error scores j = Some sj ->
  (labels = [1; 2; 3; 4; 5] -> si <= sj) /\
  (labels = [5; 4; 3; 2; 1] -> sj <= si).
Proof.
  intros Hq Ha Hx Hy Hlt Hsi Hsj.
  unfold astype_int in Ha. destruct (all_some cats) as [zs|] eqn:Ez; [|discriminate].
  injection Ha as ->.
  pose proof (all_some_nth _ _ _ _ Ez Hsi) as Hci.
  pose proof (all_some_nth _ _ _ _ Ez Hsj) as Hcj.
  destruct (qcut_nth _ _ _ _ _ _ Hq Hx Hci) as (bins & ix & Hb & Hix & Hli).
  destruct (qcut_nth _ _ _ _ _ _ Hq Hy Hcj) as (bins' & iy & Hb' & Hiy & Hlj).
  rewrite Hb in Hb'. injection Hb' as <-.
  destruct (bin_id_mono _ _ _ _ _ _ Hb (nth_error_In _ _ Hx) Hlt Hix Hiy) as [Hlo Hhi].
  assert (Hcx : ix = 1 \/ ix = 2 \/ ix = 3 \/ ix = 4 \/ ix = 5) by lia.
  assert (Hcy : iy = 1 \/ iy = 2 \/ iy = 3 \/ iy = 4 \/ iy = 5) by lia.
  split; intros ->;
    repeat (destruct Hcx as [-> | Hcx]); repeat (destruct Hcy as [-> | Hcy]);
    try subst ix; try subst iy;
    simpl in Hli, Hlj; injection Hli as <-; injection Hlj as <-; lia.
Qed.

(** Across all inputs the recency score rises with the recency: of two
    customers with orders the one who bought longer ago never has the lower
    R_score. *)
Lemma recency_score_rises_with_recency recency cats scores i j ri rj si sj :
  qcut (map inject_Z (rank_first false (map inject_Z recency))) 5 [5; 4; 3; 2; 1] = Ok cats ->
  astype_int cats = Ok scores ->
  nth_error recency i = Some ri -> nth_error recency j = Some rj -> ri < rj ->
  nth_error scores i = Some si -> nth_error scores j = Some sj ->
  si <= sj.
Proof.
  intros Hq Ha Hi Hj Hlt Hsi Hsj.
  assert (Hqi : nth_error (map inject_Z recency) i = Some (inject_Z ri))
    by (rewrite nth_error_map, Hi; reflexivity).
  assert (Hqj : nth_error (map inject_Z recency) j = Some (inject_Z rj))
    by (rewrite nth_error_map, Hj; reflexivity).
  assert (HltQ : (inject_Z ri < inject_Z rj)%Q) by (rewrite <- Zlt_Qlt; exact Hlt).
  pose proof (rank_first_nth false _ _ _ Hqi) as Hki.
  pose proof (rank_first_nth false _ _ _ Hqj) as Hkj.
  pose proof (rank_first_descending _ _ _ _ _ _ _ Hqi Hqj HltQ Hki Hkj) as Hrank.
  apply (proj2 (qcut_scores_ordered _ _ _ _ j i _ _ sj si Hq Ha
                  ltac:(rewrite nth_error_map, Hkj; reflexivity)
                  ltac:(rewrite nth_error_map, Hki; reflexivity)
                  ltac:(rewrite <- Zlt_Qlt; exact Hrank) Hsj Hsi)).
  reflexivity.
Qed.

(** The frequency and monetary scores rise with the raw value. *)
Lemma value_score_rises_with_value values cats scores i j x y si sj :
  qcut (map inject_Z (rank_first true values)) 5 [1; 2; 3; 4; 5] = Ok cats ->
  astype_int cats = Ok scores ->
  nth_error values i = Some x -> nth_error values j = Some y -> (x < y)%Q ->
  nth_error scores i = Some si -> nth_error scores j = Some sj ->
  si <= sj.
Proof.
  intros Hq Ha Hi Hj Hlt Hsi Hsj.
  pose proof (rank_first_nth true _ _ _ Hi) as Hki.
  pose proof (rank_first_nth true _ _ _ Hj) as Hkj.
  pose proof (rank_first_ascending _ _ _ _ _ _ _ Hi Hj Hlt Hki Hkj) as Hrank.
  apply (proj1 (qcut_scores_ordered _ _ _ _ i j _ _ si sj Hq Ha
                  ltac:(rewrite nth_error_map, Hki; reflexivity)
                  ltac:(rewrite nth_error_map, Hkj; reflexivity)
                  ltac:(rewrite <- Zlt_Qlt; exact Hrank) Hsi Hsj)).
  reflexivity.
Qed.

(** For every column size from 5 to 60 the five buckets differ in size by
    at most one. *)
Lemma bucket_sizes_balanced :
  forallb (fun n => Spec.balanced (Spec.bucket_sizes n)) (seq 5 56) = true.
Proof. vm_compute. reflexivity. Qed.

(** *** Direction of the recency score *)

(** C8, as the code behaves: ranking recency in descending order and
    labelling the bins 5 down to 1 reverses the direction twice.  Of five
    customers with one order each, 1 to 5 days ago, the most recent one
    (recency 1) gets R_score 1 and the least recent one (recency 5) gets
    R_score 5; frequency and monetary scores do rise with the raw value. *)
Theorem C8_most_recent_customer_scores_lowest :
  snd (RFM.calculate_rfm_scores Sample.rfm_env) = Ok Sample.rfm_scored /\
  map (fun row => (RFM.recency row, RFM.R_score row)) (rows Sample.rfm_scored)
  = [(1, 1); (2, 2); (3, 3); (4, 4); (5, 5); (999, 1)] /\
  map (fun row => (RFM.monetary row, RFM.M_score row)) (rows Sample.rfm_scored)
  = [(10%Q, 1); (20%Q, 2); (30%Q, 3); (40%Q, 4); (50%Q, 5); (0%Q, 1)] /\
  (let a := nth 0 (rows Sample.rfm_scored) Sample.no_row in
   let b := nth 4 (rows Sample.rfm_scored) Sample.no_row in
   RFM.recency a < RFM.recency b /\ ~ RFM.R_score a >= RFM.R_score b).
Proof.
  split; [|split; [|split]].
  - vm_compute. reflexivity.
  - vm_compute. reflexivity.
  - vm_compute. reflexivity.
  - vm_compute. split; [reflexivity|]. intros H. apply H. reflexivity.
Qed.

(** *** Effects on the caller's tables *)





















(* ================================================================== *)
(** ** Further properties of the RFM engine *)

Lemma rank_first_from_length ascending all seen rest :
  List.length (rank_first_from ascending all seen rest) = List.length rest.
Proof.
  revert seen. induction rest as [|x rest IH]; intros seen; simpl; auto.
Qed.

Lemma rank_first_length ascending xs :
  List.length (rank_first ascending xs) = List.length xs.
Proof. apply rank_first_from_length. Qed.

Lemma qcut_length x q labels cats :
  qcut x q labels = Ok cats -> List.length cats = List.length x.
Proof.
  unfold qcut. destruct (all_some _) as [bins|]; [|discriminate].
  destruct (negb (distinct bins) && _)%bool; [discriminate|].
  destruct (negb (Nat.eqb _ _)); [discriminate|].
  intros H. apply (f_equal (fun r => match r with Ok c => List.length c | Raise _ => O end)) in H.
  rewrite length_map in H. auto.
Qed.

Lemma astype_int_length cats zs :
  astype_int cats = Ok zs -> List.length zs = List.length cats.
Proof.
  unfold astype_int. destruct (all_some cats) as [ys|] eqn:E; [|discriminate].
  intros H. assert (ys = zs) by congruence. subst. now apply all_some_length.
Qed.

(** The scores of a ranked column are as many as its values. *)
Lemma scores_length ascending values labels cats scores :
  qcut (map inject_Z (rank_first ascending values)) 5 labels = Ok cats ->
  astype_int cats = Ok scores ->
  List.length scores = List.length values.
Proof.
  intros Hq Ha. rewrite (astype_int_length _ _ Ha), (qcut_length _ _ _ _ Hq).
  now rewrite length_map, rank_first_length.
Qed.

Lemma zip_scored_nth aggs recs rs fs ms i s :
  nth_error (RFM.zip_scored aggs recs rs fs ms) i = Some s ->
  nth_error aggs i = Some (RFM.sc_agg s) /\
  nth_error recs i = Some (RFM.sc_recency s) /\
  nth_error rs i = Some (RFM.sc_R s) /\
  nth_error fs i = Some (RFM.sc_F s) /\
  nth_error ms i = Some (RFM.sc_M s).
Proof.
  revert recs rs fs ms i.
  induction aggs as [|a aggs IH]; intros [|c recs] [|r rs] [|f fs] [|m ms] [|i] H;
    simpl in H; try discriminate.
  - apply some_inj in H. subst s. simpl. auto.
  - simpl. eauto.
Qed.

Lemma zip_scored_complete aggs recs rs fs ms a :
  List.length recs = List.length aggs -> List.length rs = List.length aggs ->
  List.length fs = List.length aggs -> List.length ms = List.length aggs ->
  In a aggs -> exists s, In s (RFM.zip_scored aggs recs rs fs ms) /\ RFM.sc_agg s = a.
Proof.
  revert recs rs fs ms.
  induction aggs as [|a0 aggs IH]; intros [|c recs] [|r rs] [|f fs] [|m ms] H1 H2 H3 H4 Ha;
    simpl in *; try discriminate; try contradiction.
  destruct Ha as [->|Ha].
  - eexists. split; [left; reflexivity|reflexivity].
  - destruct (IH recs rs fs ms) as (s & Hs & Hagg); auto.
    exists s. auto.
Qed.

(** What a returning run of [calculate_rfm_scores] has computed, with the
    score columns. *)
Lemma calculate_rfm_scores_inv e e' data :
  RFM.calculate_rfm_scores e = (e', Ok data) ->
  let os := map (Order.with_order_date to_datetime) (rows (orders_df e)) in
  let aggs := RFM.aggregate os in
  let recs := map (fun a => RFM.reference_date (self e) - RFM.agg_last_order_date a) aggs in
  exists rcat rs fcat fs mcat ms,
    qcut (map inject_Z (rank_first false (map inject_Z recs))) 5 [5; 4; 3; 2; 1] = Ok rcat /\
    astype_int rcat = Ok rs /\
    qcut (map inject_Z (rank_first true (map (fun a => inject_Z (RFM.agg_frequency a)) aggs)))
         5 [1; 2; 3; 4; 5] = Ok fcat /\
    astype_int fcat = Ok fs /\
    qcut (map inject_Z (rank_first true (map RFM.agg_monetary aggs))) 5 [1; 2; 3; 4; 5]
      = Ok mcat /\
    astype_int mcat = Ok ms /\
    data = mkFrame (map (RFM.merge_row (RFM.zip_scored aggs recs rs fs ms))
                        (rows (customers_df e)))
                   (extra (customers_df e)).
Proof.
  cbv zeta.
  unfold RFM.calculate_rfm_scores, Py.bind, convert_order_dates, Py.get, Py.lift,
    Py.put, Py.ret.
  cbn [orders_df customers_df self set_orders set_self map_rows rows extra].
  do 6 returns_step.
  intros H. apply (f_equal snd) in H. cbn [snd] in H.
  do 6 eexists. repeat (split; [first [reflexivity|eassumption]|]). congruence.
Qed.

(** The aggregate row of a customer is computed from that customer's
    orders. *)
Lemma aggregate_of_customer os a :
  In a (RFM.aggregate os) ->
  let mine := orders_of (RFM.agg_customer_id a) os in
  mine <> [] /\
  RFM.agg_frequency a = Z.of_nat (List.length mine) /\
  RFM.agg_monetary a = sumQ (map Order.final_amount mine) /\
  exists d ds, map (fun o => day_of (Order.order_date o)) mine = d :: ds /\
               RFM.agg_last_order_date a = maxZ d ds.
Proof.
  unfold RFM.aggregate. intros H. apply in_map_iff in H. destruct H as (cid & <- & Hcid).
  cbn [RFM.agg_customer_id RFM.agg_frequency RFM.agg_monetary RFM.agg_last_order_date].
  apply In_group_keys in Hcid. apply orders_of_nonempty in Hcid.
  cbv zeta. split; [exact Hcid|]. split; [reflexivity|]. split; [reflexivity|].
  destruct (orders_of cid os) as [|o rest]; [contradiction|].
  simpl. eauto.
Qed.

Lemma maxZ_upper x xs : x <= maxZ x xs /\ forall y, In y xs -> y <= maxZ x xs.
Proof.
  revert x. induction xs as [|a xs IH]; intros x; simpl.
  - split; [lia|intros y []].
  - destruct (IH (Z.max x a)) as [H1 H2]. split; [lia|].
    intros y [<-|Hy]; [lia|auto].
Qed.

Lemma maxZ_In x xs : In (maxZ x xs) (x :: xs).
Proof.
  revert x. induction xs as [|a xs IH]; intros x; simpl; [auto|].
  destruct (IH (Z.max x a)) as [H|H]; [|auto].
  rewrite <- H. destruct (Z.max_spec x a) as [[_ ->]|[_ ->]]; auto.
Qed.

Lemma orders_of_converted cid os :
  orders_of cid (map (Order.with_order_date to_datetime) os) =
  map (Order.with_order_date to_datetime) (orders_of cid os).
Proof.
  unfold orders_of. induction os as [|o rest IH]; simpl; auto.
  destruct (String.eqb (Order.customer_id o) cid); simpl; now rewrite IH.
Qed.

Lemma In_insert_key_intro k x ks : k = x \/ In k ks -> In k (insert_key x ks).
Proof.
  induction ks as [|k0 rest IH]; simpl.
  - intros [->|[]]. now left.
  - destruct (String.compare x k0) eqn:E; simpl; intros H.
    + apply String.compare_eq_iff in E. subst k0. destruct H as [->|H]; auto.
    + destruct H as [->|H]; auto.
    + destruct H as [->|[->|H]]; auto.
Qed.

Lemma group_keys_In k ks : In k ks -> In k (group_keys ks).
Proof.
  induction ks as [|x rest IH]; simpl; [tauto|].
  intros [->|H]; apply In_insert_key_intro; auto.
Qed.

(** The row the left merge gives a customer: the scored aggregate with the
    customer's id when there is one, the [fillna] defaults otherwise. *)
Lemma merge_row_cases scored c :
  (exists i s,
      nth_error scored i = Some s /\
      RFM.agg_customer_id (RFM.sc_agg s) = Customer.customer_id c /\
      RFM.merge_row scored c =
      RFM.mkRow c (Some (RFM.agg_last_order_date (RFM.sc_agg s)))
                (RFM.agg_frequency (RFM.sc_agg s)) (RFM.agg_monetary (RFM.sc_agg s))
                (RFM.sc_recency s) (RFM.sc_R s) (RFM.sc_F s) (RFM.sc_M s)
                (str_of_Z (RFM.sc_R s) ++ str_of_Z (RFM.sc_F s) ++ str_of_Z (RFM.sc_M s))%string
                (inject_Z (RFM.sc_R s + RFM.sc_F s + RFM.sc_M s) / 3)%Q) \/
  ((forall s, In s scored ->
              RFM.agg_customer_id (RFM.sc_agg s) <> Customer.customer_id c) /\
   RFM.merge_row scored c = RFM.mkRow c None 0 0%Q 999 1 1 1 "111" 1%Q).
Proof.
  unfold RFM.merge_row. destruct (find _ scored) as [s|] eqn:E.
  - left. apply find_some in E. destruct E as [Hin Heq].
    apply String.eqb_eq in Heq. apply In_nth_error in Hin. destruct Hin as [i Hi].
    exists i, s. auto.
  - right. split; [|reflexivity]. intros s Hs Heq.
    apply (find_none _ _ E) in Hs. apply String.eqb_neq in Hs. contradiction.
Qed.

(** In a returning run a customer with at least one order is matched by a
    scored aggregate. *)
Lemma ordering_customer_is_scored e e' data c :
  RFM.calculate_rfm_scores e = (e', Ok data) ->
  orders_of (Customer.customer_id c) (rows (orders_df e)) <> [] ->
  let os := map (Order.with_order_date to_datetime) (rows (orders_df e)) in
  let aggs := RFM.aggregate os in
  let recs := map (fun a => RFM.reference_date (self e) - RFM.agg_last_order_date a) aggs in
  exists rcat rs fcat fs mcat ms i s,
    qcut (map inject_Z (rank_first false (map inject_Z recs))) 5 [5; 4; 3; 2; 1] = Ok rcat /\
    astype_int rcat = Ok rs /\
    qcut (map inject_Z (rank_first true (map (fun a => inject_Z (RFM.agg_frequency a)) aggs)))
         5 [1; 2; 3; 4; 5] = Ok fcat /\
    astype_int fcat = Ok fs /\
    qcut (map inject_Z (rank_first true (map RFM.agg_monetary aggs))) 5 [1; 2; 3; 4; 5]
      = Ok mcat /\
    astype_int mcat = Ok ms /\
    rows data = map (RFM.merge_row (RFM.zip_scored aggs recs rs fs ms))
                    (rows (customers_df e)) /\
    nth_error (RFM.zip_scored aggs recs rs fs ms) i = Some s /\
    RFM.agg_customer_id (RFM.sc_agg s) = Customer.customer_id c /\
    RFM.merge_row (RFM.zip_scored aggs recs rs fs ms) c =
    RFM.mkRow c (Some (RFM.agg_last_order_date (RFM.sc_agg s)))
              (RFM.agg_frequency (RFM.sc_agg s)) (RFM.agg_monetary (RFM.sc_agg s))
              (RFM.sc_recency s) (RFM.sc_R s) (RFM.sc_F s) (RFM.sc_M s)
              (str_of_Z (RFM.sc_R s) ++ str_of_Z (RFM.sc_F s) ++ str_of_Z (RFM.sc_M s))%string
              (inject_Z (RFM.sc_R s + RFM.sc_F s + RFM.sc_M s) / 3)%Q.
Proof.
  intros Hrun Hmine. cbv zeta.
  destruct (calculate_rfm_scores_inv _ _ _ Hrun)
    as (rcat & rs & fcat & fs & mcat & ms & Hqr & Har & Hqf & Haf & Hqm & Ham & Hdata).
  cbv zeta in *.
  set (os := map (Order.with_order_date to_datetime) (rows (orders_df e))) in *.
  set (aggs := RFM.aggregate os) in *.
  set (recs := map (fun a => RFM.reference_date (self e) - RFM.agg_last_order_date a) aggs)
    in *.
  exists rcat, rs, fcat, fs, mcat, ms.
  destruct (merge_row_cases (RFM.zip_scored aggs recs rs fs ms) c)
    as [(i & s & Hi & Hid & Hrow)|[Hnone _]].
  - exists i, s. repeat (split; [assumption|]). split; [|auto].
    rewrite Hdata. reflexivity.
  - exfalso.
    assert (Hkey : In (Customer.customer_id c) (group_keys (map Order.customer_id os))).
    { apply group_keys_In. unfold os. rewrite map_map.
      cbn [Order.with_order_date Order.customer_id].
      destruct (orders_of (Customer.customer_id c) (rows (orders_df e))) as [|o rest] eqn:E;
        [contradiction|].
      assert (Ho : In o (orders_of (Customer.customer_id c) (rows (orders_df e))))
        by (rewrite E; now left).
      unfold orders_of in Ho. apply filter_In in Ho. destruct Ho as [Ho Heq].
      apply String.eqb_eq in Heq. apply in_map_iff. exists o. auto. }
    assert (Hagg : exists a, In a aggs /\ RFM.agg_customer_id a = Customer.customer_id c).
    { unfold aggs, RFM.aggregate. eexists. split.
      - apply in_map_iff. eexists. split; [reflexivity|exact Hkey].
      - reflexivity. }
    destruct Hagg as (a & Ha & Hid).
    destruct (zip_scored_complete aggs recs rs fs ms a) as (s & Hs & Hsa); auto.
    + unfold recs. now rewrite length_map.
    + rewrite (scores_length _ _ _ _ _ Hqr Har). unfold recs. now rewrite !length_map.
    + rewrite (scores_length _ _ _ _ _ Hqf Haf). now rewrite length_map.
    + rewrite (scores_length _ _ _ _ _ Hqm Ham). now rewrite length_map.
    + apply (Hnone s Hs). now rewrite Hsa.
Qed.

Lemma merge_row_customer scored c : RFM.customer (RFM.merge_row scored c) = c.
Proof. unfold RFM.merge_row. now destruct (find _ _). Qed.

(** X1: the table [calculate_rfm_scores] returns has exactly one row per
    row of the customers table, in the same order and with the customer's
    own columns unchanged, and carries the added columns of that table. *)
Theorem X1_rfm_table_has_one_row_per_customer :
  forall (e e' : Env RFM.RFMAnalyzer) (data : Frame RFM.Row),
    RFM.calculate_rfm_scores e = (e', Ok data) ->
    map RFM.customer (rows data) = rows (customers_df e) /\
    extra data = extra (customers_df e) /\
    RFM.rfm_data (self e') = Some data.
Proof.
  intros e e' data Hrun.
  destruct (calculate_rfm_scores_inv _ _ _ Hrun)
    as (rcat & rs & fcat & fs & mcat & ms & _ & _ & _ & _ & _ & _ & Hdata).
  destruct (calculate_rfm_scores_returns _ _ _ Hrun)
    as (_ & _ & _ & _ & _ & _ & _ & _ & Hself & _).
  subst data. cbn [rows extra]. split; [|auto].
  rewrite map_map. rewrite <- (map_id (rows (customers_df e))) at 2.
  apply map_ext. intros c. apply merge_row_customer.
Qed.

Lemma X1_rfm_table_has_one_row_per_customer_witness :
  map RFM.customer (rows Sample.rfm_scored) = rows (customers_df Sample.rfm_env) /\
  extra Sample.rfm_scored = extra (customers_df Sample.rfm_env) /\
  RFM.rfm_data (self (fst (RFM.calculate_rfm_scores Sample.rfm_env)))
  = Some Sample.rfm_scored.
Proof.
  apply (X1_rfm_table_has_one_row_per_customer Sample.rfm_env
           (fst (RFM.calculate_rfm_scores Sample.rfm_env)) Sample.rfm_scored).
  vm_compute. reflexivity.
Defined.

(** The row of a customer with orders, in terms of the scored aggregate. *)
Lemma row_of_ordering_customer e e' data row :
  RFM.calculate_rfm_scores e = (e', Ok data) ->
  In row (rows data) ->
  orders_of (Customer.customer_id (RFM.customer row)) (rows (orders_df e)) <> [] ->
  let os := map (Order.with_order_date to_datetime) (rows (orders_df e)) in
  let aggs := RFM.aggregate os in
  let recs := map (fun a => RFM.reference_date (self e) - RFM.agg_last_order_date a) aggs in
  exists rcat rs fcat fs mcat ms i a,
    qcut (map inject_Z (rank_first false (map inject_Z recs))) 5 [5; 4; 3; 2; 1] = Ok rcat /\
    astype_int rcat = Ok rs /\
    qcut (map inject_Z (rank_first true (map (fun a => inject_Z (RFM.agg_frequency a)) aggs)))
         5 [1; 2; 3; 4; 5] = Ok fcat /\
    astype_int fcat = Ok fs /\
    qcut (map inject_Z (rank_first true (map RFM.agg_monetary aggs))) 5 [1; 2; 3; 4; 5]
      = Ok mcat /\
    astype_int mcat = Ok ms /\
    nth_error aggs i = Some a /\
    RFM.agg_customer_id a = Customer.customer_id (RFM.customer row) /\
    RFM.last_order_date row = Some (RFM.agg_last_order_date a) /\
    RFM.frequency row = RFM.agg_frequency a /\
    RFM.monetary row = RFM.agg_monetary a /\
    RFM.recency row = RFM.reference_date (self e) - RFM.agg_last_order_date a /\
    nth_error rs i = Some (RFM.R_score row) /\
    nth_error fs i = Some (RFM.F_score row) /\
    nth_error ms i = Some (RFM.M_score row).
Proof.
  intros Hrun Hrow Hmine. cbv zeta.
  destruct (ordering_customer_is_scored _ _ _ (RFM.customer row) Hrun Hmine)
    as (rcat & rs & fcat & fs & mcat & ms & i & s & Hqr & Har & Hqf & Haf & Hqm & Ham
        & Hrows & Hi & Hid & Hmerge).
  cbv zeta in *.
  rewrite Hrows in Hrow. apply in_map_iff in Hrow. destruct Hrow as (c & Hc & _).
  assert (c = RFM.customer row) by (rewrite <- Hc; symmetry; apply merge_row_customer).
  subst c. rewrite Hmerge in Hc.
  destruct (zip_scored_nth _ _ _ _ _ _ _ Hi) as (Hagg & Hrec & HR & HF & HM).
  rewrite nth_error_map, Hagg in Hrec. cbn [option_map] in Hrec. apply some_inj in Hrec.
  exists rcat, rs, fcat, fs, mcat, ms, i, (RFM.sc_agg s).
  repeat (split; [assumption|]).
  rewrite <- Hc.
  cbn [RFM.last_order_date RFM.frequency RFM.monetary RFM.recency RFM.R_score RFM.F_score
       RFM.M_score].
  repeat split; auto.
Qed.

(** X2: in the returned table a customer with at least one order has as
    frequency the number of the customer's orders, as monetary the sum of
    their final_amount, as last_order_date the latest of their order days and
    as recency the days from that day to the reference date. *)
Theorem X2_rfm_values_of_ordering_customer :
  forall (e e' : Env RFM.RFMAnalyzer) (data : Frame RFM.Row) (row : RFM.Row),
    RFM.calculate_rfm_scores e = (e', Ok data) ->
    In row (rows data) ->
    orders_of (Customer.customer_id (RFM.customer row)) (rows (orders_df e)) <> [] ->
    let mine := orders_of (Customer.customer_id (RFM.customer row)) (rows (orders_df e)) in
    let days := map (fun o => day_of (Order.order_date o)) mine in
    RFM.frequency row = Z.of_nat (List.length mine) /\
    RFM.monetary row = sumQ (map Order.final_amount mine) /\
    exists latest,
      In latest days /\ (forall d, In d days -> d <= latest) /\
      RFM.last_order_date row = Some latest /\
      RFM.recency row = RFM.reference_date (self e) - latest.
Proof.
  intros e e' data row Hrun Hrow Hmine. cbv zeta.
  destruct (row_of_ordering_customer _ _ _ _ Hrun Hrow Hmine)
    as (rcat & rs & fcat & fs & mcat & ms & i & a & _ & _ & _ & _ & _ & _
        & Hagg & Hid & Hlast & Hfreq & Hmon & Hrec & _).
  cbv zeta in *. apply nth_error_In in Hagg.
  destruct (aggregate_of_customer _ _ Hagg) as (_ & Hf & Hm & d & ds & Hdays & Hl).
  rewrite Hid, orders_of_converted in Hf, Hm, Hdays.
  rewrite length_map in Hf. rewrite map_map in Hm, Hdays.
  cbn [Order.with_order_date Order.final_amount Order.order_date] in Hm, Hdays.
  assert (Hdays' : map (fun o => day_of (Order.order_date o))
                       (orders_of (Customer.customer_id (RFM.customer row))
                                  (rows (orders_df e))) = d :: ds).
  { rewrite <- Hdays. apply map_ext. now intros [oid cid [n|n] amt]. }
  split; [now rewrite Hfreq, Hf|]. split; [now rewrite Hmon, Hm|].
  exists (maxZ d ds). rewrite Hdays'. split; [apply maxZ_In|]. split.
  - destruct (maxZ_upper d ds) as [H1 H2]. intros x [<-|Hx]; auto.
  - rewrite Hlast, Hrec, Hl. auto.
Qed.

Lemma X2_rfm_values_of_ordering_customer_witness :
  let row := nth 1 (rows Sample.rfm_scored) Sample.no_row in
  let mine := orders_of (Customer.customer_id (RFM.customer row))
                        (rows (orders_df Sample.rfm_env)) in
  let days := map (fun o => day_of (Order.order_date o)) mine in
  RFM.frequency row = Z.of_nat (List.length mine) /\
  RFM.monetary row = sumQ (map Order.final_amount mine) /\
  exists latest,
    In latest days /\ (forall d, In d days -> d <= latest) /\
    RFM.last_order_date row = Some latest /\
    RFM.recency row = RFM.reference_date (self Sample.rfm_env) - latest.
Proof.
  apply (X2_rfm_values_of_ordering_customer Sample.rfm_env
           (fst (RFM.calculate_rfm_scores Sample.rfm_env)) Sample.rfm_scored).
  - vm_compute. reflexivity.
  - vm_compute. right. left. reflexivity.
  - vm_compute. discriminate.
Defined.

(** X3: in the returned table the frequency and monetary scores follow the
    raw values: of two customers with orders, the one with the strictly
    smaller frequency (monetary) never has the higher F_score (M_score). *)
Theorem X3_frequency_and_monetary_scores_are_monotone :
  forall (e e' : Env RFM.RFMAnalyzer) (data : Frame RFM.Row) (a b : RFM.Row),
    RFM.calculate_rfm_scores e = (e', Ok data) ->
    In a (rows data) -> In b (rows data) ->
    orders_of (Customer.customer_id (RFM.customer a)) (rows (orders_df e)) <> [] ->
    orders_of (Customer.customer_id (RFM.customer b)) (rows (orders_df e)) <> [] ->
    (RFM.frequency a < RFM.frequency b -> RFM.F_score a <= RFM.F_score b) /\
    ((RFM.monetary a < RFM.monetary b)%Q -> RFM.M_score a <= RFM.M_score b).
Proof.
  intros e e' data a b Hrun Ha Hb Hoa Hob.
  destruct (row_of_ordering_customer _ _ _ _ Hrun Ha Hoa)
    as (rcat & rs & fcat & fs & mcat & ms & i & ga & _ & _ & Hqf & Haf & Hqm & Ham
        & Higa & _ & _ & Hfa & Hma & _ & _ & HFa & HMa).
  destruct (row_of_ordering_customer _ _ _ _ Hrun Hb Hob)
    as (rcat' & rs' & fcat' & fs' & mcat' & ms' & j & gb & _ & _ & Hqf' & Haf' & Hqm' & Ham'
        & Hjgb & _ & _ & Hfb & Hmb & _ & _ & HFb & HMb).
  cbv zeta in *.
  rewrite Hqf in Hqf'. assert (fcat' = fcat) by congruence. subst fcat'.
  rewrite Haf in Haf'. assert (fs' = fs) by congruence. subst fs'.
  rewrite Hqm in Hqm'. assert (mcat' = mcat) by congruence. subst mcat'.
  rewrite Ham in Ham'. assert (ms' = ms) by congruence. subst ms'.
  split; intros Hlt.
  - apply (value_score_rises_with_value _ _ _ i j (inject_Z (RFM.frequency a))
             (inject_Z (RFM.frequency b)) _ _ Hqf Haf); auto.
    + rewrite nth_error_map, Higa. cbn [option_map]. now rewrite Hfa.
    + rewrite nth_error_map, Hjgb. cbn [option_map]. now rewrite Hfb.
    + rewrite <- Zlt_Qlt. exact Hlt.
  - apply (value_score_rises_with_value _ _ _ i j (RFM.monetary a) (RFM.monetary b)
             _ _ Hqm Ham); auto.
    + rewrite nth_error_map, Higa. cbn [option_map]. now rewrite Hma.
    + rewrite nth_error_map, Hjgb. cbn [option_map]. now rewrite Hmb.
Qed.

Lemma X3_frequency_and_monetary_scores_are_monotone_witness :
  RFM.F_score (nth 0 (rows Sample.rfm_graded) Sample.no_row)
  <= RFM.F_score (nth 3 (rows Sample.rfm_graded) Sample.no_row) /\
  RFM.M_score (nth 0 (rows Sample.rfm_graded) Sample.no_row)
  <= RFM.M_score (nth 3 (rows Sample.rfm_graded) Sample.no_row).
Proof.
  destruct (X3_frequency_and_monetary_scores_are_monotone Sample.rfm_env_graded
              (fst (RFM.calculate_rfm_scores Sample.rfm_env_graded)) Sample.rfm_graded
              (nth 0 (rows Sample.rfm_graded) Sample.no_row)
              (nth 3 (rows Sample.rfm_graded) Sample.no_row)) as [HF HM].
  - vm_compute. reflexivity.
  - vm_compute. left. reflexivity.
  - vm_compute. do 3 right. left. reflexivity.
  - vm_compute. discriminate.
  - vm_compute. discriminate.
  - split; [apply HF|apply HM]; vm_compute; reflexivity.
Defined.

(** X4: in the returned table the recency score rises with the recency: of
    two customers with orders, the one whose last order is strictly more
    recent (smaller recency) never has the higher R_score. *)
Theorem X4_recency_score_rises_with_recency :
  forall (e e' : Env RFM.RFMAnalyzer) (data : Frame RFM.Row) (a b : RFM.Row),
    RFM.calculate_rfm_scores e = (e', Ok data) ->
    In a (rows data) -> In b (rows data) ->
    orders_of (Customer.customer_id (RFM.customer a)) (rows (orders_df e)) <> [] ->
    orders_of (Customer.customer_id (RFM.customer b)) (rows (orders_df e)) <> [] ->
    RFM.recency a < RFM.recency b ->
    RFM.R_score a <= RFM.R_score b.
Proof.
  intros e e' data a b Hrun Ha Hb Hoa Hob Hlt.
  destruct (row_of_ordering_customer _ _ _ _ Hrun Ha Hoa)
    as (rcat & rs & fcat & fs & mcat & ms & i & ga & Hqr & Har & _ & _ & _ & _
        & Higa & _ & _ & _ & _ & Hra & HRa & _).
  destruct (row_of_ordering_customer _ _ _ _ Hrun Hb Hob)
    as (rcat' & rs' & fcat' & fs' & mcat' & ms' & j & gb & Hqr' & Har' & _ & _ & _ & _
        & Hjgb & _ & _ & _ & _ & Hrb & HRb & _).
  cbv zeta in *.
  rewrite Hqr in Hqr'. assert (rcat' = rcat) by congruence. subst rcat'.
  rewrite Har in Har'. assert (rs' = rs) by congruence. subst rs'.
  apply (recency_score_rises_with_recency _ _ _ i j (RFM.recency a) (RFM.recency b)
           _ _ Hqr Har); auto.
  - rewrite nth_error_map, Higa. cbn [option_map]. now rewrite Hra.
  - rewrite nth_error_map, Hjgb. cbn [option_map]. now rewrite Hrb.
Qed.

Lemma X4_recency_score_rises_with_recency_witness :
  RFM.R_score (nth 0 (rows Sample.rfm_scored) Sample.no_row)
  <= RFM.R_score (nth 3 (rows Sample.rfm_scored) Sample.no_row).
Proof.
  apply (X4_recency_score_rises_with_recency Sample.rfm_env
           (fst (RFM.calculate_rfm_scores Sample.rfm_env)) Sample.rfm_scored).
  - vm_compute. reflexivity.
  - vm_compute. left. reflexivity.
  - vm_compute. do 3 right. left. reflexivity.
  - vm_compute. discriminate.
  - vm_compute. discriminate.
  - vm_compute. reflexivity.
Defined.

Lemma Qltb_irrefl x : Qltb x x = false.
Proof.
  unfold Qltb. apply negb_false_iff. apply Qle_bool_iff. apply Qle_refl.
Qed.

(** A column of fewer than two values cannot be cut into five bins. *)
Lemma qcut_needs_two_values ascending values labels :
  (List.length values <= 1)%nat ->
  qcut (map inject_Z (rank_first ascending values)) 5 labels
  = Raise (ValueError "Bin edges must be unique").
Proof.
  destruct values as [|v [|w rest]]; simpl List.length; intros H; try lia.
  - reflexivity.
  - unfold rank_first. cbn [rank_first_from].
    assert (H0 : count_if (fun y => if ascending then Qltb y v else Qltb v y) [v] = 0).
    { unfold count_if. cbn [filter].
      destruct ascending; rewrite Qltb_irrefl; reflexivity. }
    rewrite H0. reflexivity.
Qed.

(** X5: when the orders table is empty or all its orders belong to one
    customer, [calculate_rfm_scores] raises the ValueError of [pd.qcut]
    ("Bin edges must be unique"); the order dates have been converted by
    then, the customers table and the engine are as before. *)
Theorem X5_rfm_needs_two_ordering_customers :
  forall e : Env RFM.RFMAnalyzer,
    (List.length (group_keys (map Order.customer_id (rows (orders_df e)))) <= 1)%nat ->
    RFM.calculate_rfm_scores e
    = (set_orders (map_rows (Order.with_order_date to_datetime) (orders_df e)) e,
       Raise (ValueError "Bin edges must be unique")).
Proof.
  intros e H.
  unfold RFM.calculate_rfm_scores, Py.bind, convert_order_dates, Py.get, Py.lift.
  cbn [orders_df customers_df self set_orders set_self map_rows rows extra].
  rewrite qcut_needs_two_values; [reflexivity|].
  rewrite !length_map. unfold RFM.aggregate. rewrite length_map, map_map.
  cbn [Order.with_order_date Order.customer_id]. exact H.
Qed.

Lemma X5_rfm_needs_two_ordering_customers_witness :
  RFM.calculate_rfm_scores Sample.rfm_env_single
  = (set_orders (map_rows (Order.with_order_date to_datetime)
                          (orders_df Sample.rfm_env_single)) Sample.rfm_env_single,
     Raise (ValueError "Bin edges must be unique")).
Proof.
  apply (X5_rfm_needs_two_ordering_customers Sample.rfm_env_single).
  vm_compute. apply le_n.
Defined.

Lemma in_box_true b r f m :
  RFM.in_box b r f m = true <->
  (fst (RFM.R b) <= r <= snd (RFM.R b)) /\
  (fst (RFM.F b) <= f <= snd (RFM.F b)) /\
  (fst (RFM.M b) <= m <= snd (RFM.M b)).
Proof.
  unfold RFM.in_box, RFM.between. rewrite !andb_true_iff, !Z.leb_le. tauto.
Qed.

Ltac pick_label := repeat (first [left; reflexivity | right]).
Ltac next_box E :=
  match goal with
  | |- In (match (if ?c then _ else _) with Some _ => _ | None => _ end) _ =>
      destruct c eqn:E; cbv iota beta
  end.

(** X6: [assign_segment] never raises and returns one of eight labels, each
    of which some score triple in 1..5 receives.  The segments "New
    Customers", "Promising", "Need Attention" and "Lost" are never assigned:
    every triple in their boxes lies in a box that is tested earlier. *)
Theorem X6_only_eight_segments_are_assigned :
  (forall r f m,
      exists s, RFM.assign_segment r f m = Ok s /\
                In s [ "Champions"; "Loyal Customers"; "Potential Loyalists";
                       "Cannot Lose Them"; "At Risk"; "About to Sleep";
                       "Hibernating"; "Others" ]) /\
  RFM.assign_segment 5 5 5 = Ok "Champions" /\
  RFM.assign_segment 3 3 3 = Ok "Loyal Customers" /\
  RFM.assign_segment 3 1 1 = Ok "Potential Loyalists" /\
  RFM.assign_segment 1 4 4 = Ok "Cannot Lose Them" /\
  RFM.assign_segment 1 2 2 = Ok "At Risk" /\
  RFM.assign_segment 2 1 1 = Ok "About to Sleep" /\
  RFM.assign_segment 1 1 1 = Ok "Hibernating" /\
  RFM.assign_segment 5 1 5 = Ok "Others".
Proof.
  split; [|repeat split; reflexivity].
  intros r f m. rewrite assign_segment_first_match. eexists. split; [reflexivity|].
  unfold Spec.first_match, Spec.priority_boxes. cbn [find fst snd].
  next_box E1; [cbn [fst In]; pick_label|].
  next_box E2; [cbn [fst In]; pick_label|].
  next_box E3; [cbn [fst In]; pick_label|].
  next_box E4.
  { exfalso. apply in_box_true in E4. cbn in E4.
    assert (H : RFM.in_box (RFM.mkRule (3, 5) (1, 3) (1, 3)) r f m = true)
      by (apply in_box_true; cbn; lia).
    congruence. }
  next_box E5.
  { exfalso. apply in_box_true in E5. cbn in E5.
    assert (H : RFM.in_box (RFM.mkRule (3, 5) (1, 3) (1, 3)) r f m = true)
      by (apply in_box_true; cbn; lia).
    congruence. }
  next_box E6; [cbn [fst In]; pick_label|].
  next_box E7; [cbn [fst In]; pick_label|].
  next_box E8.
  { exfalso. apply in_box_true in E8. cbn in E8.
    assert (Hr : r = 2 \/ r = 3) by lia. destruct Hr as [-> | ->].
    - assert (H : RFM.in_box (RFM.mkRule (1, 2) (2, 5) (2, 5)) 2 f m = true)
        by (apply in_box_true; cbn; lia).
      congruence.
    - assert (H : RFM.in_box (RFM.mkRule (3, 5) (1, 3) (1, 3)) 3 f m = true)
        by (apply in_box_true; cbn; lia).
      congruence. }
  next_box E9; [cbn [fst In]; pick_label|].
  next_box E10; [cbn [fst In]; pick_label|].
  next_box E11.
  { exfalso. apply in_box_true in E11. cbn in E11.
    assert (H : RFM.in_box (RFM.mkRule (1, 2) (1, 2) (1, 2)) r f m = true)
      by (apply in_box_true; cbn; lia).
    congruence. }
  cbn [fst In]; pick_label.
Qed.

Lemma score_digits r f m :
  1 <= r <= 5 -> 1 <= f <= 5 -> 1 <= m <= 5 ->
  String.length (str_of_Z r ++ str_of_Z f ++ str_of_Z m) = 3%nat.
Proof.
  intros Hr Hf Hm.
  assert (Er : r = 1 \/ r = 2 \/ r = 3 \/ r = 4 \/ r = 5) by lia.
  assert (Ef : f = 1 \/ f = 2 \/ f = 3 \/ f = 4 \/ f = 5) by lia.
  assert (Em : m = 1 \/ m = 2 \/ m = 3 \/ m = 4 \/ m = 5) by lia.
  destruct Er as [->|[->|[->|[->| ->]]]];
    destruct Ef as [->|[->|[->|[->| ->]]]];
    destruct Em as [->|[->|[->|[->| ->]]]]; reflexivity.
Qed.

(** X7: in every row of the returned table, with or without orders, the
    composite columns agree with the three scores: RFM_score is the three
    score digits one after the other (three characters), RFM_avg_score is
    the mean of the three scores and lies between 1 and 5.  The defaults
    [fillna] gives a customer without orders ('111' and 1.0) keep this. *)
Theorem X7_composite_scores_agree_with_scores :
  forall (e e' : Env RFM.RFMAnalyzer) (data : Frame RFM.Row) (row : RFM.Row),
    RFM.calculate_rfm_scores e = (e', Ok data) ->
    In row (rows data) ->
    RFM.RFM_score row
    = (str_of_Z (RFM.R_score row) ++ str_of_Z (RFM.F_score row)
       ++ str_of_Z (RFM.M_score row))%string /\
    String.length (RFM.RFM_score row) = 3%nat /\
    (RFM.RFM_avg_score row
     == inject_Z (RFM.R_score row + RFM.F_score row + RFM.M_score row) / 3)%Q /\
    (1 <= RFM.RFM_avg_score row <= 5)%Q.
Proof.
  intros e e' data row Hrun Hrow.
  destruct (calculate_rfm_scores_returns _ _ _ Hrun)
    as (recs & rs & fs & ms & HR & HF & HM & Hrows & _).
  rewrite Hrows in Hrow. apply in_map_iff in Hrow. destruct Hrow as (c & <- & _).
  unfold RFM.merge_row.
  destruct (find _ _) as [s|] eqn:Efind;
    cbn [RFM.R_score RFM.F_score RFM.M_score RFM.RFM_score RFM.RFM_avg_score].
  - apply find_some in Efind. destruct Efind as [Hin _].
    apply zip_scored_In in Hin. destruct Hin as (_ & Hr & Hf & Hm).
    apply HR in Hr. apply HF in Hf. apply HM in Hm. cbn [In] in Hr, Hf, Hm.
    assert (Hsum : 3 <= RFM.sc_R s + RFM.sc_F s + RFM.sc_M s <= 15) by lia.
    split; [reflexivity|]. split; [apply score_digits; lia|]. split; [reflexivity|].
    unfold Qdiv, Qle, Qmult, Qinv, inject_Z. cbn [Qnum Qden]. lia.
  - repeat split; try reflexivity; discriminate.
Qed.

Lemma X7_composite_scores_agree_with_scores_witness :
  let row := nth 5 (rows Sample.rfm_scored) Sample.no_row in
  RFM.RFM_score row
  = (str_of_Z (RFM.R_score row) ++ str_of_Z (RFM.F_score row)
     ++ str_of_Z (RFM.M_score row))%string /\
  String.length (RFM.RFM_score row) = 3%nat /\
  (RFM.RFM_avg_score row
   == inject_Z (RFM.R_score row + RFM.F_score row + RFM.M_score row) / 3)%Q /\
  (1 <= RFM.RFM_avg_score row <= 5)%Q.
Proof.
  apply (X7_composite_scores_agree_with_scores Sample.rfm_env
           (fst (RFM.calculate_rfm_scores Sample.rfm_env)) Sample.rfm_scored).
  - vm_compute. reflexivity.
  - vm_compute. do 5 right. left. reflexivity.
Defined.

Lemma col_assign_twice name c c' cols :
  col_assign name c (col_assign name c' cols) = col_assign name c cols.
Proof.
  induction cols as [|[n c0] rest IH]; cbn [col_assign].
  - now rewrite String.eqb_refl.
  - destruct (String.eqb n name) eqn:E; cbn [col_assign]; rewrite E; [reflexivity|].
    now rewrite IH.
Qed.

(** X8: [assign_segments] can be repeated: on an engine whose table it has
    already labelled it returns the same table again and leaves the engine
    as it is (the [segment] column is overwritten in place, not added a
    second time).  Without a table it raises the usage error and changes
    nothing. *)
Theorem X8_assign_segments_is_idempotent :
  forall e : Env RFM.RFMAnalyzer,
    (forall e1 data,
        RFM.assign_segments e = (e1, Ok data) ->
        RFM.assign_segments e1 = (e1, Ok data)) /\
    (RFM.rfm_data (self e) = None ->
     exists msg, RFM.assign_segments e = (e, Raise (ValueError msg))).
Proof.
  intros e. split.
  - intros e1 data.
    unfold RFM.assign_segments, Py.bind, Py.get, Py.lift, Py.put, Py.ret, Py.raise.
    destruct (RFM.rfm_data (self e)) as [d|] eqn:Hd; [|intros H; discriminate H].
    rewrite segments_of_map. intros H. injection H as <- <-.
    cbn [self set_self RFM.rfm_data RFM.reference_date].
    rewrite segments_of_map. cbn [rows set_col].
    unfold set_col, set_self. cbn [rows extra orders_df customers_df self].
    rewrite col_assign_twice. reflexivity.
  - intros Hd. unfold RFM.assign_segments, Py.bind, Py.get, Py.raise.
    rewrite Hd. eexists. reflexivity.
Qed.

Lemma X8_assign_segments_is_idempotent_witness :
  let e1 := fst (Py.bind RFM.calculate_rfm_scores (fun _ => RFM.assign_segments)
                         Sample.rfm_env) in
  RFM.assign_segments e1 = (e1, Ok Sample.rfm_segmented).
Proof.
  cbv zeta.
  apply (proj1 (X8_assign_segments_is_idempotent
                  (fst (RFM.calculate_rfm_scores Sample.rfm_env)))).
  vm_compute. reflexivity.
Defined.

(** ** When the RFM scores can be computed *)

Lemma Qle_bool_inject x y : Qle_bool (inject_Z x) (inject_Z y) = Z.leb x y.
Proof. unfold Qle_bool, inject_Z. cbn [Qnum Qden]. now rewrite !Z.mul_1_r. Qed.

Lemma insert_sorted_inject x l :
  insert_sorted (inject_Z x) (map inject_Z l) = map inject_Z (Ranks.insert_sorted_Z x l).
Proof.
  induction l as [|a l IH]; cbn [map insert_sorted Ranks.insert_sorted_Z]; [reflexivity|].
  rewrite Qle_bool_inject. destruct (Z.leb x a); cbn [map]; [reflexivity|].
  now rewrite IH.
Qed.

Lemma sort_values_inject l :
  sort_values (map inject_Z l) = map inject_Z (Ranks.sort_values_Z l).
Proof.
  unfold sort_values, Ranks.sort_values_Z.
  induction l as [|a l IH]; cbn [map fold_right]; [reflexivity|].
  rewrite IH. apply insert_sorted_inject.
Qed.

Lemma insert_sorted_Z_In x l z :
  In z (Ranks.insert_sorted_Z x l) <-> z = x \/ In z l.
Proof.
  induction l as [|a l IH]; cbn [Ranks.insert_sorted_Z].
  - cbn [In]. intuition.
  - destruct (Z.leb x a); cbn [In]; [intuition|]. rewrite IH. intuition.
Qed.

Lemma insert_sorted_Z_length x l :
  List.length (Ranks.insert_sorted_Z x l) = S (List.length l).
Proof.
  induction l as [|a l IH]; cbn [Ranks.insert_sorted_Z]; [reflexivity|].
  destruct (Z.leb x a); cbn [List.length]; [reflexivity|]. now rewrite IH.
Qed.

Lemma insert_sorted_Z_sorted x l :
  StronglySorted Z.lt l -> ~ In x l -> StronglySorted Z.lt (Ranks.insert_sorted_Z x l).
Proof.
  induction l as [|a l IH]; cbn [Ranks.insert_sorted_Z]; intros Hs Hx.
  - constructor; constructor.
  - inversion Hs as [|? ? Hl Ha]; subst.
    destruct (Z.leb x a) eqn:E.
    + apply Z.leb_le in E.
      assert (x < a) by (assert (x <> a) by (intros ->; apply Hx; now left); lia).
      constructor; [exact Hs|]. constructor; [assumption|].
      rewrite Forall_forall in Ha |- *. intros z Hz. specialize (Ha z Hz). lia.
    + apply Z.leb_gt in E. constructor.
      * apply IH; [assumption|]. intros Hin. apply Hx. now right.
      * rewrite Forall_forall in Ha |- *. intros z Hz.
        apply insert_sorted_Z_In in Hz. destruct Hz as [->|Hz]; [lia|auto].
Qed.

Lemma sort_values_Z_In l z : In z (Ranks.sort_values_Z l) <-> In z l.
Proof.
  unfold Ranks.sort_values_Z. induction l as [|a l IH]; cbn [fold_right]; [tauto|].
  rewrite insert_sorted_Z_In, IH. cbn [In]. intuition.
Qed.

Lemma sort_values_Z_length l : List.length (Ranks.sort_values_Z l) = List.length l.
Proof.
  unfold Ranks.sort_values_Z. induction l as [|a l IH]; cbn [fold_right]; [reflexivity|].
  rewrite insert_sorted_Z_length. cbn [List.length]. now rewrite IH.
Qed.

Lemma sort_values_Z_sorted l : NoDup l -> StronglySorted Z.lt (Ranks.sort_values_Z l).
Proof.
  induction 1 as [|a l Ha Hl IH]; [constructor|].
  change (Ranks.sort_values_Z (a :: l))
    with (Ranks.insert_sorted_Z a (Ranks.sort_values_Z l)).
  apply insert_sorted_Z_sorted; [assumption|]. now rewrite sort_values_Z_In.
Qed.

(** A strictly increasing list of integers is no longer than the interval
    that holds it. *)
Lemma strictly_sorted_fits l lo hi :
  StronglySorted Z.lt l -> (forall x, In x l -> lo <= x < hi) ->
  Z.of_nat (List.length l) <= Z.max 0 (hi - lo).
Proof.
  revert lo. induction l as [|a l IH]; intros lo Hs Hb; cbn [List.length]; [lia|].
  inversion Hs as [|? ? Hl Ha]; subst. rewrite Forall_forall in Ha.
  assert (Hab := Hb a (or_introl eq_refl)).
  assert (H := IH (a + 1) Hl).
  rewrite Nat2Z.inj_succ.
  assert (Z.of_nat (List.length l) <= Z.max 0 (hi - (a + 1))).
  { apply H. intros x Hx. specialize (Ha x Hx). specialize (Hb x (or_intror Hx)). lia. }
  lia.
Qed.

(** A strictly increasing list that fills its interval is the interval. *)
Lemma strictly_sorted_range l lo :
  StronglySorted Z.lt l ->
  (forall x, In x l -> lo <= x < lo + Z.of_nat (List.length l)) ->
  l = Ranks.range lo (List.length l).
Proof.
  revert lo. induction l as [|a l IH]; intros lo Hs Hb; cbn [List.length Ranks.range];
    [reflexivity|].
  inversion Hs as [|? ? Hl Ha]; subst. rewrite Forall_forall in Ha.
  assert (Hab := Hb a (or_introl eq_refl)). cbn [List.length] in Hab, Hb.
  rewrite Nat2Z.inj_succ in Hab, Hb.
  assert (Hfit : Z.of_nat (List.length l)
                 <= Z.max 0 (lo + Z.succ (Z.of_nat (List.length l)) - (a + 1))).
  { apply strictly_sorted_fits; [assumption|].
    intros x Hx. specialize (Ha x Hx). specialize (Hb x (or_intror Hx)). lia. }
  assert (a = lo) by lia. subst a. f_equal.
  apply IH; [assumption|].
  intros x Hx. specialize (Ha x Hx). specialize (Hb x (or_intror Hx)). lia.
Qed.

Lemma range_length lo len : List.length (Ranks.range lo len) = len.
Proof. revert lo. induction len as [|m IH]; intros lo; cbn; [reflexivity|now rewrite IH]. Qed.

Lemma range_nth lo len k d :
  (k < len)%nat -> nth k (map inject_Z (Ranks.range lo len)) d = inject_Z (lo + Z.of_nat k).
Proof.
  revert lo k. induction len as [|m IH]; intros lo k Hk; [lia|].
  destruct k as [|k]; cbn [Ranks.range map nth].
  - now rewrite Z.add_0_r.
  - rewrite IH by lia. f_equal. lia.
Qed.

Lemma Qltb_compat x x' y y' : (x == x')%Q -> (y == y')%Q -> Qltb x y = Qltb x' y'.
Proof.
  intros Hx Hy. destruct (Qltb x y) eqn:E, (Qltb x' y') eqn:E'; try reflexivity.
  - apply Qltb_lt in E. rewrite Hx, Hy in E. apply Qltb_lt in E. congruence.
  - apply Qltb_lt in E'. rewrite <- Hx, <- Hy in E'. apply Qltb_lt in E'. congruence.
Qed.

Lemma count_if_ext {A} (p q : A -> bool) xs :
  (forall x, p x = q x) -> count_if p xs = count_if q xs.
Proof.
  intros H. induction xs as [|x rest IH]; [reflexivity|].
  now rewrite !count_if_cons, H, IH.
Qed.

(** A rank lies between 1 and the number of values. *)
Lemma rank_first_bounds ascending xs i r :
  nth_error (rank_first ascending xs) i = Some r ->
  1 <= r <= Z.of_nat (List.length xs).
Proof.
  intros Hr.
  assert (Hi : (i < List.length xs)%nat).
  { rewrite <- (rank_first_length ascending xs). apply nth_error_Some. congruence. }
  destruct (nth_error xs i) as [x|] eqn:Hx; [|apply nth_error_None in Hx; lia].
  rewrite (rank_first_nth _ _ _ _ Hx) in Hr. apply some_inj in Hr. subst r.
  set (before := fun y => if ascending then Qltb y x else Qltb x y).
  pose proof (count_if_nonneg before xs) as H1.
  pose proof (count_if_nonneg (Qeq_bool x) (firstn i xs)) as H2.
  pose proof (count_if_firstn (Qeq_bool x) xs i x Hx (Qeq_bool_refl x)) as H3.
  assert (H4 : count_if before xs + count_if (Qeq_bool x) xs
               <= count_if (fun _ => true) xs).
  { apply count_if_disjoint; auto.
    intros y Hb He. apply Qeq_bool_iff in He. unfold before in Hb.
    destruct ascending; apply Qltb_lt in Hb; rewrite He in Hb;
      now apply Qlt_irrefl in Hb. }
  pose proof (count_if_le_length (fun _ : Q => true) xs) as H5.
  lia.
Qed.

(** Ranks of method 'first' break ties by position: no rank appears twice. *)
Lemma rank_first_tie ascending xs i j x y ri rj :
  (i < j)%nat ->
  nth_error xs i = Some x -> nth_error xs j = Some y -> (x == y)%Q ->
  nth_error (rank_first ascending xs) i = Some ri ->
  nth_error (rank_first ascending xs) j = Some rj ->
  ri < rj.
Proof.
  intros Hij Hx Hy Heq Hri Hrj.
  rewrite (rank_first_nth _ _ _ _ Hx) in Hri. apply some_inj in Hri. subst ri.
  rewrite (rank_first_nth _ _ _ _ Hy) in Hrj. apply some_inj in Hrj. subst rj.
  assert (H1 : count_if (fun z => if ascending then Qltb z x else Qltb x z) xs
               = count_if (fun z => if ascending then Qltb z y else Qltb y z) xs).
  { apply count_if_ext. intros z.
    destruct ascending; apply Qltb_compat; auto; reflexivity. }
  assert (H2 : count_if (Qeq_bool x) (firstn i xs) = count_if (Qeq_bool y) (firstn i xs)).
  { apply count_if_ext. intros z. now rewrite Heq. }
  assert (H3 : count_if (Qeq_bool y) (firstn i (firstn j xs)) + 1
               <= count_if (Qeq_bool y) (firstn j xs)).
  { apply (count_if_firstn (Qeq_bool y) (firstn j xs) i x).
    - rewrite nth_error_firstn. apply Nat.ltb_lt in Hij. now rewrite Hij.
    - apply Qeq_bool_iff. now symmetry. }
  rewrite firstn_firstn in H3. rewrite Nat.min_l in H3 by lia.
  lia.
Qed.

Lemma rank_first_differ ascending xs i j x y ri rj :
  (i < j)%nat ->
  nth_error xs i = Some x -> nth_error xs j = Some y ->
  nth_error (rank_first ascending xs) i = Some ri ->
  nth_error (rank_first ascending xs) j = Some rj ->
  ri <> rj.
Proof.
  intros Hij Hx Hy Hri Hrj.
  destruct (Q_dec x y) as [[Hlt|Hgt]|Heq].
  - destruct ascending.
    + pose proof (rank_first_ascending _ _ _ _ _ _ _ Hx Hy Hlt Hri Hrj). lia.
    + pose proof (rank_first_descending _ _ _ _ _ _ _ Hx Hy Hlt Hri Hrj). lia.
  - destruct ascending.
    + pose proof (rank_first_ascending _ _ _ _ _ _ _ Hy Hx Hgt Hrj Hri). lia.
    + pose proof (rank_first_descending _ _ _ _ _ _ _ Hy Hx Hgt Hrj Hri). lia.
  - pose proof (rank_first_tie _ _ _ _ _ _ _ _ Hij Hx Hy Heq Hri Hrj). lia.
Qed.

Lemma rank_first_NoDup ascending xs : NoDup (rank_first ascending xs).
Proof.
  apply NoDup_nth_error. intros i j Hi Heq.
  rewrite rank_first_length in Hi.
  destruct (nth_error (rank_first ascending xs) i) as [ri|] eqn:Hri;
    [|apply nth_error_None in Hri; rewrite rank_first_length in Hri; lia].
  symmetry in Heq.
  assert (Hj : (j < List.length xs)%nat).
  { rewrite <- (rank_first_length ascending xs). apply nth_error_Some. congruence. }
  destruct (nth_error xs i) as [x|] eqn:Hx; [|apply nth_error_None in Hx; lia].
  destruct (nth_error xs j) as [y|] eqn:Hy; [|apply nth_error_None in Hy; lia].
  destruct (Nat.lt_total i j) as [Hlt|[Heq'|Hgt]]; [|assumption|].
  - exfalso. exact (rank_first_differ _ _ _ _ _ _ _ _ Hlt Hx Hy Hri Heq eq_refl).
  - exfalso. exact (rank_first_differ _ _ _ _ _ _ _ _ Hgt Hy Hx Heq Hri eq_refl).
Qed.

(** The ranks of a column of [n] values are, in sorted order, 1, 2, ..., n,
    whatever the values and their ties. *)
Lemma sorted_ranks ascending xs :
  sort_values (map inject_Z (rank_first ascending xs))
  = map inject_Z (Ranks.range 1 (List.length xs)).
Proof.
  rewrite sort_values_inject. f_equal.
  rewrite <- (rank_first_length ascending xs).
  rewrite <- (sort_values_Z_length (rank_first ascending xs)).
  apply strictly_sorted_range.
  - apply sort_values_Z_sorted. apply rank_first_NoDup.
  - intros z Hz. rewrite sort_values_Z_length, rank_first_length.
    apply (proj1 (sort_values_Z_In _ _)) in Hz. apply In_nth_error in Hz.
    destruct Hz as [i Hi].
    apply rank_first_bounds in Hi. lia.
Qed.

Lemma linspace01_5 : linspace01 5 = [0 # 5; 1 # 5; 2 # 5; 3 # 5; 4 # 5; 5 # 5].
Proof. reflexivity. Qed.

Lemma floor_index N k :
  0 <= N -> 0 <= k <= 5 ->
  0 <= N * k / 5 <= N /\
  5 * (N * k / 5) <= N * k < 5 * (N * k / 5) + 5 /\
  (N * k / 5 = N -> N * k = 5 * N).
Proof.
  intros HN Hk.
  assert (Hc : k = 0 \/ k = 1 \/ k = 2 \/ k = 3 \/ k = 4 \/ k = 5) by lia.
  destruct Hc as [->|[->|[->|[->|[->| ->]]]]].
  all: Z.div_mod_to_equations; lia.
Qed.

(** Quantiles of the ranks 1..count: the interpolation between neighbouring
    ranks is linear in the position. *)
Lemma quantile_of_ranks xs n k :
  sort_values xs = map inject_Z (Ranks.range 1 (S n)) ->
  0 <= k <= 5 ->
  exists v, quantile xs (k # 5) = Some v /\ (v == Ranks.edge (S n) k)%Q.
Proof.
  intros Hs Hk. unfold quantile. rewrite Hs. cbn [Ranks.range map]. cbv zeta.
  change (inject_Z 1 :: map inject_Z (Ranks.range (1 + 1) n))
    with (map inject_Z (Ranks.range 1 (S n))).
  rewrite length_map, range_length.
  replace (Z.of_nat (S n) - 1) with (Z.of_nat n) by lia.
  unfold Ranks.edge. replace (Z.of_nat (S n) - 1) with (Z.of_nat n) by lia.
  set (N := Z.of_nat n). assert (HN : 0 <= N) by (unfold N; lia).
  assert (Hfl : Qfloor (inject_Z N * (k # 5)) = N * k / 5) by reflexivity.
  rewrite Hfl. set (i := N * k / 5).
  destruct (floor_index N k HN Hk) as (Hi & Hdiv & Hfull). fold i in Hi, Hdiv, Hfull.
  rewrite (range_nth 1 (S n) (Z.to_nat i)) by lia.
  rewrite (range_nth 1 (S n) (Z.to_nat (Z.min (i + 1) N))) by lia.
  rewrite !Z2Nat.id by lia.
  eexists. split; [reflexivity|].
  assert (Hh : (inject_Z N * (k # 5) == (N * k # 5))%Q).
  { unfold Qeq, Qmult, inject_Z. cbn [Qnum Qden]. reflexivity. }
  rewrite Hh.
  destruct (Z.eq_dec i N) as [Heq|Hne].
  - rewrite Z.min_r by lia. specialize (Hfull Heq).
    assert (Hq : ((N * k # 5) == inject_Z i)%Q).
    { unfold Qeq, inject_Z. cbn [Qnum Qden]. lia. }
    rewrite Hq, Heq, !inject_Z_plus. change (inject_Z 1) with 1%Q. ring.
  - rewrite Z.min_l by lia. rewrite !inject_Z_plus. change (inject_Z 1) with 1%Q. ring.
Qed.

Lemma quantile_edges ascending values n :
  List.length values = S n ->
  exists v0 v1 v2 v3 v4 v5,
    map (quantile (map inject_Z (rank_first ascending values))) (linspace01 5)
    = [Some v0; Some v1; Some v2; Some v3; Some v4; Some v5] /\
    (v0 == Ranks.edge (S n) 0)%Q /\ (v1 == Ranks.edge (S n) 1)%Q /\
    (v2 == Ranks.edge (S n) 2)%Q /\ (v3 == Ranks.edge (S n) 3)%Q /\
    (v4 == Ranks.edge (S n) 4)%Q /\ (v5 == Ranks.edge (S n) 5)%Q.
Proof.
  intros Hlen.
  pose proof (sorted_ranks ascending values) as Hs. rewrite Hlen in Hs.
  destruct (quantile_of_ranks _ n 0 Hs ltac:(lia)) as (v0 & E0 & H0).
  destruct (quantile_of_ranks _ n 1 Hs ltac:(lia)) as (v1 & E1 & H1).
  destruct (quantile_of_ranks _ n 2 Hs ltac:(lia)) as (v2 & E2 & H2).
  destruct (quantile_of_ranks _ n 3 Hs ltac:(lia)) as (v3 & E3 & H3).
  destruct (quantile_of_ranks _ n 4 Hs ltac:(lia)) as (v4 & E4 & H4).
  destruct (quantile_of_ranks _ n 5 Hs ltac:(lia)) as (v5 & E5 & H5).
  exists v0, v1, v2, v3, v4, v5.
  rewrite linspace01_5. cbn [map]. rewrite E0, E1, E2, E3, E4, E5. auto 10.
Qed.

Lemma edge_lt count a b :
  (2 <= count)%nat -> a < b -> (Ranks.edge count a < Ranks.edge count b)%Q.
Proof.
  intros Hc Hab. unfold Ranks.edge, Qlt, Qplus. cbn [Qnum Qden]. nia.
Qed.

Lemma distinct_sorted l : StronglySorted Qlt l -> distinct l = true.
Proof.
  induction 1 as [|a l Hl IH Ha]; [reflexivity|].
  cbn [distinct]. rewrite IH, andb_true_r. apply negb_true_iff.
  apply not_true_is_false. intros H. apply existsb_exists in H.
  destruct H as (y & Hy & He). apply Qeq_bool_iff in He.
  rewrite Forall_forall in Ha. specialize (Ha y Hy). rewrite He in Ha.
  now apply Qlt_irrefl in Ha.
Qed.

Lemma Qlt_transitive : Relations_1.Transitive Qlt.
Proof. intros x y z. apply Qlt_trans. Qed.

(** Every rank falls into one of the five bins. *)
Lemma bin_id_of_rank count v0 v1 v2 v3 v4 v5 r :
  (v0 == Ranks.edge count 0)%Q -> (v5 == Ranks.edge count 5)%Q ->
  1 <= r <= Z.of_nat count ->
  exists id, bin_id [v0; v1; v2; v3; v4; v5] (inject_Z r) = Some id /\ 1 <= id <= 5.
Proof.
  intros H0 H5 Hr. unfold bin_id, searchsorted_left. cbn [List.length].
  change (Z.of_nat 6) with 6.
  destruct (Qeq_bool (inject_Z r) v0) eqn:E0.
  - exists 1. split; [reflexivity|lia].
  - rewrite !count_if_cons. change (count_if (fun b => Qltb b (inject_Z r)) []) with 0.
    assert (Hlow : Qltb v0 (inject_Z r) = true).
    { apply Qltb_lt. apply Qeq_bool_neq in E0.
      assert (Hle : (v0 <= inject_Z r)%Q).
      { rewrite H0. unfold Ranks.edge, Qle, Qplus, inject_Z. cbn [Qnum Qden]. lia. }
      apply Qle_lteq in Hle. destruct Hle as [Hlt|Heq]; [exact Hlt|].
      exfalso. apply E0. now symmetry. }
    assert (Hhigh : Qltb v5 (inject_Z r) = false).
    { apply not_true_is_false. intros H. apply Qltb_lt in H. rewrite H5 in H.
      unfold Ranks.edge, Qlt, Qplus, inject_Z in H. cbn [Qnum Qden] in H. lia. }
    rewrite Hlow, Hhigh.
    destruct (Qltb v1 (inject_Z r)), (Qltb v2 (inject_Z r)), (Qltb v3 (inject_Z r)),
      (Qltb v4 (inject_Z r)); cbn; eexists; (split; [reflexivity|lia]).
Qed.

Lemma all_some_total {A} (xs : list (option A)) :
  (forall x, In x xs -> exists a, x = Some a) -> exists ys, all_some xs = Some ys.
Proof.
  induction xs as [|x rest IH]; intros H; [now exists []|].
  destruct (H x (or_introl eq_refl)) as [a ->].
  destruct IH as [ys Hys]; [intros y Hy; apply H; now right|].
  exists (a :: ys). cbn [all_some]. now rewrite Hys.
Qed.

(** [pd.qcut(ranks, 5, labels).astype(int)] succeeds on every column of at
    least two values. *)
Lemma qcut_of_ranks_returns ascending values labels :
  (2 <= List.length values)%nat -> List.length labels = 5%nat ->
  exists cats scores,
    qcut (map inject_Z (rank_first ascending values)) 5 labels = Ok cats /\
    astype_int cats = Ok scores.
Proof.
  intros Hlen Hlab.
  destruct (List.length values) as [|n] eqn:En; [lia|].
  destruct (quantile_edges ascending values n En)
    as (v0 & v1 & v2 & v3 & v4 & v5 & Hq & H0 & H1 & H2 & H3 & H4 & H5).
  unfold qcut. rewrite Hq. cbn [all_some].
  assert (Hd : distinct [v0; v1; v2; v3; v4; v5] = true).
  { apply distinct_sorted. apply Sorted_StronglySorted; [exact Qlt_transitive|].
    repeat constructor.
    all: rewrite ?H0, ?H1, ?H2, ?H3, ?H4, ?H5; apply edge_lt; lia. }
  rewrite Hd. cbn [negb andb List.length]. rewrite Hlab. cbn [Nat.sub Nat.eqb negb].
  eexists. 
  assert (Hall : forall c,
             In c (map (fun v => match bin_id [v0; v1; v2; v3; v4; v5] v with
                                 | Some id => nth_error labels (Z.to_nat (id - 1))
                                 | None => None
                                 end) (map inject_Z (rank_first ascending values))) ->
             exists a, c = Some a).
  { intros c Hc. apply in_map_iff in Hc. destruct Hc as (v & <- & Hv).
    apply in_map_iff in Hv. destruct Hv as (r & <- & Hr).
    apply In_nth_error in Hr. destruct Hr as [i Hi].
    apply rank_first_bounds in Hi. rewrite En in Hi.
    destruct (bin_id_of_rank (S n) v0 v1 v2 v3 v4 v5 r H0 H5 Hi) as (id & -> & Hid).
    destruct (nth_error labels (Z.to_nat (id - 1))) as [l|] eqn:El; [now exists l|].
    apply nth_error_None in El. lia. }
  destruct (all_some_total _ Hall) as [ys Hys].
  exists ys. split; [reflexivity|]. unfold astype_int. now rewrite Hys.
Qed.

(** X9: as soon as two different customers have orders,
    [calculate_rfm_scores] returns a table: the ranks of any column of at
    least two values are 1..n in sorted order, so the five quantile edges
    1 + (n-1)k/5 are distinct and every rank falls into a bin.  Ties in
    recency, frequency or monetary never make it fail. *)
Theorem X9_rfm_scores_exist_for_two_ordering_customers :
  forall e : Env RFM.RFMAnalyzer,
    (2 <= List.length (group_keys (map Order.customer_id (rows (orders_df e)))))%nat ->
    exists e' data, RFM.calculate_rfm_scores e = (e', Ok data).
Proof.
  intros e H.
  unfold RFM.calculate_rfm_scores, Py.bind, convert_order_dates, Py.get, Py.lift,
    Py.put, Py.ret.
  cbn [orders_df customers_df self set_orders set_self map_rows rows extra].
  set (aggs := RFM.aggregate (map (Order.with_order_date to_datetime) (rows (orders_df e)))).
  assert (Hlen : (2 <= List.length aggs)%nat).
  { unfold aggs, RFM.aggregate. rewrite length_map, map_map.
    cbn [Order.with_order_date Order.customer_id]. exact H. }
  destruct (qcut_of_ranks_returns false
              (map inject_Z (map (fun a => RFM.reference_date (self e)
                                           - RFM.agg_last_order_date a) aggs))
              [5; 4; 3; 2; 1]) as (rcat & rs & Hqr & Har);
    [now rewrite !length_map|reflexivity|].
  destruct (qcut_of_ranks_returns true
              (map (fun a => inject_Z (RFM.agg_frequency a)) aggs)
              [1; 2; 3; 4; 5]) as (fcat & fs & Hqf & Haf);
    [now rewrite !length_map|reflexivity|].
  destruct (qcut_of_ranks_returns true (map RFM.agg_monetary aggs) [1; 2; 3; 4; 5])
    as (mcat & ms & Hqm & Ham); [now rewrite !length_map|reflexivity|].
  rewrite Hqr, Har, Hqf, Haf, Hqm, Ham.
  eexists _, _. reflexivity.
Qed.

Lemma X9_rfm_scores_exist_for_two_ordering_customers_witness :
  exists e' data, RFM.calculate_rfm_scores Sample.rfm_env_graded = (e', Ok data).
Proof.
  apply (X9_rfm_scores_exist_for_two_ordering_customers Sample.rfm_env_graded).
  vm_compute. repeat constructor.
Defined.

(** ** Further properties of the CLV engine *)

Lemma find_by_key_present {A} (key : A -> string) (f : string -> A) keys cid :
  (forall k, key (f k) = k) -> In cid keys ->
  find (fun s => String.eqb (key s) cid) (map f keys) = Some (f cid).
Proof.
  intros Hk. induction keys as [|k rest IH]; intros Hin; [destruct Hin|].
  cbn [map find]. rewrite Hk. destruct (String.eqb k cid) eqn:E.
  - apply String.eqb_eq in E. now subst.
  - destruct Hin as [->|Hin]; [rewrite String.eqb_refl in E; discriminate|auto].
Qed.

Lemma find_by_key_absent {A} (key : A -> string) (f : string -> A) keys cid :
  (forall k, key (f k) = k) -> ~ In cid keys ->
  find (fun s => String.eqb (key s) cid) (map f keys) = None.
Proof.
  intros Hk. induction keys as [|k rest IH]; intros Hin; [reflexivity|].
  cbn [map find]. rewrite Hk. destruct (String.eqb k cid) eqn:E.
  - apply String.eqb_eq in E. subst. exfalso. apply Hin. now left.
  - apply IH. intros H. apply Hin. now right.
Qed.

Lemma orders_of_In cid os : orders_of cid os <> [] -> In cid (map Order.customer_id os).
Proof.
  unfold orders_of. induction os as [|o rest IH]; cbn [filter map]; [congruence|].
  destruct (String.eqb (Order.customer_id o) cid) eqn:E.
  - intros _. apply String.eqb_eq in E. now left.
  - intros H. right. auto.
Qed.

(** The row the left merge and [fillna] give a customer. *)
Lemma clv_row_of_customer os c :
  (orders_of (Customer.customer_id c) os <> [] ->
   let s := CLV.stats_of (Customer.customer_id c)
                         (orders_of (Customer.customer_id c) os) in
   CLV.merge_row (CLV.customer_stats os) c =
   CLV.mkRow c (CLV.st_total_spent s) (CLV.st_avg_order_value s)
             (CLV.st_purchase_frequency s)
             (Some (CLV.st_first_purchase s)) (Some (CLV.st_last_purchase s))
             (Some (CLV.st_customer_lifespan_days s))
             (CLV.st_purchase_frequency_monthly s) (CLV.st_predicted_lifespan_months s)
             (CLV.st_historical_clv s)) /\
  (orders_of (Customer.customer_id c) os = [] ->
   CLV.merge_row (CLV.customer_stats os) c = CLV.mkRow c 0 0 0 None None None 0 12 0).
Proof.
  unfold CLV.merge_row, CLV.customer_stats. split.
  - intros H. cbv zeta.
    rewrite (find_by_key_present CLV.st_customer_id
               (fun cid => CLV.stats_of cid (orders_of cid os))); [reflexivity|reflexivity|].
    apply group_keys_In. now apply orders_of_In.
  - intros H.
    rewrite (find_by_key_absent CLV.st_customer_id
               (fun cid => CLV.stats_of cid (orders_of cid os))); [reflexivity|reflexivity|].
    intros Hin. apply In_group_keys in Hin. apply orders_of_nonempty in Hin. contradiction.
Qed.

(** What [calculate_historical_clv] returns and stores. *)
Lemma calculate_historical_clv_returns (e : Env CLV.CLVAnalyzer) :
  let os := map (Order.with_order_date to_datetime) (rows (orders_df e)) in
  let cs := map (Customer.with_signup_date to_datetime) (rows (customers_df e)) in
  let data := mkFrame (map (CLV.merge_row (CLV.customer_stats os)) cs)
                      (extra (customers_df e)) in
  exists e', CLV.calculate_historical_clv e = (e', Ok data) /\
             CLV.clv_data (self e') = Some data.
Proof.
  cbv zeta.
  unfold CLV.calculate_historical_clv, Py.bind, Py.get, Py.put, Py.ret,
    convert_order_dates, convert_signup_dates.
  cbn [orders_df customers_df self set_orders set_customers set_self map_rows rows extra
       CLV.set_clv_data CLV.clv_data fst snd].
  eexists. split; reflexivity.
Qed.



Lemma inject_Z_nonzero z : z <> 0 -> ~ (inject_Z z == 0)%Q.
Proof. intros Hz H. unfold Qeq, inject_Z in H. cbn in H. lia. Qed.






Lemma Qltb_ge x y : Qltb x y = false <-> (y <= x)%Q.
Proof.
  unfold Qltb. rewrite negb_false_iff. apply Qle_bool_iff.
Qed.

Lemma clip_bounds lower upper x :
  (lower <= upper)%Q -> (lower <= clip lower upper x <= upper)%Q.
Proof.
  intros H. unfold clip.
  destruct (Qltb x lower) eqn:E1; [split; [apply Qle_refl|exact H]|].
  destruct (Qltb upper x) eqn:E2; [split; [exact H|apply Qle_refl]|].
  apply Qltb_ge in E1, E2. split; assumption.
Qed.

(** X11: the CLV table has one row per customer, in the order of the
    customers table.  Every predicted lifespan lies between 1 and 60
    months; a customer has purchase_frequency 0 exactly when they have no
    order, and then spend, average, monthly frequency and historical CLV
    are 0, the predicted lifespan is the default 12 and the purchase dates
    and lifespan are missing. *)
Theorem X11_clv_rows_and_defaults :
  forall (e e' : Env CLV.CLVAnalyzer) (data : Frame CLV.Row),
    CLV.calculate_historical_clv e = (e', Ok data) ->
    map CLV.customer (rows data)
    = map (Customer.with_signup_date to_datetime) (rows (customers_df e)) /\
    forall row, In row (rows data) ->
      let mine := orders_of (Customer.customer_id (CLV.customer row))
                            (rows (orders_df e)) in
      (1 <= CLV.predicted_lifespan_months row <= 60)%Q /\
      CLV.purchase_frequency row = Z.of_nat (List.length mine) /\
      (mine = [] ->
       CLV.total_spent row = 0%Q /\ CLV.avg_order_value row = 0%Q /\
       CLV.purchase_frequency_monthly row = 0%Q /\
       CLV.predicted_lifespan_months row = 12%Q /\
       CLV.historical_clv row = 0%Q /\
       CLV.first_purchase row = None /\ CLV.last_purchase row = None /\
       CLV.customer_lifespan_days row = None).
Proof.
  intros e e' data Hrun.
  destruct (calculate_historical_clv_returns e) as (e1 & Hret & _). cbv zeta in Hret.
  rewrite Hret in Hrun. injection Hrun as _ <-. cbn [rows].
  set (os := map (Order.with_order_date to_datetime) (rows (orders_df e))).
  assert (Hcust : forall c, CLV.customer (CLV.merge_row (CLV.customer_stats os) c) = c).
  { intros c. unfold CLV.merge_row. now destruct (find _ _). }
  split.
  - rewrite map_map. rewrite <- (map_id (map _ (rows (customers_df e)))) at 2.
    apply map_ext. exact Hcust.
  - intros row Hrow. cbv zeta.
    apply in_map_iff in Hrow. destruct Hrow as (c & <- & Hc). rewrite Hcust.
    assert (Hconv : orders_of (Customer.customer_id c) os
                    = map (Order.with_order_date to_datetime)
                          (orders_of (Customer.customer_id c) (rows (orders_df e))))
      by apply orders_of_converted.
    destruct (orders_of (Customer.customer_id c) (rows (orders_df e))) as [|o rest] eqn:E.
    + rewrite (proj2 (clv_row_of_customer os c)) by (rewrite Hconv; reflexivity).
      cbn. repeat split; discriminate.
    + rewrite (proj1 (clv_row_of_customer os c)) by (rewrite Hconv; discriminate).
      cbv zeta.
      cbn [CLV.predicted_lifespan_months CLV.purchase_frequency].
      unfold CLV.stats_of.
      cbn [CLV.st_predicted_lifespan_months CLV.st_purchase_frequency].
      split; [apply clip_bounds; discriminate|].
      split; [rewrite Hconv; now rewrite length_map|discriminate].
Qed.

Lemma X11_clv_rows_and_defaults_witness :
  map CLV.customer (rows Sample.clv_historical)
  = map (Customer.with_signup_date to_datetime) (rows (customers_df Sample.clv_env)) /\
  forall row, In row (rows Sample.clv_historical) ->
    let mine := orders_of (Customer.customer_id (CLV.customer row))
                          (rows (orders_df Sample.clv_env)) in
    (1 <= CLV.predicted_lifespan_months row <= 60)%Q /\
    CLV.purchase_frequency row = Z.of_nat (List.length mine) /\
    (mine = [] ->
     CLV.total_spent row = 0%Q /\ CLV.avg_order_value row = 0%Q /\
     CLV.purchase_frequency_monthly row = 0%Q /\
     CLV.predicted_lifespan_months row = 12%Q /\
     CLV.historical_clv row = 0%Q /\
     CLV.first_purchase row = None /\ CLV.last_purchase row = None /\
     CLV.customer_lifespan_days row = None).
Proof.
  apply (X11_clv_rows_and_defaults Sample.clv_env Sample.clv_historical_env
           Sample.clv_historical).
  vm_compute. reflexivity.
Defined.

Lemma multiplier_of_bounds os r :
  (1 # 2 <= Spec.multiplier_of (CLV.trend_data os) r <= 2)%Q.
Proof.
  unfold Spec.multiplier_of. destruct (find _ _) as [t|] eqn:E.
  - apply find_some in E. destruct E as [Hin _].
    rewrite (trend_multiplier_of_growth _ _ Hin). apply clip_bounds. discriminate.
  - split; discriminate.
Qed.

(** X12: on a CLV table that does not yet carry the trend columns,
    [calculate_predictive_clv] returns; every customer's trend_multiplier
    lies between 0.5 and 2 and predictive_clv is historical_clv times that
    multiplier, so a non-negative historical CLV is at most halved and at
    most doubled. *)
Theorem X12_predictive_clv_within_half_and_double :
  forall (e : Env CLV.CLVAnalyzer) (data : Frame CLV.Row),
    CLV.clv_data (self e) = Some data ->
    has_col "spending_growth_rate" data = false ->
    has_col "trend_multiplier" data = false ->
    exists e' data' multiplier predictive,
      CLV.calculate_predictive_clv e = (e', Ok data') /\
      rows data' = rows data /\
      col "trend_multiplier" data' = Ok multiplier /\
      col "predictive_clv" data' = Ok predictive /\
      forall i row,
        nth_error (rows data') i = Some row ->
        exists m p,
          nth_error multiplier i = Some (Num m) /\
          nth_error predictive i = Some (Num p) /\
          (1 # 2 <= m <= 2)%Q /\
          (p == CLV.historical_clv row * m)%Q /\
          ((0 <= CLV.historical_clv row)%Q ->
           (CLV.historical_clv row * (1 # 2) <= p <= CLV.historical_clv row * 2)%Q).
Proof.
  intros e data Hdata Hg Hm.
  destruct (calculate_predictive_clv_fresh e data Hdata Hg Hm)
    as (e' & data' & Hrun & _ & Hrows & _ & Hmul & Hpred).
  cbv zeta in Hmul, Hpred.
  set (trend := CLV.trend_data (map (Order.with_order_date to_datetime)
                                    (rows (orders_df e)))) in *.
  exists e', data', (map (fun r => Num (Spec.multiplier_of trend r)) (rows data)),
    (map (fun r => Num (CLV.historical_clv r * Spec.multiplier_of trend r)%Q) (rows data)).
  repeat (split; [assumption|]).
  intros i row Hrow. rewrite Hrows in Hrow.
  exists (Spec.multiplier_of trend row),
    (CLV.historical_clv row * Spec.multiplier_of trend row)%Q.
  rewrite !nth_error_map, Hrow. cbn [option_map].
  pose proof (multiplier_of_bounds (map (Order.with_order_date to_datetime)
                                        (rows (orders_df e))) row) as [Hlo Hhi].
  fold trend in Hlo, Hhi.
  repeat split; try reflexivity; try assumption.
  - rewrite (Qmult_comm _ (1 # 2)), (Qmult_comm _ (Spec.multiplier_of trend row)).
    apply Qmult_le_compat_r; assumption.
  - rewrite (Qmult_comm _ 2), (Qmult_comm _ (Spec.multiplier_of trend row)).
    apply Qmult_le_compat_r; assumption.
Qed.

Lemma X12_predictive_clv_within_half_and_double_witness :
  exists e' data' multiplier predictive,
    CLV.calculate_predictive_clv Sample.clv_historical_env = (e', Ok data') /\
    rows data' = rows Sample.clv_historical /\
    col "trend_multiplier" data' = Ok multiplier /\
    col "predictive_clv" data' = Ok predictive /\
    forall i row,
      nth_error (rows data') i = Some row ->
      exists m p,
        nth_error multiplier i = Some (Num m) /\
        nth_error predictive i = Some (Num p) /\
        (1 # 2 <= m <= 2)%Q /\
        (p == CLV.historical_clv row * m)%Q /\
        ((0 <= CLV.historical_clv row)%Q ->
         (CLV.historical_clv row * (1 # 2) <= p <= CLV.historical_clv row * 2)%Q).
Proof.
  apply (X12_predictive_clv_within_half_and_double Sample.clv_historical_env
           Sample.clv_historical).
  - vm_compute. reflexivity.
  - vm_compute. reflexivity.
  - vm_compute. reflexivity.
Defined.

Lemma col_lookup_has_name_false name cols :
  has_name name (map fst cols) = false -> col_lookup name cols = None.
Proof.
  induction cols as [|[n c] rest IH]; cbn [map fst has_name col_lookup]; [reflexivity|].
  intros H. apply orb_false_iff in H. destruct H as [H0 H]. rewrite H0. auto.
Qed.

Lemma has_name_app name xs ys :
  has_name name (xs ++ ys) = has_name name xs || has_name name ys.
Proof.
  induction xs as [|x rest IH]; cbn [has_name app]; [reflexivity|].
  now rewrite IH, orb_assoc.
Qed.

(** After the merge with the two trend columns no column of a table that
    already had a [trend_multiplier] is called [trend_multiplier]: the old
    one carries the suffix [_x], the new one the suffix [_y]. *)
Lemma merged_twice_has_no_multiplier left c1 c2 :
  has_name "trend_multiplier" (map fst left) = true ->
  let right := [("spending_growth_rate", c1); ("trend_multiplier", c2)] in
  has_name "trend_multiplier"
    (map fst
       (map (fun nc : string * list Cell =>
               (if has_name (fst nc) (map fst right)
                then (fst nc ++ "_x")%string else fst nc, snd nc)) left
        ++ map (fun nc : string * list Cell =>
                  (if has_name (fst nc) (map fst left)
                   then (fst nc ++ "_y")%string else fst nc, snd nc)) right)) = false.
Proof.
  intros H. cbv zeta. rewrite map_app, has_name_app. apply orb_false_iff. split.
  - clear H. induction left as [|[n c] rest IH]; [reflexivity|].
    cbn [map fst snd has_name] in *. rewrite IH, orb_false_r.
    destruct (String.eqb "spending_growth_rate" n) eqn:E1.
    { apply String.eqb_eq in E1. subst n. reflexivity. }
    destruct (String.eqb "trend_multiplier" n) eqn:E2.
    { apply String.eqb_eq in E2. subst n. reflexivity. }
    cbn [orb]. now rewrite String.eqb_sym.
  - cbn [map fst snd]. rewrite H.
    destruct (has_name "spending_growth_rate" (map fst left)); reflexivity.
Qed.

Lemma has_name_fillna name name' v cols :
  has_name name (map fst (fillna_col name' v cols)) = has_name name (map fst cols).
Proof.
  induction cols as [|[n c] rest IH]; cbn [fillna_col map fst has_name]; [reflexivity|].
  now rewrite IH.
Qed.

(** A returning run of [calculate_predictive_clv] stores the table it
    returns, and that table has a [trend_multiplier] column. *)
Lemma predictive_returns_with_multiplier (e e1 : Env CLV.CLVAnalyzer) d1 :
  CLV.calculate_predictive_clv e = (e1, Ok d1) ->
  CLV.clv_data (self e1) = Some d1 /\ has_col "trend_multiplier" d1 = true.
Proof.
  unfold CLV.calculate_predictive_clv, Py.bind, Py.get, Py.lift, Py.put, Py.ret, Py.raise,
    convert_order_dates.
  destruct (CLV.clv_data (self e)) as [data|]; [|intros H; discriminate H].
  cbn [orders_df customers_df self set_orders set_self map_rows rows extra].
  returns_step.
  unfold col at 1. cbn [extra].
  destruct (col_lookup "trend_multiplier" _) as [c|] eqn:Ec; [|intros H; discriminate H].
  returns_step.
  intros H. injection H as <- <-.
  cbn [self CLV.set_clv_data set_self CLV.clv_data]. split; [reflexivity|].
  unfold has_col, set_col. cbn [extra].
  rewrite col_lookup_assign_other by reflexivity. now rewrite Ec.
Qed.

(** X13: [calculate_predictive_clv] cannot be called twice.  After a call
    that returned, the next call raises: the merge renames the existing
    trend columns with the suffixes [_x] and [_y], so the lookup of
    [trend_multiplier] fails with a KeyError, and the engine is left with
    the renamed table (or the merge itself refuses the suffixes, and the
    stored table stays). *)
Theorem X13_predictive_clv_cannot_be_repeated :
  forall (e e1 : Env CLV.CLVAnalyzer) (d1 : Frame CLV.Row),
    CLV.calculate_predictive_clv e = (e1, Ok d1) ->
    exists e2 err,
      CLV.calculate_predictive_clv e1 = (e2, Raise err) /\
      ((err = KeyError "trend_multiplier" /\
        exists d2, CLV.clv_data (self e2) = Some d2 /\ rows d2 = rows d1 /\
                   has_col "trend_multiplier" d2 = false) \/
       (err = ValueError "Passing 'suffixes' which cause duplicate columns is not allowed" /\
        CLV.clv_data (self e2) = Some d1)).
Proof.
  intros e e1 d1 Hrun.
  destruct (predictive_returns_with_multiplier _ _ _ Hrun) as [Hd Hm].
  rewrite has_col_has_name in Hm.
  unfold CLV.calculate_predictive_clv, Py.bind, Py.get, Py.lift, Py.put, Py.ret, Py.raise,
    convert_order_dates.
  rewrite Hd.
  cbn [orders_df customers_df self set_orders set_self map_rows rows extra].
  unfold merge_columns.
  destruct (_ || _ || _)%bool.
  - eexists _, _. split; [reflexivity|]. right. split; [reflexivity|].
    cbn [self]. exact Hd.
  - unfold col at 1. cbn [extra].
    rewrite col_lookup_has_name_false.
    + eexists _, _. split; [reflexivity|]. left. split; [reflexivity|].
      eexists. cbn [self CLV.set_clv_data set_self CLV.clv_data].
      split; [reflexivity|]. split; [reflexivity|].
      rewrite has_col_has_name. cbn [extra].
      rewrite !has_name_fillna. now apply merged_twice_has_no_multiplier.
    + rewrite !has_name_fillna. now apply merged_twice_has_no_multiplier.
Qed.

Lemma X13_predictive_clv_cannot_be_repeated_witness :
  let first := CLV.calculate_predictive_clv Sample.clv_historical_env in
  exists e2 err,
    CLV.calculate_predictive_clv (fst first) = (e2, Raise err) /\
    ((err = KeyError "trend_multiplier" /\
      exists d2, CLV.clv_data (self e2) = Some d2 /\
                 rows d2 = rows (Sample.result_of first Sample.no_clv) /\
                 has_col "trend_multiplier" d2 = false) \/
     (err = ValueError "Passing 'suffixes' which cause duplicate columns is not allowed" /\
      CLV.clv_data (self e2) = Some (Sample.result_of first Sample.no_clv))).
Proof.
  cbv zeta.
  apply (X13_predictive_clv_cannot_be_repeated Sample.clv_historical_env).
  vm_compute. reflexivity.
Defined.

(** *** CLV segments *)

Lemma present_all qs :
  flat_map (fun x : option Q => match x with Some q => [q] | None => [] end)
           (map Some qs) = qs.
Proof. induction qs as [|q rest IH]; cbn; [reflexivity|now rewrite IH]. Qed.

(** Twice the average rank of a value among [qs]. *)
Lemma rank_pct_as_fraction qs q :
  let less := count_if (fun y => Qltb y q) qs in
  let equal := count_if (Qeq_bool q) qs in
  qs <> [] ->
  ((inject_Z less + (inject_Z equal + 1) / 2) / lenQ qs
   == inject_Z (2 * less + equal + 1) / inject_Z (2 * Z.of_nat (List.length qs)))%Q.
Proof.
  cbv zeta. intros Hne. unfold lenQ.
  assert (Hn : ~ (inject_Z (Z.of_nat (List.length qs)) == 0)%Q).
  { apply inject_Z_nonzero. destruct qs; [contradiction|cbn [List.length]; lia]. }
  rewrite !inject_Z_plus, !inject_Z_mult. change (inject_Z 2) with 2%Q.
  change (inject_Z 1) with 1%Q. field. exact Hn.
Qed.

(** The segment of a value, by integer arithmetic on the rank counts. *)
Lemma assign_clv_segment_by_counts qs q :
  let num := 2 * count_if (fun y => Qltb y q) qs + count_if (Qeq_bool q) qs + 1 in
  let n := Z.of_nat (List.length qs) in
  qs <> [] ->
  CLV.assign_clv_segment
    (Some ((inject_Z (count_if (fun y => Qltb y q) qs)
            + (inject_Z (count_if (Qeq_bool q) qs) + 1) / 2) / lenQ qs)%Q)
  = if Z.leb (8 * n) (5 * num) then "High Value"
    else if Z.leb (2 * n) (5 * num) then "Medium Value"
    else "Low Value".
Proof.
  cbv zeta. intros Hne. unfold CLV.assign_clv_segment.
  set (pct := ((inject_Z (count_if (fun y => Qltb y q) qs)
                + (inject_Z (count_if (Qeq_bool q) qs) + 1) / 2) / lenQ qs)%Q).
  set (num := 2 * count_if (fun y => Qltb y q) qs + count_if (Qeq_bool q) qs + 1).
  set (n := Z.of_nat (List.length qs)).
  assert (Hn : 0 < n) by (unfold n; destruct qs; [contradiction|cbn [List.length]; lia]).
  assert (Hpct : (pct == inject_Z num / inject_Z (2 * n))%Q)
    by (apply (rank_pct_as_fraction qs q Hne)).
  assert (Hfrac : forall a : Z,
             Qle_bool (a # 10) (inject_Z num / inject_Z (2 * n))
             = Z.leb (a * (2 * n)) (10 * num)).
  { intros a. destruct n as [|p|p]; try lia.
    change (2 * Z.pos p) with (Z.pos (2 * p)).
    unfold Qle_bool, Qdiv, Qmult, Qinv, inject_Z. cbn [Qnum Qden].
    rewrite Pos.mul_1_l. f_equal; lia. }
  assert (H8 : Qle_bool (8 # 10) pct = Z.leb (8 * n) (5 * num)).
  { rewrite Hpct, Hfrac.
    destruct (Z.leb_spec (8 * n) (5 * num)), (Z.leb_spec (8 * (2 * n)) (10 * num)); lia. }
  assert (H2 : Qle_bool (2 # 10) pct = Z.leb (2 * n) (5 * num)).
  { rewrite Hpct, Hfrac.
    destruct (Z.leb_spec (2 * n) (5 * num)), (Z.leb_spec (2 * (2 * n)) (10 * num)); lia. }
  now rewrite H8, H2.
Qed.

Lemma as_nums_all_Num qs : as_nums (map Num qs) = Ok (map Some qs).
Proof. induction qs as [|q rest IH]; cbn; [reflexivity|now rewrite IH]. Qed.

Lemma count_if_In_pos {A} (p : A -> bool) xs x :
  In x xs -> p x = true -> 1 <= count_if p xs.
Proof.
  intros Hin Hp. apply In_nth_error in Hin. destruct Hin as [i Hi].
  pose proof (count_if_firstn p xs i x Hi Hp).
  pose proof (count_if_nonneg p (firstn i xs)). lia.
Qed.

(** Twice the average rank grows with the value. *)
Lemma rank_numerator_mono qs q q' :
  (q <= q')%Q ->
  2 * count_if (fun y => Qltb y q) qs + count_if (Qeq_bool q) qs
  <= 2 * count_if (fun y => Qltb y q') qs + count_if (Qeq_bool q') qs.
Proof.
  intros Hle. apply Qle_lteq in Hle. destruct Hle as [Hlt|Heq].
  - assert (H : count_if (fun y => Qltb y q) qs + count_if (Qeq_bool q) qs
                <= count_if (fun y => Qltb y q') qs).
    { apply count_if_disjoint.
      - intros z Hz. apply Qltb_lt. apply Qltb_lt in Hz. eapply Qlt_trans; eauto.
      - intros z Hz. apply Qltb_lt. apply Qeq_bool_iff in Hz. now rewrite <- Hz.
      - intros z Hz Hz'. apply Qltb_lt in Hz. apply Qeq_bool_iff in Hz'.
        rewrite Hz' in Hz. now apply Qlt_irrefl in Hz. }
    pose proof (count_if_nonneg (Qeq_bool q) qs).
    pose proof (count_if_nonneg (Qeq_bool q') qs). lia.
  - rewrite (count_if_ext (fun y => Qltb y q) (fun y => Qltb y q') qs)
      by (intros z; apply Qltb_compat; [reflexivity|exact Heq]).
    rewrite (count_if_ext (Qeq_bool q) (Qeq_bool q') qs)
      by (intros z; now rewrite Heq).
    lia.
Qed.

(** A largest value: every value is below it or ties with it. *)
Lemma rank_counts_of_top qs q :
  (forall y, In y qs -> (y <= q)%Q) ->
  count_if (fun y => Qltb y q) qs + count_if (Qeq_bool q) qs
  = Z.of_nat (List.length qs).
Proof.
  induction qs as [|y rest IH]; intros Htop; [reflexivity|].
  rewrite !count_if_cons. cbn [List.length]. rewrite Nat2Z.inj_succ.
  specialize (IH (fun z Hz => Htop z (or_intror Hz))).
  assert (Hy := Htop y (or_introl eq_refl)).
  destruct (Qltb y q) eqn:E1, (Qeq_bool q y) eqn:E2; try lia.
  - apply Qltb_lt in E1. apply Qeq_bool_iff in E2. rewrite E2 in E1.
    now apply Qlt_irrefl in E1.
  - apply Qltb_ge in E1. apply Qeq_bool_neq in E2. exfalso. apply E2.
    now apply Qle_antisym.
Qed.

(** X14: on a table whose predictive_clv column holds numbers,
    [segment_customers_by_clv] returns and labels every customer "High
    Value", "Medium Value" or "Low Value" by percentile rank.  The labels
    follow the values: a customer with a larger or equal predictive_clv
    never gets a lower segment.  A table of at most five customers has no
    "Low Value" customer (the lowest percentile rank is 1/n >= 0.2), and a
    customer with the largest value is "High Value" exactly when at most
    (2n + 5)/5 customers tie at the top. *)
Theorem X14_clv_segments_follow_predictive_clv :
  forall (e : Env CLV.CLVAnalyzer) (data : Frame CLV.Row) (qs : list Q),
    CLV.clv_data (self e) = Some data ->
    col "predictive_clv" data = Ok (map Num qs) ->
    exists e' data' labels,
      CLV.segment_customers_by_clv e = (e', Ok data') /\
      rows data' = rows data /\
      col "clv_segment" data' = Ok (map Str labels) /\
      List.length labels = List.length qs /\
      (forall i j qi qj li lj,
          nth_error qs i = Some qi -> nth_error qs j = Some qj ->
          nth_error labels i = Some li -> nth_error labels j = Some lj ->
          (qi <= qj)%Q ->
          In li ["Low Value"; "Medium Value"; "High Value"] /\
          (lj = "Low Value" -> li = "Low Value") /\
          (li = "High Value" -> lj = "High Value")) /\
      ((List.length qs <= 5)%nat -> ~ In "Low Value" labels) /\
      (forall i qi li,
          nth_error qs i = Some qi -> nth_error labels i = Some li ->
          (forall y, In y qs -> (y <= qi)%Q) ->
          (li = "High Value" <->
           5 * count_if (Qeq_bool qi) qs <= 2 * Z.of_nat (List.length qs) + 5)).
Proof.
  intros e data qs Hdata Hcol.
  set (n := Z.of_nat (List.length qs)).
  set (num := fun q => 2 * count_if (fun y => Qltb y q) qs + count_if (Qeq_bool q) qs + 1).
  set (label := fun q => if Z.leb (8 * n) (5 * num q) then "High Value"
                         else if Z.leb (2 * n) (5 * num q) then "Medium Value"
                         else "Low Value").
  assert (Hlabels : map (fun p => Str (CLV.assign_clv_segment p)) (rank_pct (map Some qs))
                    = map Str (map label qs)).
  { unfold rank_pct. rewrite present_all, !map_map. apply map_ext_in. intros q Hq.
    f_equal. apply (assign_clv_segment_by_counts qs q). intros ->. destruct Hq. }
  exists (CLV.set_clv_data
            (set_col "clv_segment"
               (map (fun p => Str (CLV.assign_clv_segment p)) (rank_pct (map Some qs)))
               (set_col "clv_percentile" (map of_num (rank_pct (map Some qs))) data)) e),
    (set_col "clv_segment"
       (map (fun p => Str (CLV.assign_clv_segment p)) (rank_pct (map Some qs)))
       (set_col "clv_percentile" (map of_num (rank_pct (map Some qs))) data)),
    (map label qs).
  split.
  { unfold CLV.segment_customers_by_clv, Py.bind, Py.get, Py.lift, Py.put, Py.ret.
    rewrite Hdata, Hcol, as_nums_all_Num. reflexivity. }
  split; [reflexivity|].
  split; [rewrite col_set_col_same; now rewrite Hlabels|].
  split; [now rewrite length_map|].
  assert (Hnum : forall q, In q qs -> 2 <= num q).
  { intros q Hq. unfold num.
    pose proof (count_if_In_pos (Qeq_bool q) qs q Hq (Qeq_bool_refl q)).
    pose proof (count_if_nonneg (fun y => Qltb y q) qs). lia. }
  split; [|split].
  - intros i j qi qj li lj Hi Hj Hli Hlj Hle.
    rewrite nth_error_map, Hi in Hli. rewrite nth_error_map, Hj in Hlj.
    cbn [option_map] in Hli, Hlj. apply some_inj in Hli, Hlj. subst li lj.
    pose proof (rank_numerator_mono qs qi qj Hle) as Hmono.
    assert (Hm : num qi <= num qj) by (unfold num; lia).
    unfold label.
    destruct (Z.leb_spec (8 * n) (5 * num qi)), (Z.leb_spec (2 * n) (5 * num qi)),
      (Z.leb_spec (8 * n) (5 * num qj)), (Z.leb_spec (2 * n) (5 * num qj));
      try lia; cbn [In]; (split; [tauto|]); split; intros Heq; try reflexivity;
      discriminate Heq.
  - intros Hlen Hin. apply in_map_iff in Hin. destruct Hin as (q & Hq & Hqin).
    specialize (Hnum q Hqin). unfold label in Hq.
    assert (Hn5 : n <= 5) by (unfold n; lia).
    destruct (Z.leb_spec (8 * n) (5 * num q)); [discriminate Hq|].
    destruct (Z.leb_spec (2 * n) (5 * num q)); [discriminate Hq|]. lia.
  - intros i qi li Hi Hli Htop.
    rewrite nth_error_map, Hi in Hli. cbn [option_map] in Hli. apply some_inj in Hli.
    subst li. pose proof (rank_counts_of_top qs qi Htop) as Hsum. fold n in Hsum.
    unfold label.
    assert (Hnumq : num qi = 2 * n - count_if (Qeq_bool qi) qs + 1) by (unfold num; lia).
    destruct (Z.leb_spec (8 * n) (5 * num qi)).
    + split; [intros _; lia|reflexivity].
    + split; [|intros; lia].
      destruct (Z.leb (2 * n) (5 * num qi)); intros Heq; discriminate Heq.
Qed.

Lemma X14_clv_segments_follow_predictive_clv_witness :
  let first := CLV.calculate_predictive_clv Sample.clv_historical_env in
  let qs := [295876800000 # 8766720000; 60880 # 200; 0; 60880 # 200]%Q in
  exists e' data' labels,
    CLV.segment_customers_by_clv (fst first) = (e', Ok data') /\
    rows data' = rows (Sample.result_of first Sample.no_clv) /\
    col "clv_segment" data' = Ok (map Str labels) /\
    List.length labels = List.length qs /\
    (forall i j qi qj li lj,
        nth_error qs i = Some qi -> nth_error qs j = Some qj ->
        nth_error labels i = Some li -> nth_error labels j = Some lj ->
        (qi <= qj)%Q ->
        In li ["Low Value"; "Medium Value"; "High Value"] /\
        (lj = "Low Value" -> li = "Low Value") /\
        (li = "High Value" -> lj = "High Value")) /\
    ((List.length qs <= 5)%nat -> ~ In "Low Value" labels) /\
    (forall i qi li,
        nth_error qs i = Some qi -> nth_error labels i = Some li ->
        (forall y, In y qs -> (y <= qi)%Q) ->
        (li = "High Value" <->
         5 * count_if (Qeq_bool qi) qs <= 2 * Z.of_nat (List.length qs) + 5)).
Proof.
  cbv zeta.
  apply (X14_clv_segments_follow_predictive_clv
           (fst (CLV.calculate_predictive_clv Sample.clv_historical_env))
           (Sample.result_of (CLV.calculate_predictive_clv Sample.clv_historical_env)
                             Sample.no_clv)).
  - vm_compute. reflexivity.
  - vm_compute. reflexivity.
Defined.

(** ** Further properties of the cohort engine *)

(** *** Distinct keys *)

Lemma compare_lt_trans a b c :
  String.compare a b = Lt -> String.compare b c = Lt -> String.compare a c = Lt.
Proof.
  intros H1 H2. apply String_as_OT.cmp_lt in H1, H2. apply String_as_OT.cmp_lt.
  eapply String_as_OT.lt_trans; eauto.
Qed.

Lemma compare_gt_lt a b : String.compare a b = Gt -> String.compare b a = Lt.
Proof. intros H. rewrite String.compare_antisym, H. reflexivity. Qed.

Lemma compare_refl a : String.compare a a = Eq.
Proof. exact (proj2 (String_as_OT.cmp_eq a a) eq_refl). Qed.

Lemma insert_key_sorted k ks :
  StronglySorted (fun a b => String.compare a b = Lt) ks ->
  StronglySorted (fun a b => String.compare a b = Lt) (insert_key k ks).
Proof.
  induction ks as [|k0 rest IH]; cbn [insert_key]; intros Hs.
  - constructor; constructor.
  - inversion Hs as [|? ? Hrest Hk0]; subst.
    destruct (String.compare k k0) eqn:E.
    + exact Hs.
    + constructor; [exact Hs|]. constructor; [exact E|].
      rewrite Forall_forall in Hk0 |- *. intros z Hz.
      eapply compare_lt_trans; [exact E|auto].
    + constructor; [auto|].
      rewrite Forall_forall in Hk0 |- *. intros z Hz.
      apply In_insert_key in Hz. destruct Hz as [->|Hz]; [now apply compare_gt_lt|auto].
Qed.

Lemma group_keys_sorted ks :
  StronglySorted (fun a b => String.compare a b = Lt) (group_keys ks).
Proof.
  induction ks as [|k rest IH]; [constructor|]. apply insert_key_sorted. exact IH.
Qed.

(** [groupby] lists every key once. *)
Lemma group_keys_NoDup ks : NoDup (group_keys ks).
Proof.
  induction (group_keys_sorted ks) as [|a l Hl IH Ha]; constructor; [|exact IH].
  intros Hin. rewrite Forall_forall in Ha. specialize (Ha a Hin).
  rewrite compare_refl in Ha. discriminate Ha.
Qed.

(** [nunique] counts the members of a set: a subset has no more. *)
Lemma nunique_incl l1 l2 : incl l1 l2 -> nunique l1 <= nunique l2.
Proof.
  intros H. unfold nunique. apply inj_le. apply NoDup_incl_length.
  - apply group_keys_NoDup.
  - intros k Hk. apply group_keys_In. apply H. now apply In_group_keys.
Qed.

Lemma nunique_pos l : l <> [] -> 1 <= nunique l.
Proof.
  destruct l as [|x rest]; [congruence|]. intros _. unfold nunique.
  assert (H : In x (group_keys (x :: rest))) by (apply group_keys_In; now left).
  destruct (group_keys (x :: rest)); [destruct H|cbn [List.length]; lia].
Qed.

Lemma In_insert_pair k x ks : In k (Cohort.insert_pair x ks) -> k = x \/ In k ks.
Proof.
  induction ks as [|k0 rest IH]; cbn [Cohort.insert_pair].
  - intros [<-|[]]. now left.
  - destruct (Cohort.pair_compare x k0); cbn [In]; intros H.
    + now right.
    + destruct H as [<-|H]; auto.
    + destruct H as [<-|H]; auto. apply IH in H. tauto.
Qed.

(** A group of the cohort table holds at least one merged row. *)
Lemma buckets_inhabited rows k :
  In k (Cohort.buckets rows) ->
  exists mn, In mn rows /\ Cohort.bucket_of mn = Some k.
Proof.
  unfold Cohort.buckets.
  set (keys := flat_map _ rows).
  assert (Hkeys : forall k, In k keys -> exists mn, In mn rows /\ Cohort.bucket_of mn = Some k).
  { intros k0 Hk0. unfold keys in Hk0. apply in_flat_map in Hk0.
    destruct Hk0 as (mn & Hmn & Hin). exists mn. split; [exact Hmn|].
    destruct (Cohort.bucket_of mn) as [k1|]; [|destruct Hin].
    destruct Hin as [->|[]]. reflexivity. }
  clearbody keys. induction keys as [|x rest IH]; cbn [fold_right]; [intros []|].
  intros Hin. apply In_insert_pair in Hin. destruct Hin as [->|Hin].
  - apply Hkeys. now left.
  - apply IH; [|exact Hin]. intros k0 Hk0. apply Hkeys. now right.
Qed.

(** *** The merge of orders and cohorts *)

(** A merged row with a cohort comes from a customer row with the order's
    customer id and that cohort. *)
Lemma cohort_merge_cohort o c merged m p :
  Cohort.cohort_merge o c = Ok merged ->
  In m merged -> Cohort.m_cohort_group m = Per p ->
  exists groups,
    col "cohort_group" c = Ok groups /\
    In (Order.customer_id (Cohort.m_order m), Per p)
       (combine (map Customer.customer_id (rows c)) groups).
Proof.
  unfold Cohort.cohort_merge.
  destruct (col "cohort_group" c) as [groups|]; [|discriminate].
  destruct (has_col "cohort_group" o); [discriminate|].
  intros H Hm Hp. injection H as <-. exists groups. split; [reflexivity|].
  apply in_flat_map in Hm. destruct Hm as (op & _ & Hm). cbv beta in Hm.
  set (right := combine (map Customer.customer_id (rows c)) groups) in *.
  destruct (filter _ right) as [|kc0 rest] eqn:Ef.
  - destruct Hm as [<-|[]]. discriminate Hp.
  - assert (Hm' : In m (map (fun kc => Cohort.mkMerged (fst op) (snd op) (snd kc))
                            (kc0 :: rest))) by exact Hm.
    clear Hm. rewrite <- Ef in Hm'. apply in_map_iff in Hm'.
    destruct Hm' as (kc & <- & Hkc).
    apply filter_In in Hkc. destruct Hkc as [Hkc Heq]. apply String.eqb_eq in Heq.
    cbn [Cohort.m_order Cohort.m_cohort_group] in *.
    rewrite <- Heq, <- Hp. now destruct kc.
Qed.

Lemma with_period_numbers_In ms rows mn :
  Cohort.with_period_numbers ms = Ok rows -> In mn rows -> In (fst mn) ms.
Proof.
  revert rows. induction ms as [|m rest IH]; cbn [Cohort.with_period_numbers]; intros rows H.
  - injection H as <-. intros [].
  - destruct (Cohort.get_period_number m); [|discriminate].
    destruct (Cohort.with_period_numbers rest) as [ns|]; [|discriminate].
    injection H as <-. intros [<-|Hin]; [now left|right; eauto].
Qed.

Lemma cohort_sizes_find ids groups c s :
  find (fun s => Z.eqb (fst s) c) (Cohort.cohort_sizes ids groups) = Some s ->
  snd s = nunique (map fst (filter (fun kc => match Cohort.period_of (snd kc) with
                                              | Some p => Z.eqb p c
                                              | None => false
                                              end) (combine ids groups))).
Proof.
  intros H. apply find_some in H. destruct H as [Hin Heq].
  unfold Cohort.cohort_sizes in Hin. apply in_map_iff in Hin.
  destruct Hin as (g & <- & _). cbn [fst snd] in *. apply Z.eqb_eq in Heq. now subst g.
Qed.

Lemma ratio_is_proportion a b :
  1 <= a <= b -> (0 < inject_Z a / inject_Z b <= 1)%Q.
Proof.
  intros H. destruct b as [|p|p]; try lia.
  unfold Qlt, Qle, Qdiv, Qmult, Qinv, inject_Z. cbn [Qnum Qden].
  rewrite Pos.mul_1_l. lia.
Qed.

(** What a returning run of [create_signup_cohorts] has computed. *)
Lemma create_signup_cohorts_returns e e' table :
  Cohort.create_signup_cohorts e = (e', Ok table) ->
  exists o c merged data groups,
    rows c = map (Customer.with_signup_date to_datetime) (rows (customers_df e)) /\
    rows o = map (Order.with_order_date to_datetime) (rows (orders_df e)) /\
    Cohort.cohort_merge o c = Ok merged /\
    Cohort.with_period_numbers merged = Ok data /\
    col "cohort_group" c = Ok groups /\
    table = Cohort.cohort_rows
              (Cohort.cohort_sizes (map Customer.customer_id (rows c)) groups) data /\
    Cohort.cohort_data (self e') = Some table.
Proof.
  unfold Cohort.create_signup_cohorts, Py.bind, Py.get, Py.lift, Py.put, Py.ret,
    convert_signup_dates, convert_order_dates, Cohort.assign_periods.
  cbn [orders_df customers_df self set_orders set_customers set_self map_rows rows extra].
  do 3 returns_step.
  intros H. injection H as <- <-.
  eexists _, _, _, _, _.
  split; [|split; [|split; [eassumption|split; [eassumption|split; [eassumption|]]]]];
    try reflexivity.
  split; reflexivity.
Qed.

(** The counts of one row of the cohort table. *)
Lemma cohort_rows_counts o c merged data groups row :
  Cohort.cohort_merge o c = Ok merged ->
  Cohort.with_period_numbers merged = Ok data ->
  col "cohort_group" c = Ok groups ->
  In row (Cohort.cohort_rows
            (Cohort.cohort_sizes (map Customer.customer_id (rows c)) groups) data) ->
  1 <= Cohort.active_customers row <= Cohort.total_customers row /\
  Cohort.retention_rate row
  = (inject_Z (Cohort.active_customers row) / inject_Z (Cohort.total_customers row))%Q /\
  In (Cohort.cohort_group row, Cohort.period_number row) (Cohort.buckets data).
Proof.
  intros Hmerge Hdata Hgroups Hrow.
  unfold Cohort.cohort_rows in Hrow. apply in_flat_map in Hrow.
  destruct Hrow as (k & Hk & Hrow).
  destruct (find _ _) as [s|] eqn:Efind; [|destruct Hrow].
  destruct Hrow as [<-|[]].
  cbn [Cohort.active_customers Cohort.total_customers Cohort.retention_rate
       Cohort.cohort_group Cohort.period_number].
  rewrite (cohort_sizes_find _ _ _ _ Efind).
  split; [|split; [reflexivity|now destruct k]].
  split.
  - apply nunique_pos. destruct (buckets_inhabited _ _ Hk) as (mn & Hmn & Hb).
    assert (Hin : In mn (filter (Cohort.in_bucket k) data)).
    { apply filter_In. split; [exact Hmn|]. unfold Cohort.in_bucket. rewrite Hb.
      now rewrite !Z.eqb_refl. }
    intros Hnil. apply map_eq_nil in Hnil. rewrite Hnil in Hin. destruct Hin.
  - apply nunique_incl. intros x Hx. apply in_map_iff in Hx.
    destruct Hx as (mn & <- & Hmn). apply filter_In in Hmn. destruct Hmn as [Hmn Hb].
    unfold Cohort.in_bucket, Cohort.bucket_of in Hb.
    destruct (Cohort.m_cohort_group (fst mn)) as [| | |p] eqn:Ep; try discriminate Hb.
    destruct (snd mn) as [n|]; [|discriminate Hb]. cbn [fst snd] in Hb.
    apply andb_true_iff in Hb. destruct Hb as [Hb _]. apply Z.eqb_eq in Hb.
    pose proof (with_period_numbers_In _ _ _ Hdata Hmn) as Hmerged.
    destruct (cohort_merge_cohort _ _ _ _ _ Hmerge Hmerged Ep) as (groups' & Hg' & Hin).
    rewrite Hgroups in Hg'. injection Hg' as <-.
    apply in_map_iff. exists (Order.customer_id (Cohort.m_order (fst mn)), Per p).
    split; [reflexivity|]. apply filter_In. split; [exact Hin|].
    cbn [snd Cohort.period_of]. apply Z.eqb_eq. congruence.
Qed.

(** X15: every row of the cohort table [create_signup_cohorts] returns
    counts at least one active customer and never more active customers
    than the cohort has members, so every retention_rate lies in (0, 1]. *)
Theorem X15_retention_rate_is_a_proportion :
  forall (e e' : Env Cohort.CohortAnalyzer) (table : list Cohort.Row) (row : Cohort.Row),
    Cohort.create_signup_cohorts e = (e', Ok table) ->
    In row table ->
    1 <= Cohort.active_customers row <= Cohort.total_customers row /\
    Cohort.retention_rate row
    = (inject_Z (Cohort.active_customers row) / inject_Z (Cohort.total_customers row))%Q /\
    (0 < Cohort.retention_rate row <= 1)%Q.
Proof.
  intros e e' table row Hrun Hrow.
  destruct (create_signup_cohorts_returns _ _ _ Hrun)
    as (o & c & merged & data & groups & _ & _ & Hmerge & Hdata & Hgroups & -> & _).
  destruct (cohort_rows_counts _ _ _ _ _ _ Hmerge Hdata Hgroups Hrow)
    as (Hbounds & Hrate & _).
  split; [exact Hbounds|]. split; [exact Hrate|].
  rewrite Hrate. apply ratio_is_proportion. exact Hbounds.
Qed.

Lemma X15_retention_rate_is_a_proportion_witness :
  let row := Cohort.mkRow 0 0 1 2 (1 # 2) in
  1 <= Cohort.active_customers row <= Cohort.total_customers row /\
  Cohort.retention_rate row
  = (inject_Z (Cohort.active_customers row) / inject_Z (Cohort.total_customers row))%Q /\
  (0 < Cohort.retention_rate row <= 1)%Q.
Proof.
  cbv zeta.
  apply (X15_retention_rate_is_a_proportion Sample.cohort_env
           (fst (Cohort.create_signup_cohorts Sample.cohort_env))
           [Cohort.mkRow 0 0 1 2 (1 # 2)]).
  - vm_compute. reflexivity.
  - left. reflexivity.
Defined.

(** X16: [analyze_revenue_cohorts] prepares the period columns for the
    period type 'monthly' only.  With any other period type, on a customers
    table that has no [cohort_group] column yet, it raises a KeyError when
    it selects that column; by then both date columns have been converted
    in place. *)
Theorem X16_revenue_cohorts_need_monthly_periods :
  forall e : Env Cohort.CohortAnalyzer,
    Cohort.period_type (self e) <> "monthly" ->
    has_col "cohort_group" (customers_df e) = false ->
    Cohort.analyze_revenue_cohorts e
    = (set_orders (map_rows (Order.with_order_date to_datetime) (orders_df e))
         (set_customers (map_rows (Customer.with_signup_date to_datetime) (customers_df e))
                        e),
       Raise (KeyError "cohort_group")).
Proof.
  intros e Hpt Hcol.
  unfold Cohort.analyze_revenue_cohorts, Py.bind, Py.get, Py.lift, Py.ret,
    convert_signup_dates, convert_order_dates.
  cbn [orders_df customers_df self set_orders set_customers set_self map_rows rows extra].
  destruct (String.eqb (Cohort.period_type (self e)) "monthly") eqn:E.
  { apply String.eqb_eq in E. contradiction. }
  unfold Cohort.cohort_merge, col, Py.ret.
  cbn [orders_df customers_df self set_orders set_customers set_self map_rows rows extra].
  unfold has_col in Hcol.
  destruct (col_lookup "cohort_group" (extra (customers_df e))); [discriminate Hcol|].
  reflexivity.
Qed.

Lemma X16_revenue_cohorts_need_monthly_periods_witness :
  let e := mkEnv (orders_df Sample.cohort_env) (customers_df Sample.cohort_env)
                 (Cohort.init "weekly") in
  Cohort.analyze_revenue_cohorts e
  = (set_orders (map_rows (Order.with_order_date to_datetime) (orders_df e))
       (set_customers (map_rows (Customer.with_signup_date to_datetime) (customers_df e))
                      e),
     Raise (KeyError "cohort_group")).
Proof.
  cbv zeta.
  apply (X16_revenue_cohorts_need_monthly_periods
           (mkEnv (orders_df Sample.cohort_env) (customers_df Sample.cohort_env)
                  (Cohort.init "weekly"))).
  - vm_compute. discriminate.
  - vm_compute. reflexivity.
Defined.

Lemma position_In n cols : In n cols -> exists i, Cohort.position n cols = Some i.
Proof.
  induction cols as [|c rest IH]; [intros []|]. cbn [Cohort.position].
  destruct (Z.eqb c n) eqn:E; [now exists 0%nat|].
  intros [->|Hin]; [rewrite Z.eqb_refl in E; discriminate|].
  destruct (IH Hin) as [i Hi]. rewrite Hi. now exists (S i).
Qed.

Lemma position_not_In n cols : ~ In n cols -> Cohort.position n cols = None.
Proof.
  induction cols as [|c rest IH]; [reflexivity|]. cbn [Cohort.position]. intros Hn.
  destruct (Z.eqb c n) eqn:E.
  - apply Z.eqb_eq in E. exfalso. apply Hn. now left.
  - rewrite IH; [reflexivity|]. intros H. apply Hn. now right.
Qed.

(** X17: on a retention table with at least two period columns,
    [get_cohort_insights] returns exactly when one of the columns is period
    1; it then reports the retention trends, ends its recommendations with
    the three standing ones and changes nothing.  When no cohort has an
    order in period 1 (periods 0 and 2, say) it raises KeyError 1. *)
Theorem X17_insights_need_a_period_one_column :
  forall (e : Env Cohort.CohortAnalyzer) (t : Cohort.RetentionTable),
    Cohort.retention_table (self e) = Some t ->
    (2 <= List.length (Cohort.columns t))%nat ->
    (In 1 (Cohort.columns t) ->
     exists insights trends earlier,
       Cohort.get_cohort_insights e = (e, Ok insights) /\
       Cohort.retention_trends insights = Some trends /\
       Cohort.column_mean 1 t = Ok (Cohort.trend_1_month trends) /\
       Cohort.cohort_performance insights = Cohort.performance_of t /\
       Cohort.recommendations insights
       = (earlier ++ ["코호트별 맞춤형 마케팅 전략 수립";
                      "이탈 위험 고객 조기 발견 시스템 구축";
                      "고객 생애주기별 서비스 개선"])%list) /\
    (~ In 1 (Cohort.columns t) ->
     Cohort.get_cohort_insights e = (e, Raise (KeyError "1"))).
Proof.
  intros e t Ht Hlen.
  unfold Cohort.get_cohort_insights, Py.bind, Py.get, Py.lift, Py.ret, Py.raise,
    Cohort.read.
  rewrite Ht.
  assert (Hcols : (1 <? Z.of_nat (List.length (Cohort.columns t))) = true)
    by (apply Z.ltb_lt; lia).
  rewrite Hcols. unfold Cohort.column_mean. split.
  - intros Hin. destruct (position_In _ _ Hin) as [i Hi]. rewrite Hi.
    cbn [fst snd Cohort.month_1_retention Cohort.month_3_retention].
    eexists _, _, _. split; [reflexivity|].
    cbn [Cohort.retention_trends Cohort.cohort_performance Cohort.recommendations
         Cohort.trend_1_month].
    split; [reflexivity|]. split; [reflexivity|]. split; [reflexivity|].
    rewrite app_assoc. reflexivity.
  - intros Hnot. rewrite (position_not_In _ _ Hnot). reflexivity.
Qed.

Lemma X17_insights_need_a_period_one_column_witness :
  let t := Cohort.mkRetentionTable [0] [0; 2] [[1 # 1; 1 # 2]] in
  let e := mkEnv (orders_df Sample.cohort_env) (customers_df Sample.cohort_env)
                 (Cohort.mkCohortAnalyzer "monthly" None (Some t)) in
  (In 1 (Cohort.columns t) ->
   exists insights trends earlier,
     Cohort.get_cohort_insights e = (e, Ok insights) /\
     Cohort.retention_trends insights = Some trends /\
     Cohort.column_mean 1 t = Ok (Cohort.trend_1_month trends) /\
     Cohort.cohort_performance insights = Cohort.performance_of t /\
     Cohort.recommendations insights
     = (earlier ++ ["코호트별 맞춤형 마케팅 전략 수립";
                    "이탈 위험 고객 조기 발견 시스템 구축";
                    "고객 생애주기별 서비스 개선"])%list) /\
  (~ In 1 (Cohort.columns t) ->
   Cohort.get_cohort_insights e = (e, Raise (KeyError "1"))).
Proof.
  cbv zeta.
  apply (X17_insights_need_a_period_one_column
           (mkEnv (orders_df Sample.cohort_env) (customers_df Sample.cohort_env)
                  (Cohort.mkCohortAnalyzer "monthly" None
                     (Some (Cohort.mkRetentionTable [0] [0; 2] [[1 # 1; 1 # 2]]))))).
  - reflexivity.
  - cbn. lia.
Defined.

(** *** The retention matrix *)

Lemma pair_compare_lt a b :
  Cohort.pair_compare a b = Lt <->
  fst a < fst b \/ (fst a = fst b /\ snd a < snd b).
Proof.
  unfold Cohort.pair_compare.
  destruct (Z.compare_spec (fst a) (fst b)), (Z.compare_spec (snd a) (snd b));
    split; intros Hx; try discriminate Hx; try reflexivity; lia.
Qed.

Lemma pair_compare_gt a b :
  Cohort.pair_compare a b = Gt <->
  fst b < fst a \/ (fst a = fst b /\ snd b < snd a).
Proof.
  unfold Cohort.pair_compare.
  destruct (Z.compare_spec (fst a) (fst b)), (Z.compare_spec (snd a) (snd b));
    split; intros Hx; try discriminate Hx; try reflexivity; lia.
Qed.

Lemma insert_pair_sorted k ks :
  StronglySorted (fun a b => Cohort.pair_compare a b = Lt) ks ->
  StronglySorted (fun a b => Cohort.pair_compare a b = Lt) (Cohort.insert_pair k ks).
Proof.
  induction ks as [|k0 rest IH]; cbn [Cohort.insert_pair]; intros Hs.
  - constructor; constructor.
  - inversion Hs as [|? ? Hrest Hk0]; subst.
    destruct (Cohort.pair_compare k k0) eqn:E.
    + exact Hs.
    + constructor; [exact Hs|]. constructor; [exact E|].
      rewrite Forall_forall in Hk0 |- *. intros z Hz. specialize (Hk0 z Hz).
      apply pair_compare_lt in E, Hk0. apply pair_compare_lt. lia.
    + constructor; [auto|].
      rewrite Forall_forall in Hk0 |- *. intros z Hz.
      apply In_insert_pair in Hz. destruct Hz as [->|Hz]; [|auto].
      apply pair_compare_gt in E. apply pair_compare_lt. lia.
Qed.

(** The cohort table has at most one row per cohort and period. *)
Lemma buckets_NoDup rows : NoDup (Cohort.buckets rows).
Proof.
  unfold Cohort.buckets. set (keys := flat_map _ rows). clearbody keys.
  assert (Hs : StronglySorted (fun a b => Cohort.pair_compare a b = Lt)
                 (fold_right Cohort.insert_pair [] keys)).
  { induction keys as [|k rest IH]; [constructor|]. now apply insert_pair_sorted. }
  induction Hs as [|a l Hl IH Ha]; constructor; [|exact IH].
  intros Hin. rewrite Forall_forall in Ha. specialize (Ha a Hin).
  apply pair_compare_lt in Ha. lia.
Qed.

Lemma filter_all {A} (p : A -> bool) l :
  (forall x, In x l -> p x = true) -> filter p l = l.
Proof.
  induction l as [|x rest IH]; intros H; [reflexivity|]. cbn [filter].
  rewrite (H x (or_introl eq_refl)). f_equal. apply IH. intros y Hy. apply H. now right.
Qed.

Lemma filter_none {A} (p : A -> bool) l :
  (forall x, In x l -> p x = false) -> filter p l = [].
Proof.
  induction l as [|x rest IH]; intros H; [reflexivity|]. cbn [filter].
  rewrite (H x (or_introl eq_refl)). apply IH. intros y Hy. apply H. now right.
Qed.

Lemma pair_Z_eq_dec (a b : Z * Z) : {a = b} + {a <> b}.
Proof. decide equality; apply Z.eq_dec. Qed.

(** Selecting by key from a table that was built key by key. *)
Lemma filter_flat_map_absent {K A} (keyb : K -> A -> bool) (g : K -> list A) keys k0 :
  (forall k r, In r (g k) -> forall k', keyb k' r = true <-> k' = k) ->
  ~ In k0 keys ->
  filter (keyb k0) (flat_map g keys) = [].
Proof.
  intros Hkey Hnot. apply filter_none. intros r Hr. apply in_flat_map in Hr.
  destruct Hr as (k & Hk & Hr). apply not_true_is_false. intros Ht.
  apply (Hkey k r Hr) in Ht. subst k0. contradiction.
Qed.

Lemma filter_flat_map_present {K A} (keyb : K -> A -> bool) (g : K -> list A) keys k0 :
  NoDup keys ->
  (forall k r, In r (g k) -> forall k', keyb k' r = true <-> k' = k) ->
  In k0 keys ->
  filter (keyb k0) (flat_map g keys) = g k0.
Proof.
  intros Hnd Hkey. induction Hnd as [|k rest Hk Hrest IH]; [intros []|].
  intros Hin. cbn [flat_map]. rewrite filter_app.
  destruct Hin as [->|Hin].
  - rewrite (filter_flat_map_absent keyb g rest k0 Hkey Hk), app_nil_r.
    apply filter_all. intros r Hr. now apply (Hkey k0 r Hr).
  - rewrite (IH Hin).
    rewrite filter_none; [reflexivity|].
    intros r Hr. apply not_true_is_false. intros Ht. apply (Hkey k r Hr) in Ht.
    subst k0. contradiction.
Qed.

Lemma In_insert_Z_intro k x ks : k = x \/ In k ks -> In k (insert_Z x ks).
Proof.
  induction ks as [|k0 rest IH]; cbn [insert_Z].
  - intros [->|[]]. now left.
  - destruct (Z.compare_spec x k0); cbn [In]; intros H'.
    + subst k0. destruct H' as [->|H']; auto.
    + destruct H' as [->|H']; auto.
    + destruct H' as [->|[->|H']]; auto.
Qed.

Lemma group_keys_Z_In k ks : In k ks -> In k (group_keys_Z ks).
Proof.
  induction ks as [|x rest IH]; cbn [group_keys_Z fold_right]; [tauto|].
  intros [->|H]; apply In_insert_Z_intro; auto.
Qed.

Lemma mean_singleton x : exists v, mean [x] = Some v /\ (v == x)%Q.
Proof.
  eexists. split; [reflexivity|]. unfold sumQ, lenQ. cbn [fold_left List.length].
  change (inject_Z (Z.of_nat 1)) with 1%Q. field.
Qed.

(** X18: the retention matrix of [create_retention_table] has a line for
    every cohort and a column for every period of the cohort table; the
    cell of a cohort and a period is the retention rate of that cohort in
    that period (the cohort table has one row for it), and 0 when the
    cohort has no order in the period.  Every cell lies between 0 and 1. *)
Theorem X18_retention_matrix_cells :
  forall (e e1 e2 : Env Cohort.CohortAnalyzer) (table : list Cohort.Row)
         (t : Cohort.RetentionTable),
    Cohort.create_signup_cohorts e = (e1, Ok table) ->
    Cohort.create_retention_table e1 = (e2, Ok t) ->
    Cohort.retention_table (self e2) = Some t /\
    (forall r, In r table ->
       In (Cohort.cohort_group r) (Cohort.index t) /\
       In (Cohort.period_number r) (Cohort.columns t)) /\
    (forall i j c n,
        nth_error (Cohort.index t) i = Some c ->
        nth_error (Cohort.columns t) j = Some n ->
        exists line v,
          nth_error (Cohort.values t) i = Some line /\
          nth_error line j = Some v /\
          (0 <= v <= 1)%Q /\
          ((exists r, In r table /\ Cohort.cohort_group r = c /\
                      Cohort.period_number r = n /\ (v == Cohort.retention_rate r)%Q) \/
           ((forall r, In r table ->
                       ~ (Cohort.cohort_group r = c /\ Cohort.period_number r = n)) /\
            v = 0%Q))).
Proof.
  intros e e1 e2 table t Hrun Htable.
  destruct (create_signup_cohorts_returns _ _ _ Hrun)
    as (o & c0 & merged & data & groups & _ & _ & Hmerge & Hdata & Hgroups & Heq & Hself).
  unfold Cohort.create_retention_table, Py.bind, Py.get, Py.put, Py.ret in Htable.
  rewrite Hself in Htable. injection Htable as <- <-.
  split; [reflexivity|]. split.
  - intros r Hr. cbn [Cohort.pivot Cohort.index Cohort.columns]. split.
    + apply group_keys_Z_In. apply in_map_iff. now exists r.
    + apply group_keys_Z_In. apply in_map_iff. now exists r.
  - intros i j c n Hi Hj. unfold Cohort.pivot in *.
    cbn [Cohort.index Cohort.columns Cohort.values] in *.
    rewrite nth_error_map, Hi. cbn [option_map].
    eexists _, _. split; [reflexivity|].
    rewrite nth_error_map, Hj. cbn [option_map]. split; [reflexivity|].
    set (sizes := Cohort.cohort_sizes (map Customer.customer_id (rows c0)) groups) in *.
    set (g := fun k : Z * Z =>
                match find (fun s => Z.eqb (fst s) (fst k)) sizes with
                | Some s =>
                    [Cohort.mkRow (fst k) (snd k)
                       (nunique (map (fun mn => Order.customer_id (Cohort.m_order (fst mn)))
                                     (filter (Cohort.in_bucket k) data)))
                       (snd s)
                       (inject_Z (nunique (map (fun mn => Order.customer_id
                                                            (Cohort.m_order (fst mn)))
                                               (filter (Cohort.in_bucket k) data)))
                        / inject_Z (snd s))%Q]
                | None => []
                end).
    assert (Htab : table = flat_map g (Cohort.buckets data)) by (rewrite Heq; reflexivity).
    assert (Hkey : forall k r, In r (g k) ->
                     forall k', (Z.eqb (Cohort.cohort_group r) (fst k')
                                 && Z.eqb (Cohort.period_number r) (snd k'))%bool = true
                                <-> k' = k).
    { intros k r Hr k'. unfold g in Hr.
      destruct (find _ sizes); [|destruct Hr]. destruct Hr as [<-|[]].
      cbn [Cohort.cohort_group Cohort.period_number].
      rewrite andb_true_iff, !Z.eqb_eq. destruct k, k'. cbn [fst snd].
      split; [intros [-> ->]; reflexivity|intros H; injection H as -> ->; auto]. }
    change (filter (fun r => (Z.eqb (Cohort.cohort_group r) c
                              && Z.eqb (Cohort.period_number r) n)%bool) table)
      with (filter ((fun (k' : Z * Z) r => (Z.eqb (Cohort.cohort_group r) (fst k')
                                            && Z.eqb (Cohort.period_number r) (snd k'))%bool)
                      (c, n)) table).
    rewrite Htab.
    destruct (in_dec pair_Z_eq_dec (c, n) (Cohort.buckets data)) as [Hin|Hnot].
    + rewrite (filter_flat_map_present _ g _ (c, n) (buckets_NoDup data) Hkey Hin).
      remember (g (c, n)) as cell eqn:Ecell. unfold g in Ecell. cbn [fst snd] in Ecell.
      destruct (find _ sizes) as [s|] eqn:Es; subst cell.
      * destruct (mean_singleton
                    (inject_Z (nunique (map (fun mn => Order.customer_id
                                                         (Cohort.m_order (fst mn)))
                                            (filter (Cohort.in_bucket (c, n)) data)))
                     / inject_Z (snd s))%Q) as (v & Hv & Hvq).
        cbn [map Cohort.retention_rate]. rewrite Hv.
        assert (Hrow : In (Cohort.mkRow c n
                             (nunique (map (fun mn => Order.customer_id
                                                        (Cohort.m_order (fst mn)))
                                           (filter (Cohort.in_bucket (c, n)) data)))
                             (snd s)
                             (inject_Z (nunique (map (fun mn => Order.customer_id
                                                                  (Cohort.m_order (fst mn)))
                                                     (filter (Cohort.in_bucket (c, n)) data)))
                              / inject_Z (snd s))%Q)
                          (flat_map g (Cohort.buckets data))).
        { apply in_flat_map. exists (c, n). split; [exact Hin|].
          unfold g. cbn [fst snd]. rewrite Es. now left. }
        pose proof Hrow as Hrow'. rewrite <- Htab, Heq in Hrow'.
        destruct (cohort_rows_counts _ _ _ _ _ _ Hmerge Hdata Hgroups Hrow')
          as (Hbounds & _ & _).
        cbn [Cohort.active_customers Cohort.total_customers] in Hbounds.
        pose proof (ratio_is_proportion _ _ Hbounds) as [Hpos Hle].
        split.
        { rewrite Hvq. split; [now apply Qlt_le_weak|exact Hle]. }
        left. eexists. split; [exact Hrow|].
        cbn [Cohort.cohort_group Cohort.period_number Cohort.retention_rate].
        repeat split; try reflexivity. exact Hvq.
      * cbn [map mean]. split; [split; discriminate|]. right. split; [|reflexivity].
        intros r Hr Hcn. destruct Hcn as [Hc Hn]. apply in_flat_map in Hr. destruct Hr as (k & Hk & Hr).
        unfold g in Hr.
        destruct (find (fun s => Z.eqb (fst s) (fst k)) sizes) as [s|] eqn:Es';
          [|destruct Hr].
        destruct Hr as [<-|[]]. cbn [Cohort.cohort_group Cohort.period_number] in Hc, Hn.
        destruct k as [k1 k2]. cbn [fst snd] in *. subst. congruence.
    + rewrite (filter_flat_map_absent _ g _ (c, n) Hkey Hnot).
      cbn [map mean]. split; [split; discriminate|]. right. split; [|reflexivity].
      intros r Hr Hcn. destruct Hcn as [Hc Hn]. apply in_flat_map in Hr. destruct Hr as (k & Hk & Hr).
      unfold g in Hr.
      destruct (find (fun s => Z.eqb (fst s) (fst k)) sizes) as [s|]; [|destruct Hr].
      destruct Hr as [<-|[]]. cbn [Cohort.cohort_group Cohort.period_number] in Hc, Hn.
      destruct k as [k1 k2]. cbn [fst snd] in *. subst. contradiction.
Qed.

Lemma X18_retention_matrix_cells_witness :
  let table := [Cohort.mkRow 0 0 1 2 (1 # 2)] in
  let t := Cohort.mkRetentionTable [0] [0] [[1 # 2]] in
  Cohort.retention_table (self Sample.cohort_tabled_env) = Some t /\
  (forall r, In r table ->
     In (Cohort.cohort_group r) (Cohort.index t) /\
     In (Cohort.period_number r) (Cohort.columns t)) /\
  (forall i j c n,
      nth_error (Cohort.index t) i = Some c ->
      nth_error (Cohort.columns t) j = Some n ->
      exists line v,
        nth_error (Cohort.values t) i = Some line /\
        nth_error line j = Some v /\
        (0 <= v <= 1)%Q /\
        ((exists r, In r table /\ Cohort.cohort_group r = c /\
                    Cohort.period_number r = n /\ (v == Cohort.retention_rate r)%Q) \/
         ((forall r, In r table ->
                     ~ (Cohort.cohort_group r = c /\ Cohort.period_number r = n)) /\
          v = 0%Q))).
Proof.
  cbv zeta.
  apply (X18_retention_matrix_cells Sample.cohort_env
           (fst (Cohort.create_signup_cohorts Sample.cohort_env))
           Sample.cohort_tabled_env).
  - vm_compute. reflexivity.
  - vm_compute. reflexivity.
Defined.

(** ** Further properties of the behavioural segmentation *)

Lemma find_by_Z_key_present {A} (key : A -> Z) (f : Z -> A) keys id :
  (forall k, key (f k) = k) -> In id keys ->
  find (fun s => Z.eqb (key s) id) (map f keys) = Some (f id).
Proof.
  intros Hk. induction keys as [|k rest IH]; intros Hin; [destruct Hin|].
  cbn [map find]. rewrite Hk. destruct (Z.eqb k id) eqn:E.
  - apply Z.eqb_eq in E. now subst.
  - destruct Hin as [->|Hin]; [rewrite Z.eqb_refl in E; discriminate|auto].
Qed.





(** ** The scores of the extreme customers *)

Lemma count_if_all {A} (p : A -> bool) xs :
  (forall y, In y xs -> p y = true) -> count_if p xs = Z.of_nat (List.length xs).
Proof.
  intros H. unfold count_if. now rewrite filter_all.
Qed.

Lemma count_if_zero {A} (p : A -> bool) xs :
  (forall y, In y xs -> p y = false) -> count_if p xs = 0.
Proof.
  intros H. unfold count_if. now rewrite filter_none.
Qed.

(** All positions but one pass the test. *)
Lemma count_if_others {A} (p : A -> bool) xs i x :
  nth_error xs i = Some x -> p x = false ->
  (forall j y, j <> i -> nth_error xs j = Some y -> p y = true) ->
  count_if p xs = Z.of_nat (List.length xs) - 1.
Proof.
  revert i. induction xs as [|a rest IH]; intros [|i] Hi Hx Hall; cbn in Hi;
    try discriminate Hi.
  - apply some_inj in Hi. subst a. rewrite count_if_cons, Hx.
    rewrite count_if_all.
    + cbn [List.length]. lia.
    + intros y Hy. apply In_nth_error in Hy. destruct Hy as [j Hj].
      apply (Hall (S j) y); [discriminate|exact Hj].
  - rewrite count_if_cons, (Hall 0%nat a ltac:(discriminate) eq_refl).
    rewrite (IH i Hi Hx).
    + cbn [List.length]. lia.
    + intros j y Hj Hy. apply (Hall (S j) y); [congruence|exact Hy].
Qed.

Lemma firstn_others {A} (xs : list A) i y :
  In y (firstn i xs) -> exists j, j <> i /\ nth_error xs j = Some y.
Proof.
  intros Hy. apply In_nth_error in Hy. destruct Hy as [j Hj].
  rewrite nth_error_firstn in Hj. destruct (Nat.ltb_spec j i); [|discriminate Hj].
  exists j. split; [lia|exact Hj].
Qed.

(** The value that sorts after all others has the last rank. *)
Lemma rank_first_of_last (ascending : bool) (xs : list Q) i x r :
  nth_error xs i = Some x ->
  (forall j y, j <> i -> nth_error xs j = Some y ->
               (if ascending then Qltb y x else Qltb x y) = true) ->
  nth_error (rank_first ascending xs) i = Some r ->
  r = Z.of_nat (List.length xs).
Proof.
  intros Hx Hall Hr.
  rewrite (rank_first_nth _ _ _ _ Hx) in Hr. apply some_inj in Hr. subst r.
  rewrite (count_if_others _ xs i x Hx); [| |exact Hall].
  - rewrite count_if_zero; [lia|].
    intros y Hy. apply firstn_others in Hy. destruct Hy as (j & Hj & Hy).
    specialize (Hall j y Hj Hy). apply not_true_is_false. intros He.
    apply Qeq_bool_iff in He.
    destruct ascending; apply Qltb_lt in Hall; rewrite He in Hall;
      now apply Qlt_irrefl in Hall.
  - destruct ascending; apply Qltb_irrefl.
Qed.

(** The value that sorts before all others has rank 1. *)
Lemma rank_first_of_first (ascending : bool) (xs : list Q) i x r :
  nth_error xs i = Some x ->
  (forall j y, j <> i -> nth_error xs j = Some y ->
               (if ascending then Qltb x y else Qltb y x) = true) ->
  nth_error (rank_first ascending xs) i = Some r ->
  r = 1.
Proof.
  intros Hx Hall Hr.
  rewrite (rank_first_nth _ _ _ _ Hx) in Hr. apply some_inj in Hr. subst r.
  rewrite count_if_zero.
  - rewrite count_if_zero; [lia|].
    intros y Hy. apply firstn_others in Hy. destruct Hy as (j & Hj & Hy).
    specialize (Hall j y Hj Hy). apply not_true_is_false. intros He.
    apply Qeq_bool_iff in He.
    destruct ascending; apply Qltb_lt in Hall; rewrite He in Hall;
      now apply Qlt_irrefl in Hall.
  - intros y Hy. apply In_nth_error in Hy. destruct Hy as [j Hj].
    destruct (Nat.eq_dec j i) as [->|Hne].
    + rewrite Hx in Hj. apply some_inj in Hj. subst y.
      destruct ascending; apply Qltb_irrefl.
    + specialize (Hall j y Hne Hj). apply not_true_is_false. intros Hb.
      destruct ascending; apply Qltb_lt in Hall, Hb;
        apply (Qlt_irrefl x); eapply Qlt_trans; eauto.
Qed.

Lemma edge_bottom count : (Ranks.edge count 0 == 1)%Q.
Proof. unfold Ranks.edge, Qeq, Qplus. cbn [Qnum Qden]. lia. Qed.

Lemma edge_top count : (Ranks.edge count 5 == inject_Z (Z.of_nat count))%Q.
Proof. unfold Ranks.edge, Qeq, Qplus, inject_Z. cbn [Qnum Qden]. lia. Qed.

(** The last rank lies in the fifth bin, the first rank in the first. *)
Lemma bin_id_of_last_rank count v0 v1 v2 v3 v4 v5 :
  (2 <= count)%nat ->
  (v0 == Ranks.edge count 0)%Q -> (v1 == Ranks.edge count 1)%Q ->
  (v2 == Ranks.edge count 2)%Q -> (v3 == Ranks.edge count 3)%Q ->
  (v4 == Ranks.edge count 4)%Q -> (v5 == Ranks.edge count 5)%Q ->
  bin_id [v0; v1; v2; v3; v4; v5] (inject_Z (Z.of_nat count)) = Some 5.
Proof.
  intros Hc H0 H1 H2 H3 H4 H5. unfold bin_id, searchsorted_left.
  assert (Hlt : forall v k, (v == Ranks.edge count k)%Q -> k < 5 ->
                            Qltb v (inject_Z (Z.of_nat count)) = true).
  { intros v k Hv Hk. apply Qltb_lt. rewrite Hv, <- edge_top. now apply edge_lt. }
  assert (E0 : Qeq_bool (inject_Z (Z.of_nat count)) v0 = false).
  { apply not_true_is_false. intros He. apply Qeq_bool_iff in He.
    pose proof (Hlt v0 0 H0 ltac:(lia)) as Hl. apply Qltb_lt in Hl.
    rewrite He in Hl. now apply Qlt_irrefl in Hl. }
  rewrite E0. rewrite !count_if_cons.
  rewrite (Hlt v0 0 H0), (Hlt v1 1 H1), (Hlt v2 2 H2), (Hlt v3 3 H3), (Hlt v4 4 H4) by lia.
  assert (E5 : Qltb v5 (inject_Z (Z.of_nat count)) = false).
  { apply Qltb_ge. rewrite H5, edge_top. apply Qle_refl. }
  rewrite E5. reflexivity.
Qed.

Lemma bin_id_of_first_rank count v0 v1 v2 v3 v4 v5 :
  (v0 == Ranks.edge count 0)%Q ->
  bin_id [v0; v1; v2; v3; v4; v5] (inject_Z 1) = Some 1.
Proof.
  intros H0. unfold bin_id.
  assert (E0 : Qeq_bool (inject_Z 1) v0 = true).
  { apply Qeq_bool_iff. rewrite H0, edge_bottom. reflexivity. }
  rewrite E0. reflexivity.
Qed.

(** The scores at the two ends of a ranked column: the value ranked last
    gets the fifth label, the value ranked first gets the first label. *)
Lemma qcut_scores_of_extremes (ascending : bool) (values : list Q) labels cats scores
  i x s :
  qcut (map inject_Z (rank_first ascending values)) 5 labels = Ok cats ->
  astype_int cats = Ok scores ->
  nth_error values i = Some x ->
  nth_error scores i = Some s ->
  ((forall j y, j <> i -> nth_error values j = Some y ->
                (if ascending then Qltb y x else Qltb x y) = true) ->
   (2 <= List.length values)%nat ->
   nth_error labels 4 = Some s) /\
  ((forall j y, j <> i -> nth_error values j = Some y ->
                (if ascending then Qltb x y else Qltb y x) = true) ->
   nth_error labels 0 = Some s).
Proof.
  intros Hq Ha Hx Hs.
  unfold astype_int in Ha. destruct (all_some cats) as [zs|] eqn:Ez; [|discriminate].
  injection Ha as ->. pose proof (all_some_nth _ _ _ _ Ez Hs) as Hc.
  assert (Hi : (i < List.length values)%nat) by (apply nth_error_Some; congruence).
  destruct (nth_error (rank_first ascending values) i) as [r|] eqn:Hr;
    [|apply nth_error_None in Hr; rewrite rank_first_length in Hr; lia].
  assert (Hrq : nth_error (map inject_Z (rank_first ascending values)) i
                = Some (inject_Z r)) by (rewrite nth_error_map, Hr; reflexivity).
  destruct (qcut_nth _ _ _ _ _ _ Hq Hrq Hc) as (bins & id & Hb & Hid & Hl).
  destruct (List.length values) as [|n] eqn:En; [lia|].
  destruct (quantile_edges ascending values n En)
    as (v0 & v1 & v2 & v3 & v4 & v5 & Hedges & H0 & H1 & H2 & H3 & H4 & H5).
  rewrite Hedges in Hb. cbn [all_some] in Hb. apply some_inj in Hb. subst bins.
  split.
  - intros Hlast Hlen.
    pose proof (rank_first_of_last _ _ _ _ _ Hx Hlast Hr) as Hrank. rewrite En in Hrank.
    rewrite Hrank, (bin_id_of_last_rank (S n) v0 v1 v2 v3 v4 v5 Hlen H0 H1 H2 H3 H4 H5)
      in Hid.
    apply some_inj in Hid. subst id. exact Hl.
  - intros Hfirst.
    pose proof (rank_first_of_first _ _ _ _ _ Hx Hfirst Hr) as Hrank.
    rewrite Hrank, (bin_id_of_first_rank (S n) v0 v1 v2 v3 v4 v5 H0) in Hid.
    apply some_inj in Hid. subst id. exact Hl.
Qed.

Lemma aggregate_converted os :
  RFM.aggregate (map (Order.with_order_date to_datetime) os) = RFM.aggregate os.
Proof.
  unfold RFM.aggregate. rewrite map_map. cbn [Order.with_order_date Order.customer_id].
  apply map_ext. intros cid. rewrite orders_of_converted, length_map, !map_map.
  cbn [Order.with_order_date Order.order_date Order.final_amount].
  replace (map (fun o => day_of (to_datetime (Order.order_date o))) (orders_of cid os))
    with (map (fun o => day_of (Order.order_date o)) (orders_of cid os))
    by (apply map_ext; intros o; now destruct (Order.order_date o)).
  reflexivity.
Qed.

Lemma aggregate_ids os :
  map RFM.agg_customer_id (RFM.aggregate os) = group_keys (map Order.customer_id os).
Proof.
  unfold RFM.aggregate. rewrite map_map. cbn [RFM.agg_customer_id]. apply map_id.
Qed.

(** Two different rows of the aggregate belong to different customers. *)
Lemma aggregate_other os i j a a' :
  nth_error (RFM.aggregate os) i = Some a ->
  nth_error (RFM.aggregate os) j = Some a' ->
  j <> i ->
  In a' (filter (fun b => negb (String.eqb (RFM.agg_customer_id b) (RFM.agg_customer_id a)))
                (RFM.aggregate os)).
Proof.
  intros Hi Hj Hne. apply filter_In. split; [eapply nth_error_In; eauto|].
  apply negb_true_iff. apply String.eqb_neq. intros Heq. apply Hne.
  pose proof (group_keys_NoDup (map Order.customer_id os)) as Hnd.
  rewrite <- aggregate_ids in Hnd.
  apply (proj1 (NoDup_nth_error _) Hnd).
  - rewrite length_map. apply nth_error_Some. congruence.
  - rewrite !nth_error_map, Hi, Hj. cbn [option_map]. now rewrite Heq.
Qed.

Lemma qcut_returns_two_values ascending values labels cats :
  qcut (map inject_Z (rank_first ascending values)) 5 labels = Ok cats ->
  (2 <= List.length values)%nat.
Proof.
  intros Hq. destruct (Nat.le_gt_cases (List.length values) 1) as [Hle|Hgt]; [|lia].
  rewrite (qcut_needs_two_values _ _ _ Hle) in Hq. discriminate Hq.
Qed.

(** X20: the scores at the extremes, for any number of customers.  Among
    the customers with orders, the one whose last order is strictly the
    most recent gets R_score 1 and the one whose last order is strictly the
    oldest gets R_score 5; the strictly highest spender gets M_score 5 and
    the strictly lowest spender gets M_score 1. *)
Theorem X20_extreme_customers_get_extreme_scores :
  forall (e e' : Env RFM.RFMAnalyzer) (data : Frame RFM.Row) (row : RFM.Row) (latest : Z),
    RFM.calculate_rfm_scores e = (e', Ok data) ->
    In row (rows data) ->
    orders_of (Customer.customer_id (RFM.customer row)) (rows (orders_df e)) <> [] ->
    RFM.last_order_date row = Some latest ->
    let others :=
      filter (fun a => negb (String.eqb (RFM.agg_customer_id a)
                                        (Customer.customer_id (RFM.customer row))))
             (RFM.aggregate (rows (orders_df e))) in
    ((forall a, In a others -> RFM.agg_last_order_date a < latest) ->
     RFM.R_score row = 1) /\
    ((forall a, In a others -> latest < RFM.agg_last_order_date a) ->
     RFM.R_score row = 5) /\
    ((forall a, In a others -> (RFM.agg_monetary a < RFM.monetary row)%Q) ->
     RFM.M_score row = 5) /\
    ((forall a, In a others -> (RFM.monetary row < RFM.agg_monetary a)%Q) ->
     RFM.M_score row = 1).
Proof.
  intros e e' data row latest Hrun Hrow Hmine Hlatest. cbv zeta.
  destruct (row_of_ordering_customer _ _ _ _ Hrun Hrow Hmine)
    as (rcat & rs & fcat & fs & mcat & ms & i & a & Hqr & Har & _ & _ & Hqm & Ham
        & Hagg & Hid & Hlast & _ & Hmon & _ & HR & _ & HM).
  cbv zeta in *. rewrite aggregate_converted in *.
  rewrite Hlatest in Hlast. apply some_inj in Hlast. subst latest.
  rewrite <- Hid, Hmon.
  set (aggs := RFM.aggregate (rows (orders_df e))) in *.
  set (ref := RFM.reference_date (self e)) in *.
  assert (Hrec : nth_error (map inject_Z (map (fun b => ref - RFM.agg_last_order_date b) aggs)) i
                 = Some (inject_Z (ref - RFM.agg_last_order_date a)))
    by (rewrite !nth_error_map, Hagg; reflexivity).
  assert (Hval : nth_error (map RFM.agg_monetary aggs) i = Some (RFM.agg_monetary a))
    by (rewrite nth_error_map, Hagg; reflexivity).
  destruct (qcut_scores_of_extremes _ _ _ _ _ _ _ _ Hqr Har Hrec HR) as [HRlast HRfirst].
  destruct (qcut_scores_of_extremes _ _ _ _ _ _ _ _ Hqm Ham Hval HM) as [HMlast HMfirst].
  pose proof (qcut_returns_two_values _ _ _ _ Hqr) as Hlen_r.
  pose proof (qcut_returns_two_values _ _ _ _ Hqm) as Hlen_m.
  assert (Hother : forall j b, j <> i -> nth_error aggs j = Some b ->
            In b (filter (fun b => negb (String.eqb (RFM.agg_customer_id b)
                                                    (RFM.agg_customer_id a))) aggs)).
  { intros j b Hj Hb. eapply aggregate_other; eauto. }
  repeat split.
  - intros Hall.
    assert (Hs : nth_error [5; 4; 3; 2; 1] 4 = Some (RFM.R_score row)).
    { apply HRlast; [|exact Hlen_r]. intros j y Hj Hy.
      rewrite !nth_error_map in Hy. destruct (nth_error aggs j) as [b|] eqn:Hb;
        [|discriminate Hy]. cbn [option_map] in Hy. apply some_inj in Hy. subst y.
      apply Qltb_lt. rewrite <- Zlt_Qlt.
      specialize (Hall b (Hother j b Hj Hb)). lia. }
    cbn in Hs. now apply some_inj in Hs.
  - intros Hall.
    assert (Hs : nth_error [5; 4; 3; 2; 1] 0 = Some (RFM.R_score row)).
    { apply HRfirst. intros j y Hj Hy.
      rewrite !nth_error_map in Hy. destruct (nth_error aggs j) as [b|] eqn:Hb;
        [|discriminate Hy]. cbn [option_map] in Hy. apply some_inj in Hy. subst y.
      apply Qltb_lt. rewrite <- Zlt_Qlt.
      specialize (Hall b (Hother j b Hj Hb)). lia. }
    cbn in Hs. now apply some_inj in Hs.
  - intros Hall.
    assert (Hs : nth_error [1; 2; 3; 4; 5] 4 = Some (RFM.M_score row)).
    { apply HMlast; [|exact Hlen_m]. intros j y Hj Hy.
      rewrite nth_error_map in Hy. destruct (nth_error aggs j) as [b|] eqn:Hb;
        [|discriminate Hy]. cbn [option_map] in Hy. apply some_inj in Hy. subst y.
      apply Qltb_lt. exact (Hall b (Hother j b Hj Hb)). }
    cbn in Hs. now apply some_inj in Hs.
  - intros Hall.
    assert (Hs : nth_error [1; 2; 3; 4; 5] 0 = Some (RFM.M_score row)).
    { apply HMfirst. intros j y Hj Hy.
      rewrite nth_error_map in Hy. destruct (nth_error aggs j) as [b|] eqn:Hb;
        [|discriminate Hy]. cbn [option_map] in Hy. apply some_inj in Hy. subst y.
      apply Qltb_lt. exact (Hall b (Hother j b Hj Hb)). }
    cbn in Hs. now apply some_inj in Hs.
Qed.

Lemma X20_extreme_customers_get_extreme_scores_witness :
  let row := nth 0 (rows Sample.rfm_scored) Sample.no_row in
  RFM.R_score row = 1 /\ RFM.M_score row = 1.
Proof.
  cbv zeta.
  destruct (X20_extreme_customers_get_extreme_scores Sample.rfm_env
              (fst (RFM.calculate_rfm_scores Sample.rfm_env)) Sample.rfm_scored
              (nth 0 (rows Sample.rfm_scored) Sample.no_row) 99)
    as (Hrecent & _ & _ & Hlowest).
  - vm_compute. reflexivity.
  - vm_compute. left. reflexivity.
  - vm_compute. discriminate.
  - vm_compute. reflexivity.
  - split.
    + apply Hrecent. intros a Ha. vm_compute in Ha.
      repeat (destruct Ha as [<-|Ha]; [vm_compute; reflexivity|]). destruct Ha.
    + apply Hlowest. intros a Ha. vm_compute in Ha.
      repeat (destruct Ha as [<-|Ha]; [vm_compute; reflexivity|]). destruct Ha.
Defined.

(** ** Revenue cohorts *)






(** ** CLV insights *)











(** X23: [get_clv_insights] by stage of the analysis.  Without a CLV table
    it raises the usage error.  After [calculate_historical_clv] alone the
    guard passes and the lookup of predictive_clv raises a KeyError.  After
    [calculate_predictive_clv], before any segmentation, it returns the
    overall figures and the recommendations without a 'segments' entry.
    In no case is anything changed. *)
Theorem X23_clv_insights_by_stage :
  forall e : Env CLV.CLVAnalyzer,
    (CLV.clv_data (self e) = None ->
     exists msg, CLVInsights.get_clv_insights e = (e, Raise (ValueError msg))) /\
    (forall data,
        CLV.clv_data (self e) = Some data ->
        has_col "predictive_clv" data = false ->
        CLVInsights.get_clv_insights e = (e, Raise (KeyError "predictive_clv"))) /\
    (forall data qs,
        CLV.clv_data (self e) = Some data ->
        col "predictive_clv" data = Ok (map Num qs) ->
        has_col "clv_segment" data = false ->
        exists insights,
          CLVInsights.get_clv_insights e = (e, Ok insights) /\
          CLVInsights.segments insights = None /\
          CLVInsights.total_predicted_clv (CLVInsights.overall insights) = sumQ qs /\
          CLVInsights.average_clv (CLVInsights.overall insights) = mean qs /\
          CLVInsights.total_customers (CLVInsights.overall insights)
          = Z.of_nat (List.length (rows data)) /\
          CLVInsights.recommendations insights = CLVInsights.recommendations_table).
Proof.
  intros e. unfold CLVInsights.get_clv_insights, Py.bind, Py.get, Py.lift, Py.ret, Py.raise.
  split; [|split].
  - intros H. rewrite H. eexists. reflexivity.
  - intros data Hdata Hcol. rewrite Hdata. unfold has_col in Hcol. unfold col.
    destruct (col_lookup "predictive_clv" (extra data)); [discriminate Hcol|reflexivity].
  - intros data qs Hdata Hcol Hseg. rewrite Hdata, Hcol, as_nums_all_Num.
    unfold has_col in Hseg.
    destruct (col_lookup "clv_segment" (extra data)); [discriminate Hseg|].
    assert (Hpresent : CLVInsights.present (map Some qs) = qs) by apply present_all.
    rewrite Hpresent. eexists. split; [reflexivity|]. repeat split; reflexivity.
Qed.

Lemma X23_clv_insights_by_stage_witness :
  CLVInsights.get_clv_insights Sample.clv_historical_env
  = (Sample.clv_historical_env, Raise (KeyError "predictive_clv")).
Proof.
  apply (proj1 (proj2 (X23_clv_insights_by_stage Sample.clv_historical_env))
               Sample.clv_historical).
  - vm_compute. reflexivity.
  - vm_compute. reflexivity.
Defined.

(** ** What the cohort table counts *)

Lemma to_period_ordinal pt d : Cohort.to_period pt d = Per (Spec.period_ordinal pt d).
Proof.
  unfold Cohort.to_period, Spec.period_ordinal.
  destruct (String.eqb pt "monthly"); [reflexivity|].
  destruct (String.eqb pt "weekly"); reflexivity.
Qed.

Lemma period_ordinal_converted pt d :
  Spec.period_ordinal pt (to_datetime d) = Spec.period_ordinal pt d.
Proof. unfold Spec.period_ordinal. now destruct d. Qed.

Lemma combine_map_r {A B} (f : A -> B) (l : list A) :
  combine l (map f l) = map (fun x => (x, f x)) l.
Proof. induction l as [|x rest IH]; cbn; [reflexivity|now rewrite IH]. Qed.

Lemma combine_map_both {A B C} (f : A -> B) (g : A -> C) (l : list A) :
  combine (map f l) (map g l) = map (fun x => (f x, g x)) l.
Proof. induction l as [|x rest IH]; cbn; [reflexivity|now rewrite IH]. Qed.

Lemma with_period_numbers_spec ms data :
  Cohort.with_period_numbers ms = Ok data ->
  forall m n, In (m, n) data <-> In m ms /\ Cohort.get_period_number m = Ok n.
Proof.
  revert data. induction ms as [|m0 rest IH]; cbn [Cohort.with_period_numbers]; intros data H.
  - injection H as <-. intros m n. cbn [In]. tauto.
  - destruct (Cohort.get_period_number m0) as [n0|] eqn:E0; [|discriminate H].
    destruct (Cohort.with_period_numbers rest) as [ns|]; [|discriminate H].
    injection H as <-. intros m n. cbn [In]. rewrite (IH ns eq_refl m n). split.
    + intros [Heq|[Hin Hn]]; [|tauto]. injection Heq as <- <-. tauto.
    + intros [[<-|Hin] Hn]; [|tauto]. left. f_equal. congruence.
Qed.

(** What a returning run of [create_signup_cohorts] has computed, with the
    two period columns spelled out. *)
Lemma create_signup_cohorts_explicit e e' table :
  Cohort.create_signup_cohorts e = (e', Ok table) ->
  let pt := Cohort.period_type (self e) in
  let customers := map (Customer.with_signup_date to_datetime) (rows (customers_df e)) in
  let orders := map (Order.with_order_date to_datetime) (rows (orders_df e)) in
  let right := map (fun m => (Customer.customer_id m,
                              Cohort.to_period pt (Customer.signup_date m))) customers in
  let merged :=
    flat_map
      (fun op : Order.t * option Cell =>
         match filter (fun kc => String.eqb (fst kc) (Order.customer_id (fst op))) right with
         | [] => [Cohort.mkMerged (fst op) (snd op) NaN]
         | matches => map (fun kc => Cohort.mkMerged (fst op) (snd op) (snd kc)) matches
         end)
      (map (fun o => (o, Some (Cohort.to_period pt (Order.order_date o)))) orders) in
  exists data,
    Cohort.with_period_numbers merged = Ok data /\
    table = Cohort.cohort_rows
              (Cohort.cohort_sizes
                 (map Customer.customer_id customers)
                 (map (fun m => Cohort.to_period pt (Customer.signup_date m)) customers))
              data.
Proof.
  unfold Cohort.create_signup_cohorts, Py.bind, Py.get, Py.lift, Py.put, Py.ret,
    convert_signup_dates, convert_order_dates, Cohort.assign_periods.
  cbn [orders_df customers_df self set_orders set_customers set_self map_rows rows extra].
  unfold Cohort.cohort_merge. rewrite !col_set_col_same.
  destruct (has_col "cohort_group" _); [intros H; discriminate H|].
  unfold set_col. cbn [rows extra map_rows].
  rewrite col_lookup_assign_same. rewrite combine_map_both.
  rewrite (map_map _ Some), combine_map_r.
  cbv zeta. returns_step. intros H. injection H as _ <-. cbv zeta.
  eexists. split; reflexivity.
Qed.

Lemma filter_map_comm {A B} (p : B -> bool) (g : A -> B) l :
  filter p (map g l) = map g (filter (fun x => p (g x)) l).
Proof.
  induction l as [|x rest IH]; cbn [map filter]; [reflexivity|].
  destruct (p (g x)); cbn [map]; now rewrite IH.
Qed.

Lemma nunique_same l1 l2 : incl l1 l2 -> incl l2 l1 -> nunique l1 = nunique l2.
Proof. intros H1 H2. apply Z.le_antisymm; now apply nunique_incl. Qed.

(** X24: what the cohort table counts.  In the row of cohort [c] and
    period [n], active_customers is the number of distinct customers who
    belong to the cohort (signed up in period [c]) and placed an order [n]
    periods later, and total_customers is the number of distinct members of
    the cohort.  The retention of period 0 is therefore the share of the
    members who ordered in the period they signed up in. *)
Theorem X24_cohort_table_counts_members_who_ordered :
  forall (e e' : Env Cohort.CohortAnalyzer) (table : list Cohort.Row) (row : Cohort.Row),
    Cohort.create_signup_cohorts e = (e', Ok table) ->
    In row table ->
    let pt := Cohort.period_type (self e) in
    Cohort.active_customers row
    = nunique (map Order.customer_id
                   (Spec.orders_of_cohort_in_period pt (Cohort.cohort_group row)
                      (Cohort.period_number row)
                      (rows (customers_df e)) (rows (orders_df e)))) /\
    Cohort.total_customers row
    = nunique (map Customer.customer_id
                   (Spec.members_of_cohort pt (Cohort.cohort_group row)
                      (rows (customers_df e)))).
Proof.
  intros e e' table row Hrun Hrow. cbv zeta.
  destruct (create_signup_cohorts_explicit _ _ _ Hrun) as (data & Hdata & ->).
  cbv zeta in Hdata.
  set (pt := Cohort.period_type (self e)) in *.
  set (customers := map (Customer.with_signup_date to_datetime) (rows (customers_df e))) in *.
  set (orders := map (Order.with_order_date to_datetime) (rows (orders_df e))) in *.
  set (right := map (fun m => (Customer.customer_id m,
                               Cohort.to_period pt (Customer.signup_date m))) customers) in *.
  set (merged := flat_map _ _) in Hdata.
  unfold Cohort.cohort_rows in Hrow. apply in_flat_map in Hrow.
  destruct Hrow as ([c n] & Hk & Hrow). cbn [fst snd] in Hrow.
  destruct (find _ _) as [s|] eqn:Efind; [|destruct Hrow].
  destruct Hrow as [<-|[]].
  cbn [Cohort.active_customers Cohort.total_customers Cohort.cohort_group
       Cohort.period_number].
  pose proof (with_period_numbers_spec _ _ Hdata) as Hspec.
  split.
  - apply nunique_same.
    + intros x Hx. apply in_map_iff in Hx. destruct Hx as ([m num] & <- & Hin).
      apply filter_In in Hin. destruct Hin as [Hin Hb].
      apply Hspec in Hin. destruct Hin as [Hm Hnum].
      unfold Cohort.in_bucket, Cohort.bucket_of in Hb. cbn [fst snd] in Hb |- *.
      destruct (Cohort.m_cohort_group m) as [| | |c'] eqn:Ec; try discriminate Hb.
      destruct num as [n'|]; [|discriminate Hb]. cbn [fst snd] in Hb.
      apply andb_true_iff in Hb. destruct Hb as [Hc Hn].
      apply Z.eqb_eq in Hc, Hn. subst c' n'.
      unfold merged in Hm. apply in_flat_map in Hm. destruct Hm as (op & Hop & Hm).
      apply in_map_iff in Hop. destruct Hop as (o & <- & Ho). cbn [fst snd] in Hm.
      unfold orders in Ho. apply in_map_iff in Ho. destruct Ho as (o0 & <- & Ho0).
      destruct (filter _ right) as [|kc0 rest] eqn:Ef.
      { destruct Hm as [<-|[]]. discriminate Ec. }
      assert (Hm' : In m (map (fun kc => Cohort.mkMerged
                                           (Order.with_order_date to_datetime o0)
                                           (Some (Cohort.to_period pt
                                                    (Order.order_date
                                                       (Order.with_order_date to_datetime
                                                          o0))))
                                           (snd kc)) (kc0 :: rest))) by exact Hm.
      clear Hm. rewrite <- Ef in Hm'. apply in_map_iff in Hm'.
      destruct Hm' as (kc & <- & Hkc). apply filter_In in Hkc. destruct Hkc as [Hkc Hid].
      apply String.eqb_eq in Hid. unfold right in Hkc. apply in_map_iff in Hkc.
      destruct Hkc as (cust & <- & Hcust). unfold customers in Hcust.
      apply in_map_iff in Hcust. destruct Hcust as (cust0 & <- & Hcust0).
      cbn [fst snd Cohort.m_order Cohort.m_cohort_group Cohort.m_order_period
           Order.with_order_date Order.customer_id Order.order_date
           Customer.with_signup_date Customer.customer_id Customer.signup_date] in *.
      rewrite to_period_ordinal, period_ordinal_converted in Ec.
      injection Ec as Ec.
      unfold Cohort.get_period_number in Hnum.
      cbn [Cohort.m_cohort_group Cohort.m_order_period] in Hnum.
      rewrite !to_period_ordinal, !period_ordinal_converted in Hnum.
      injection Hnum as Hnum.
      apply in_map_iff. exists o0. split; [reflexivity|].
      unfold Spec.orders_of_cohort_in_period. apply filter_In. split; [exact Ho0|].
      apply andb_true_iff. split.
      * apply existsb_exists. exists cust0. split; [exact Hcust0|].
        apply andb_true_iff. split; [now apply String.eqb_eq|now apply Z.eqb_eq].
      * apply Z.eqb_eq. rewrite <- Ec. exact Hnum.
    + intros x Hx. apply in_map_iff in Hx. destruct Hx as (o0 & <- & Ho0).
      unfold Spec.orders_of_cohort_in_period in Ho0. apply filter_In in Ho0.
      destruct Ho0 as [Ho0 Hphi]. apply andb_true_iff in Hphi. destruct Hphi as [Hex Hn].
      apply existsb_exists in Hex. destruct Hex as (cust0 & Hcust0 & Hc).
      apply andb_true_iff in Hc. destruct Hc as [Hid Hc].
      apply String.eqb_eq in Hid. apply Z.eqb_eq in Hc, Hn.
      set (o := Order.with_order_date to_datetime o0).
      set (m := Cohort.mkMerged o (Some (Cohort.to_period pt (Order.order_date o))) (Per c)).
      assert (Hm : In m merged).
      { unfold merged. apply in_flat_map.
        exists (o, Some (Cohort.to_period pt (Order.order_date o))). split.
        - apply in_map_iff. exists o. split; [reflexivity|].
          unfold orders. apply in_map_iff. now exists o0.
        - cbn [fst snd].
          assert (Hkc : In (Customer.customer_id cust0, Per c)
                           (filter (fun kc => String.eqb (fst kc) (Order.customer_id o))
                                   right)).
          { apply filter_In. split.
            - unfold right. apply in_map_iff.
              exists (Customer.with_signup_date to_datetime cust0). split.
              + cbn [Customer.with_signup_date Customer.customer_id Customer.signup_date].
                now rewrite to_period_ordinal, period_ordinal_converted, Hc.
              + unfold customers. apply in_map_iff. now exists cust0.
            - cbn [fst]. apply String.eqb_eq. exact Hid. }
          destruct (filter _ right) as [|kc0 rest] eqn:Ef; [destruct Hkc|].
          change (In m (map (fun kc => Cohort.mkMerged o
                                         (Some (Cohort.to_period pt (Order.order_date o)))
                                         (snd kc)) (kc0 :: rest))).
          apply in_map_iff. exists (Customer.customer_id cust0, Per c).
          split; [reflexivity|exact Hkc]. }
      assert (Hnum : Cohort.get_period_number m = Ok (Some n)).
      { unfold Cohort.get_period_number, m, o.
        cbn [Cohort.m_cohort_group Cohort.m_order_period Order.with_order_date
             Order.order_date].
        rewrite to_period_ordinal, period_ordinal_converted. now rewrite Hn. }
      apply in_map_iff. exists (m, Some n). split; [reflexivity|].
      apply filter_In. split; [apply Hspec; auto|].
      unfold Cohort.in_bucket, Cohort.bucket_of. cbn [fst snd Cohort.m_cohort_group m].
      now rewrite !Z.eqb_refl.
  - rewrite (cohort_sizes_find _ _ _ _ Efind). cbn [fst]. f_equal.
    rewrite combine_map_both, filter_map_comm, map_map. cbn [fst snd].
    unfold customers. rewrite filter_map_comm, map_map.
    cbn [Customer.with_signup_date Customer.customer_id Customer.signup_date].
    unfold Spec.members_of_cohort. f_equal. apply filter_ext. intros m.
    now rewrite to_period_ordinal, period_ordinal_converted.
Qed.

Lemma X24_cohort_table_counts_members_who_ordered_witness :
  let row := Cohort.mkRow 0 0 1 2 (1 # 2) in
  Cohort.active_customers row
  = nunique (map Order.customer_id
                 (Spec.orders_of_cohort_in_period "monthly" (Cohort.cohort_group row)
                    (Cohort.period_number row)
                    (rows (customers_df Sample.cohort_env))
                    (rows (orders_df Sample.cohort_env)))) /\
  Cohort.total_customers row
  = nunique (map Customer.customer_id
                 (Spec.members_of_cohort "monthly" (Cohort.cohort_group row)
                    (rows (customers_df Sample.cohort_env)))).
Proof.
  cbv zeta.
  apply (X24_cohort_table_counts_members_who_ordered Sample.cohort_env
           (fst (Cohort.create_signup_cohorts Sample.cohort_env))
           [Cohort.mkRow 0 0 1 2 (1 # 2)]).
  - vm_compute. reflexivity.
  - left. reflexivity.
Defined.
